(** * Tontine: contribution accrual and ledger reconciliation

    A shallow embedding of the calculation core of [tontine_app.py]
    (dates, accrual per month, cumulative due, member status, scheme
    totals, the bank deposit guard and the monthly collection table),
    followed by the properties of that code.

    Conventions of the embedding:
    - Python [int] is [Z]; a [datetime.date] is a record of three [Z]
      fields, built through [date_new], which raises [ValueError] exactly
      where Python's constructor does (year 1..9999, month 1..12, day
      1..days in month);
    - code that can raise returns a [result]; the [while] loop of
      [months_between] runs on fuel and reports [OutOfFuel] if the fuel
      is exhausted before the loop condition turns false;
    - the SQLite tables are lists of rows inside a [db] record, threaded
      explicitly through the request handlers. *)

From Stdlib Require Import ZArith List Bool Lia String Ascii Sorted.
Import ListNotations.
Local Open Scope Z_scope.

(** ** Exceptions and results *)

Inductive exn : Type :=
| ValueError      (* raised by date(...) and date.fromordinal(...) *)
| IntegrityError  (* raised by sqlite3 on a violated constraint *)
| OverflowError   (* raised by sqlite3 on binding an int outside 64 bits *)
| OperationalError (* raised by sqlite3, here on the overflow of a SUM *)
| OutOfFuel.      (* the loop model ran out of fuel *)

Inductive result (A : Type) : Type :=
| Ok (a : A)
| Raise (e : exn).
Arguments Ok {A} a.
Arguments Raise {A} e.

Definition bind {A B : Type} (r : result A) (k : A -> result B) : result B :=
  match r with
  | Ok a => k a
  | Raise e => Raise e
  end.

Notation "x <- c ;; k" := (bind c (fun x => k))
  (at level 61, c at next level, right associativity).

(** ** Calendar dates, after CPython's [datetime] *)

Module Date.

Record date : Type := mkdate { year : Z; month : Z; day : Z }.

Definition MINYEAR : Z := 1.
Definition MAXYEAR : Z := 9999.

Definition is_leap (y : Z) : bool :=
  (y mod 4 =? 0) && (negb (y mod 100 =? 0) || (y mod 400 =? 0)).

(* _DAYS_IN_MONTH, indexed 1..12 *)
Definition DAYS_IN_MONTH (m : Z) : Z :=
  match m with
  | 1 => 31 | 2 => 28 | 3 => 31 | 4 => 30 | 5 => 31 | 6 => 30
  | 7 => 31 | 8 => 31 | 9 => 30 | 10 => 31 | 11 => 30 | 12 => 31
  | _ => -1
  end.

(* _DAYS_BEFORE_MONTH, indexed 1..12 *)
Definition DAYS_BEFORE_MONTH (m : Z) : Z :=
  match m with
  | 1 => 0 | 2 => 31 | 3 => 59 | 4 => 90 | 5 => 120 | 6 => 151
  | 7 => 181 | 8 => 212 | 9 => 243 | 10 => 273 | 11 => 304 | 12 => 334
  | _ => -1
  end.

Definition days_before_year (y : Z) : Z :=
  let y := y - 1 in
  y * 365 + y / 4 - y / 100 + y / 400.

Definition days_in_month (y m : Z) : Z :=
  if (m =? 2) && is_leap y then 29 else DAYS_IN_MONTH m.

Definition days_before_month (y m : Z) : Z :=
  DAYS_BEFORE_MONTH m + (if (2 <? m) && is_leap y then 1 else 0).

Definition ymd2ord (y m d : Z) : Z :=
  days_before_year y + days_before_month y m + d.

Definition DI400Y : Z := 146097.
Definition DI100Y : Z := 36524.
Definition DI4Y : Z := 1461.

(* The month and day of the n-th day (from 0) of a year: the second half
   of _ord2ymd. *)
Definition month_of_yday (year : Z) (leapyear : bool) (n : Z) : Z * Z * Z :=
  let month := Z.shiftr (n + 50) 5 in
  let preceding :=
    DAYS_BEFORE_MONTH month + (if (2 <? month) && leapyear then 1 else 0) in
  if n <? preceding then
    let month := month - 1 in
    let preceding :=
      preceding
      - (DAYS_IN_MONTH month + (if (month =? 2) && leapyear then 1 else 0)) in
    (year, month, n - preceding + 1)
  else (year, month, n - preceding + 1).

(* _ord2ymd *)
Definition ord2ymd (n : Z) : Z * Z * Z :=
  let n := n - 1 in
  let n400 := n / DI400Y in
  let n := n mod DI400Y in
  let year := n400 * 400 + 1 in
  let n100 := n / DI100Y in
  let n := n mod DI100Y in
  let n4 := n / DI4Y in
  let n := n mod DI4Y in
  let n1 := n / 365 in
  let n := n mod 365 in
  let year := year + (n100 * 100 + n4 * 4 + n1) in
  if (n1 =? 4) || (n100 =? 4) then (year - 1, 12, 31)
  else
    let leapyear := (n1 =? 3) && (negb (n4 =? 24) || (n100 =? 3)) in
    month_of_yday year leapyear n.

(* _check_date_fields *)
Definition valid_dateb (y m d : Z) : bool :=
  (MINYEAR <=? y) && (y <=? MAXYEAR) &&
  (1 <=? m) && (m <=? 12) &&
  (1 <=? d) && (d <=? days_in_month y m).

(* date(y, m, d) *)
Definition date_new (y m d : Z) : result date :=
  if valid_dateb y m d then Ok (mkdate y m d) else Raise ValueError.

Definition toordinal (d : date) : Z := ymd2ord (year d) (month d) (day d).

Definition fromordinal (n : Z) : result date :=
  let '(y, m, d) := ord2ymd n in date_new y m d.

(* Comparison of dates is comparison of the (year, month, day) tuples. *)
Definition date_eqb (a b : date) : bool :=
  (year a =? year b) && (month a =? month b) && (day a =? day b).

Definition date_ltb (a b : date) : bool :=
  (year a <? year b)
  || ((year a =? year b)
      && ((month a <? month b)
          || ((month a =? month b) && (day a <? day b)))).

Definition date_leb (a b : date) : bool := negb (date_ltb b a).

(* min(a, b) and max(a, b) of Python keep the first argument on ties. *)
Definition date_min (a b : date) : date := if date_ltb b a then b else a.
Definition date_max (a b : date) : date := if date_ltb a b then b else a.

(* (a - b).days *)
Definition days_between (a b : date) : Z := toordinal a - toordinal b.

Definition valid_date (d : date) : Prop :=
  valid_dateb (year d) (month d) (day d) = true.

End Date.
Import Date.

(* Comparison of (year, month) tuples. *)
Definition ym_ltb (a b : Z * Z) : bool :=
  (fst a <? fst b) || ((fst a =? fst b) && (snd a <? snd b)).
Definition ym_leb (a b : Z * Z) : bool := negb (ym_ltb b a).
Definition ym_eqb (a b : Z * Z) : bool :=
  (fst a =? fst b) && (snd a =? snd b).

(** ** Settings *)

Record config : Type := mkconfig {
  project_start_date : date;
  daily_amount : Z;
  monthly_cap : Z;
  oct_2025_fixed : Z;
  project_end_date : option date
}.

Definition DEFAULT_START_DATE : date := mkdate 2025 10 15.
Definition DEFAULT_DAILY_AMOUNT : Z := 2000.
Definition DEFAULT_MONTHLY_CAP : Z := 60000.
Definition DEFAULT_OCT_2025_FIXED : Z := 30000.

Definition default_config : config :=
  mkconfig DEFAULT_START_DATE DEFAULT_DAILY_AMOUNT DEFAULT_MONTHLY_CAP
           DEFAULT_OCT_2025_FIXED None.

(** ** Helpers *)

Definition as_of_date (cfg : config) (today : date) : date :=
  match project_end_date cfg with
  | Some endd => date_min today endd
  | None => today
  end.

Definition month_end (d : date) : result date :=
  if month d =? 12 then date_new (year d) 12 31
  else
    nxt <- date_new (year d) (month d + 1) 1 ;;
    fromordinal (toordinal nxt - 1).

(* The loop of months_between, from the current (y, m). *)
Fixpoint months_loop (fuel : nat) (y m : Z) (e : Z * Z)
  : result (list (Z * Z)) :=
  if ym_leb (y, m) e then
    match fuel with
    | O => Raise OutOfFuel
    | S fuel' =>
        out <- (if m =? 12 then months_loop fuel' (y + 1) 1 e
                else months_loop fuel' y (m + 1) e) ;;
        Ok ((y, m) :: out)
    end
  else Ok [].

(* Number of iterations the loop can make between two months. *)
Definition months_fuel (s e : Z * Z) : nat :=
  Z.to_nat ((fst e - fst s) * 12 + (snd e - snd s) + 1).

Definition months_between (start end_ : date) : result (list (Z * Z)) :=
  months_loop (months_fuel (year start, month start) (year end_, month end_))
              (year start) (month start) (year end_, month end_).

Definition due_for_month (cfg : config) (y m : Z) (asof member_start : date)
  : result Z :=
  if ym_ltb (y, m) (year member_start, month member_start) then Ok 0
  else if (y =? 2025) && (m =? 10) then
    if negb (ym_eqb (year member_start, month member_start) (2025, 10))
    then Ok 0
    else
      oct31 <- date_new 2025 10 31 ;;
      if date_ltb asof oct31 then Ok 0 else Ok (oct_2025_fixed cfg)
  else
    m_start <- date_new y m 1 ;;
    m_end <- month_end m_start ;;
    let eff_start := date_max m_start member_start in
    let eff_end := date_min m_end asof in
    if date_ltb eff_end eff_start then Ok 0
    else
      let days := days_between eff_end eff_start + 1 in
      Ok (Z.min (monthly_cap cfg) (daily_amount cfg * days)).

(* The accumulation loop of due_total_as_of. *)
Fixpoint due_loop (cfg : config) (asof member_start : date)
         (months : list (Z * Z)) (total : Z) : result Z :=
  match months with
  | [] => Ok total
  | (y, m) :: rest =>
      d <- due_for_month cfg y m asof member_start ;;
      due_loop cfg asof member_start rest (total + d)
  end.

Definition due_total_as_of (cfg : config) (asof member_start : date)
  : result Z :=
  if date_ltb asof member_start then Ok 0
  else
    months <- months_between member_start asof ;;
    due_loop cfg asof member_start months 0.

(** ** The record store

    The three SQLite tables as lists of rows, in insertion order, with
    the AUTOINCREMENT counters of [payments] and [bank_deposits].  A date
    column holds the ISO text of a date; it is modelled by the date
    itself, so that the SQL text comparison [pay_date <= ?] is the date
    comparison and [substr(pay_date,1,7)] is the "YYYY-MM" key of the
    date. *)

Record member : Type := mkmember {
  m_id : Z;
  full_name : string;
  phone : string;
  pin_hash : string;
  start_date : date;
  is_active : Z;
  m_created_at : string
}.

Record payment : Type := mkpayment {
  p_id : Z;
  member_id : Z;
  pay_date : date;
  amount : Z;
  mode : string;
  reference : string;
  note : string;
  p_created_at : string
}.

Record bank_deposit : Type := mkdeposit {
  b_id : Z;
  dep_date : date;
  b_amount : Z;
  b_reference : string;
  b_note : string;
  b_created_at : string
}.

Record db : Type := mkdb {
  settings : config;
  members : list member;
  payments : list payment;
  seq_payments : Z;
  bank_deposits : list bank_deposit;
  seq_bank_deposits : Z
}.

(* db() opens the connection with sqlite3's defaults and issues no
   PRAGMA foreign_keys=ON: the FOREIGN KEY clause of the payments table
   is declared but not enforced. *)
Definition PRAGMA_foreign_keys : bool := false.

Definition member_exists (d : db) (mid : Z) : bool :=
  existsb (fun m => m_id m =? mid) (members d).

(* An int that sqlite3 can bind to a statement: a signed 64-bit value. *)
Definition sqlite_int (n : Z) : bool :=
  (- 2 ^ 63 <=? n) && (n <? 2 ^ 63).

(* INSERT INTO payments(...) VALUES(...): binding the parameters comes
   first and raises OverflowError on an int outside 64 bits. *)
Definition insert_payment (enforce_fk : bool) (d : db)
           (mid : Z) (pd : date) (amt : Z) (md ref nt now : string)
  : result db :=
  if negb (sqlite_int mid && sqlite_int amt) then Raise OverflowError
  else if enforce_fk && negb (member_exists d mid) then Raise IntegrityError
  else
    let id := seq_payments d + 1 in
    Ok (mkdb (settings d) (members d)
             (payments d ++ [mkpayment id mid pd amt md ref nt now]) id
             (bank_deposits d) (seq_bank_deposits d)).

(* INSERT INTO bank_deposits(...) VALUES(...).  The handler reaches it
   with an amount between 1 and the available balance, which is a 64-bit
   value on a ledger in range, so that binding it does not raise. *)
Definition insert_bank_deposit (d : db)
           (dd : date) (amt : Z) (ref nt now : string) : db :=
  let id := seq_bank_deposits d + 1 in
  mkdb (settings d) (members d) (payments d) (seq_payments d)
       (bank_deposits d ++ [mkdeposit id dd amt ref nt now]) id.

(* UPDATE members SET is_active=? WHERE id=? *)
Definition update_is_active (d : db) (mid : Z) (v : Z) : db :=
  mkdb (settings d)
       (map (fun m =>
               if m_id m =? mid
               then mkmember (m_id m) (full_name m) (phone m) (pin_hash m)
                             (start_date m) v (m_created_at m)
               else m)
            (members d))
       (payments d) (seq_payments d) (bank_deposits d) (seq_bank_deposits d).

(* COALESCE(SUM(amount), 0) as an exact sum.  SQLite adds in 64 bits and
   raises "integer overflow" beyond ([sqlite_sum] below); the exact sum
   is what it returns on a ledger in range ([ledger_in_range]). *)
Definition sum_amounts (ps : list payment) : Z :=
  fold_right (fun p s => amount p + s) 0 ps.

Definition sum_deposits (bs : list bank_deposit) : Z :=
  fold_right (fun b s => b_amount b + s) 0 bs.

(** ** Ledger reconciliation *)

Definition paid_total_as_of (d : db) (mid : Z) (asof : date) : Z :=
  sum_amounts
    (filter (fun p => (member_id p =? mid) && date_leb (pay_date p) asof)
            (payments d)).

(* The dict returned by member_status; the dict built for a deactivated
   member has no "balance" key. *)
Record status_dict : Type := mkstatus {
  due : Z;
  paid : Z;
  rest : Z;
  avance : Z;
  balance : option Z;
  status : string
}.

Definition member_status (d : db) (mid : Z) (member_start asof : date)
  : result status_dict :=
  due <- due_total_as_of (settings d) asof member_start ;;
  let paid := paid_total_as_of d mid asof in
  let rest := due - paid in
  let balance := paid - due in
  let avance := Z.max 0 balance in
  let rest_pos := Z.max 0 (- balance) in
  let status := if rest_pos =? 0 then "À jour"%string else "En retard"%string in
  Ok (mkstatus due paid rest_pos avance (Some balance) status).

Definition total_collected_as_of (d : db) (asof : date) : Z :=
  sum_amounts (filter (fun p => date_leb (pay_date p) asof) (payments d)).

Definition total_deposited_as_of (d : db) (asof : date) : Z :=
  sum_deposits (filter (fun b => date_leb (dep_date b) asof) (bank_deposits d)).

(** ** Text helpers *)

Definition digit_char (d : Z) : ascii := ascii_of_nat (48 + Z.to_nat d).

(* The decimal digits of n >= 0, most significant first. *)
Fixpoint decimal_digits (fuel : nat) (n : Z) (acc : string) : string :=
  match fuel with
  | O => acc
  | S fuel' =>
      let acc' := String (digit_char (n mod 10)) acc in
      if n / 10 =? 0 then acc' else decimal_digits fuel' (n / 10) acc'
  end.

Fixpoint zeros (k : nat) : string :=
  match k with
  | O => EmptyString
  | S k' => String "0" (zeros k')
  end.

(* f"{n:0{width}d}" *)
Definition format_0d (width : nat) (n : Z) : string :=
  let body := decimal_digits (S (Z.to_nat (Z.log2 (Z.abs n)))) (Z.abs n) EmptyString in
  if n <? 0
  then String "-" (zeros (width - 1 - String.length body) ++ body)
  else (zeros (width - String.length body) ++ body)%string.

(* f"{y:04d}-{m:02d}" *)
Definition ym_key (y m : Z) : string :=
  (format_0d 4 y ++ "-" ++ format_0d 2 m)%string.

Definition is_space (c : ascii) : bool :=
  let n := nat_of_ascii c in
  ((9 <=? n) && (n <=? 13) || (28 <=? n) && (n <=? 32))%nat.

Fixpoint lstrip (s : string) : string :=
  match s with
  | String c s' => if is_space c then lstrip s' else s
  | EmptyString => EmptyString
  end.

Fixpoint rstrip (s : string) : string :=
  match s with
  | String c s' =>
      match rstrip s' with
      | EmptyString => if is_space c then EmptyString else String c EmptyString
      | r => String c r
      end
  | EmptyString => EmptyString
  end.

(* str.strip(), on ASCII text: the whitespace removed is the ASCII one
   (9..13, 28..32); Python also removes the Unicode spaces such as
   U+00A0, which a text of ASCII characters ([is_ascii]) does not hold. *)
Definition strip (s : string) : string := rstrip (lstrip s).

Definition lower_char (c : ascii) : ascii :=
  let n := nat_of_ascii c in
  if ((65 <=? n) && (n <=? 90))%nat then ascii_of_nat (n + 32) else c.

(* str.lower(), on ASCII text *)
Fixpoint lower (s : string) : string :=
  match s with
  | String c s' => String (lower_char c) (lower s')
  | EmptyString => EmptyString
  end.

Definition valid_mode (md : string) : bool :=
  String.eqb md "wave" || String.eqb md "om" || String.eqb md "cash".

(** ** Monthly collection table *)

Definition ym_list (start end_ : date) : result (list string) :=
  months <- months_between start end_ ;;
  Ok (map (fun ym => ym_key (fst ym) (snd ym)) months).

Record month_stats : Type := mkstats {
  total : Z;
  wave : Z;
  om : Z;
  cash : Z
}.

Definition zero_stats : month_stats := mkstats 0 0 0 0.

(* A Python dict with string keys: the items in insertion order. *)
Definition dict (V : Type) : Type := list (string * V).

Definition dict_mem {V} (k : string) (s : dict V) : bool :=
  existsb (fun kv => String.eqb (fst kv) k) s.

(* s[k] = v: the value is replaced where the key stands, a new key goes
   to the end. *)
Fixpoint dict_set {V} (k : string) (v : V) (s : dict V) : dict V :=
  match s with
  | [] => [(k, v)]
  | (k', v') :: t =>
      if String.eqb k' k then (k', v) :: t else (k', v') :: dict_set k v t
  end.

Definition dict_keys {V} (s : dict V) : list string := map fst s.

(* One row of the GROUP BY query. *)
Record stat_row : Type := mkrow {
  r_ym : string;
  r_total : Z;
  r_wave_total : Z;
  r_om_total : Z;
  r_cash_total : Z
}.

Definition pay_ym (p : payment) : string :=
  ym_key (year (pay_date p)) (month (pay_date p)).

(* Insertion of a key in a list of distinct keys in ascending order. *)
Fixpoint insert_key (k : string) (ks : list string) : list string :=
  match ks with
  | [] => [k]
  | k' :: t =>
      match String.compare k k' with
      | Lt => k :: ks
      | Eq => ks
      | Gt => k' :: insert_key k t
      end
  end.

Definition sum_mode (md : string) (ps : list payment) : Z :=
  sum_amounts (filter (fun p => String.eqb (mode p) md) ps).

(* SELECT substr(pay_date,1,7) AS ym, SUM(...) ... FROM payments
   WHERE pay_date <= ? GROUP BY substr(pay_date,1,7) ORDER BY ym *)
Definition select_monthly_rows (d : db) (asof : date) : list stat_row :=
  let ps := filter (fun p => date_leb (pay_date p) asof) (payments d) in
  let keys := fold_right insert_key [] (map pay_ym ps) in
  map (fun k =>
         let g := filter (fun p => String.eqb (pay_ym p) k) ps in
         mkrow k (sum_amounts g) (sum_mode "wave" g) (sum_mode "om" g)
               (sum_mode "cash" g))
      keys.

Definition stats_add_row (stats : dict month_stats) (r : stat_row)
  : dict month_stats :=
  let stats :=
    if negb (dict_mem (r_ym r) stats)
    then dict_set (r_ym r) zero_stats stats else stats in
  dict_set (r_ym r)
           (mkstats (r_total r) (r_wave_total r) (r_om_total r) (r_cash_total r))
           stats.

Definition monthly_collection_stats (d : db) (asof : date)
  : result (dict month_stats) :=
  let start := project_start_date (settings d) in
  months <- ym_list start asof ;;
  let stats := fold_left (fun s k => dict_set k zero_stats s) months [] in
  Ok (fold_left stats_add_row (select_monthly_rows d asof) stats).

(** ** Request handlers

    A handler receives what the request carries: [admin] tells whether
    the "admin" cookie is "1" (require_admin), a date field arrives as
    the outcome of [date.fromisoformat] on the stripped text ([None]
    when it raises), [today] is date.today() and [now] the timestamp
    text written to created_at.  A response keeps the data rendered,
    not the HTML around it. *)

Inductive location : Type :=
| Loc_admin_member (member_id : Z)          (* /admin/member/{id} *)
| Loc_comptabilite (mois annee : Z).        (* /admin/comptabilite?mois=&annee= *)

Inductive error_page : Type :=
| Mode_invalide
| Date_invalide
| Montant_invalide
| Date_banque_invalide
| Montant_banque_invalide
| Montant_sup_solde_disponible (available : Z)
| Membre_introuvable.

Record dashboard_row : Type := mkdrow {
  row_member : member;
  row_badge : string;
  row_label : string;
  row_st : status_dict
}.

Record dashboard : Type := mkdash {
  rows : list dashboard_row;
  total_due : Z;
  total_paid : Z;
  total_rest : Z;
  total_avance : Z;
  ok_count : Z;
  late_count : Z;
  active_count : Z
}.

Inductive response : Type :=
| RedirectResponse (to : location)
| Erreur (e : error_page)
| Acces_refuse
| Page_dashboard (dsh : dashboard) (collected deposited available_bank : Z)
| Page_member (m : member) (st : status_dict) (badge_cls badge_text : string)
              (pays : list payment).

(* ORDER BY: insertion sort under a "comes before or ties" test. *)
Fixpoint insert_by {A} (le : A -> A -> bool) (x : A) (l : list A) : list A :=
  match l with
  | [] => [x]
  | y :: t => if le x y then x :: l else y :: insert_by le x t
  end.

Definition order_by {A} (le : A -> A -> bool) (l : list A) : list A :=
  fold_right (insert_by le) [] l.

(* The dict a deactivated member is shown with. *)
Definition inactive_status : status_dict :=
  mkstatus 0 0 0 0 None "Désactivé".

(* One turn of the loop over members in admin_dashboard. *)
Definition dashboard_step (d : db) (asof : date) (acc : dashboard) (m : member)
  : result dashboard :=
  let active := is_active m =? 1 in
  let active_count := if active then active_count acc + 1 else active_count acc in
  st <- (if active then member_status d (m_id m) (start_date m) asof
         else Ok inactive_status) ;;
  if active then
    let ok := String.eqb (status st) "À jour" in
    Ok (mkdash
          (rows acc ++ [mkdrow m (if ok then "ok" else "bad")%string
                               (if ok then "À jour" else "En retard")%string st])
          (total_due acc + due st) (total_paid acc + paid st)
          (total_rest acc + rest st) (total_avance acc + avance st)
          (if ok then ok_count acc + 1 else ok_count acc)
          (if ok then late_count acc else late_count acc + 1)
          active_count)
  else
    Ok (mkdash (rows acc ++ [mkdrow m "bad" "Désactivé" st])
               (total_due acc) (total_paid acc) (total_rest acc)
               (total_avance acc) (ok_count acc) (late_count acc)
               active_count).

Fixpoint dashboard_loop (d : db) (asof : date) (ms : list member)
         (acc : dashboard) : result dashboard :=
  match ms with
  | [] => Ok acc
  | m :: t => acc' <- dashboard_step d asof acc m ;; dashboard_loop d asof t acc'
  end.

Definition admin_dashboard (admin : bool) (d : db) (today : date)
  : result response :=
  if negb admin then Ok Acces_refuse
  else
    let asof := as_of_date (settings d) today in
    let ms := order_by (fun a b => String.leb (full_name a) (full_name b))
                       (members d) in
    dsh <- dashboard_loop d asof ms (mkdash [] 0 0 0 0 0 0 0) ;;
    let collected := total_collected_as_of d asof in
    let deposited := total_deposited_as_of d asof in
    let available_bank := Z.max 0 (collected - deposited) in
    Ok (Page_dashboard dsh collected deposited available_bank).

Definition admin_member (admin : bool) (d : db) (today : date) (mid : Z)
  : result response :=
  if negb admin then Ok Acces_refuse
  else
    let asof := as_of_date (settings d) today in
    match find (fun m => m_id m =? mid) (members d) with
    | None => Ok (Erreur Membre_introuvable)
    | Some m =>
        let pays :=
          firstn 400
            (order_by
               (fun a b => date_ltb (pay_date b) (pay_date a)
                           || (date_eqb (pay_date a) (pay_date b)
                               && (p_id b <=? p_id a)))
               (filter (fun p => member_id p =? mid) (payments d))) in
        let active := is_active m =? 1 in
        st <- (if active then member_status d mid (start_date m) asof
               else Ok inactive_status) ;;
        let badge_cls :=
          (if active && String.eqb (status st) "À jour" then "ok" else "bad")%string in
        let badge_text :=
          if active then ("Actif · " ++ status st)%string else "Désactivé"%string in
        Ok (Page_member m st badge_cls badge_text pays)
    end.

Definition admin_deactivate_member (admin : bool) (d : db) (mid : Z)
  : db * response :=
  if negb admin then (d, Acces_refuse)
  else (update_is_active d mid 0, RedirectResponse (Loc_admin_member mid)).

Definition admin_activate_member (admin : bool) (d : db) (mid : Z)
  : db * response :=
  if negb admin then (d, Acces_refuse)
  else (update_is_active d mid 1, RedirectResponse (Loc_admin_member mid)).

Definition admin_add_payment (admin : bool) (d : db) (now : string)
           (mid : Z) (pay_date : option date) (amount : Z)
           (mode reference note : string) : result (db * response) :=
  if negb admin then Ok (d, Acces_refuse)
  else
    let mode := lower (strip mode) in
    if negb (valid_mode mode) then Ok (d, Erreur Mode_invalide)
    else
      match pay_date with
      | None => Ok (d, Erreur Date_invalide)
      | Some dt =>
          if amount <=? 0 then Ok (d, Erreur Montant_invalide)
          else
            d' <- insert_payment PRAGMA_foreign_keys d mid dt amount mode
                                 (strip reference) (strip note) now ;;
            Ok (d', RedirectResponse (Loc_admin_member mid))
      end.

Definition admin_compta_add (admin : bool) (d : db) (now : string)
           (pay_date : option date) (mid : Z) (amount : Z)
           (mode reference note : string) (mois annee : Z)
  : result (db * response) :=
  if negb admin then Ok (d, Acces_refuse)
  else
    let mode := lower (strip mode) in
    if negb (valid_mode mode) then Ok (d, Erreur Mode_invalide)
    else
      match pay_date with
      | None => Ok (d, Erreur Date_invalide)
      | Some dt =>
          if amount <=? 0 then Ok (d, Erreur Montant_invalide)
          else
            d' <- insert_payment PRAGMA_foreign_keys d mid dt amount mode
                                 (strip reference) (strip note) now ;;
            let mois := if mois =? 0 then month dt else mois in
            let annee := if annee =? 0 then year dt else annee in
            Ok (d', RedirectResponse (Loc_comptabilite mois annee))
      end.

Definition admin_add_bank_deposit (admin : bool) (d : db) (today : date)
           (now : string) (dep_date : option date) (amount : Z)
           (reference note : string) (mois annee : Z) : db * response :=
  if negb admin then (d, Acces_refuse)
  else
    match dep_date with
    | None => (d, Erreur Date_banque_invalide)
    | Some dt =>
        if amount <=? 0 then (d, Erreur Montant_banque_invalide)
        else
          let asof := as_of_date (settings d) today in
          let collected := total_collected_as_of d asof in
          let deposited := total_deposited_as_of d asof in
          let available := Z.max 0 (collected - deposited) in
          if available <? amount
          then (d, Erreur (Montant_sup_solde_disponible available))
          else
            let d' := insert_bank_deposit d dt amount
                                          (strip reference) (strip note) now in
            let mois := if mois =? 0 then month dt else mois in
            let annee := if annee =? 0 then year dt else annee in
            (d', RedirectResponse (Loc_comptabilite mois annee))
    end.

(** * Definitions used to state the properties *)

(** ** The accrual in closed form *)

(* The inclusive number of days common to the calendar month (y, m) and
   to the period from the enrollment to the as-of date. *)
Definition window_days (y m : Z) (asof member_start : date) : Z :=
  Z.max 0
        (Z.min (toordinal (mkdate y m (days_in_month y m))) (toordinal asof)
         - Z.max (toordinal (mkdate y m 1)) (toordinal member_start) + 1).

(* The prorated accrual as the specification words it. *)
Definition prorated_due (cfg : config) (y m : Z) (asof member_start : date) : Z :=
  let days := window_days y m asof member_start in
  if days =? 0 then 0 else Z.min (monthly_cap cfg) (daily_amount cfg * days).

Definition special_month (y m : Z) : bool := (y =? 2025) && (m =? 10).

Definition ym_index (ym : Z * Z) : Z := fst ym * 12 + (snd ym - 1).

(* The n months from (y, m) on. *)
Fixpoint month_seq (n : nat) (y m : Z) : list (Z * Z) :=
  match n with
  | O => []
  | S n' =>
      (y, m) :: (if m =? 12 then month_seq n' (y + 1) 1
                 else month_seq n' y (m + 1))
  end.

(* What a month from the enrollment month on contributes. *)
Definition month_due (cfg : config) (asof member_start : date) (ym : Z * Z) : Z :=
  if special_month (fst ym) (snd ym) then
    if negb (ym_eqb (year member_start, month member_start) (2025, 10)) then 0
    else if date_ltb asof (mkdate 2025 10 31) then 0
    else oct_2025_fixed cfg
  else prorated_due cfg (fst ym) (snd ym) asof member_start.

Definition sum_list (l : list Z) : Z := fold_right Z.add 0 l.

Definition config_nonneg (cfg : config) : Prop :=
  0 <= daily_amount cfg /\ 0 <= monthly_cap cfg /\ 0 <= oct_2025_fixed cfg.

(** ** Sample data: the default member and small stores *)

Definition enrolled_oct15 : date := mkdate 2025 10 15.

Definition db_of (cfg : config) (ms : list member) (ps : list payment)
           (bs : list bank_deposit) : db :=
  mkdb cfg ms ps (Z.of_nat (List.length ps)) bs (Z.of_nat (List.length bs)).

Definition member_1 : member :=
  mkmember 1 "Awa" "770000001" EmptyString enrolled_oct15 1
           "2025-10-15T08:00:00".

Definition stopped_config : config :=
  mkconfig DEFAULT_START_DATE DEFAULT_DAILY_AMOUNT DEFAULT_MONTHLY_CAP
           DEFAULT_OCT_2025_FIXED (Some (mkdate 2025 11 20)).

Definition ledger_db : db :=
  db_of default_config [member_1]
        [mkpayment 1 1 (mkdate 2025 10 20) 100000 "wave" EmptyString
                   EmptyString "2025-10-20T09:00:00"]
        [mkdeposit 1 (mkdate 2025 10 21) 40000 EmptyString EmptyString
                   "2025-10-21T09:00:00"].

Definition inactive_row (m : member) : dashboard_row :=
  mkdrow m "bad" "Désactivé" inactive_status.

Definition member_2 : member :=
  mkmember 2 "Moussa" "770000002" EmptyString (mkdate 2025 10 15) 0
           "2025-10-15T08:05:00".

Definition inactive_db : db :=
  db_of default_config [member_1; member_2]
        [mkpayment 1 2 (mkdate 2025 10 31) 45000 "om" EmptyString EmptyString
                   "2025-10-31T18:00:00"]
        [].

Definition empty_db : db := db_of default_config [] [] [].

Definition early_payment_db : db :=
  db_of default_config [member_1]
        [mkpayment 1 1 (mkdate 2025 9 10) 5000 "cash" EmptyString EmptyString
                   "2025-09-10T09:00:00";
         mkpayment 2 1 (mkdate 2025 10 20) 2000 "wave" EmptyString EmptyString
                   "2025-10-20T09:00:00"]
        [].

(** * The other handlers

    The handlers below answer with a [reply]: a redirection keeps its
    URL text and the cookie it sets or clears, an error page keeps its
    title and the sentence it shows.  The password hashing library is a
    pair of functions handed to the handlers that use it: [hash] for
    pbkdf2_sha256.hash and [verify] for pbkdf2_sha256.verify.  An id
    that a request carries is looked up as it is; sqlite3 raises
    OverflowError when it is asked to bind an id outside 64 bits, and
    then nothing is written: the model keeps this exception for the
    INSERT into payments, and answers the other requests as for an id
    that no row has. *)

Inductive reply : Type :=
| Redirect (url : string)
| Redirect_set_cookie (url key value : string)
| Redirect_clear_cookie (url : string) (keys : list string)
| Render (title message : string)
| Denied
| Page_me (m : member) (st : status_dict) (badge_cls : string)
          (pays : list payment)
| Page_restes (data : list (Z * member * status_dict)).

(* str(n) *)
Definition str_of_int (n : Z) : string := format_0d 0 n.

Definition is_digit (c : ascii) : bool :=
  let n := nat_of_ascii c in ((48 <=? n) && (n <=? 57))%nat.

Fixpoint all_digits (s : string) : bool :=
  match s with
  | EmptyString => true
  | String c s' => is_digit c && all_digits s'
  end.

(* str.isdigit(), on ASCII text: no character other than 0..9, and at
   least one character *)
Definition isdigit (s : string) : bool :=
  match s with
  | EmptyString => false
  | _ => all_digits s
  end.

Definition digit_val (c : ascii) : Z := Z.of_nat (nat_of_ascii c) - 48.

Fixpoint digits_value (s : string) (acc : Z) : Z :=
  match s with
  | EmptyString => acc
  | String c s' => digits_value s' (acc * 10 + digit_val c)
  end.

(* int(s), for a text of digits *)
Definition int_of_digits (s : string) : Z := digits_value s 0.

Definition is_valid_sn_phone (phone : string) : bool :=
  isdigit phone && (String.length phone =? 9)%nat.

Definition is_valid_pin (pin : string) : bool :=
  isdigit pin && (String.length pin =? 4)%nat.

(* DELETE FROM payments WHERE id=? *)
Definition delete_payment (d : db) (pid : Z) : db :=
  mkdb (settings d) (members d)
       (filter (fun p => negb (p_id p =? pid)) (payments d))
       (seq_payments d) (bank_deposits d) (seq_bank_deposits d).

(* DELETE FROM bank_deposits WHERE id=? *)
Definition delete_bank_deposit (d : db) (bid : Z) : db :=
  mkdb (settings d) (members d) (payments d) (seq_payments d)
       (filter (fun b => negb (b_id b =? bid)) (bank_deposits d))
       (seq_bank_deposits d).

Definition comptabilite_url (mois annee : Z) : string :=
  ("/admin/comptabilite?mois=" ++ str_of_int mois
   ++ "&annee=" ++ str_of_int annee)%string.

Definition admin_member_url (mid : Z) : string :=
  ("/admin/member/" ++ str_of_int mid)%string.

Definition admin_delete_payment (admin : bool) (d : db)
           (payment_id mois annee : Z) : db * reply :=
  if negb admin then (d, Denied)
  else
    let d' := delete_payment d payment_id in
    if negb (mois =? 0) && negb (annee =? 0)
    then (d', Redirect (comptabilite_url mois annee))
    else (d', Redirect "/admin/comptabilite").

Definition admin_delete_bank_deposit (admin : bool) (d : db)
           (deposit_id mois annee : Z) : db * reply :=
  if negb admin then (d, Denied)
  else
    let d' := delete_bank_deposit d deposit_id in
    if negb (mois =? 0) && negb (annee =? 0)
    then (d', Redirect (comptabilite_url mois annee))
    else (d', Redirect "/admin/comptabilite").

(* The members table declares phone UNIQUE and an AUTOINCREMENT id; no
   statement of the program deletes a member, so the next id is one
   more than the largest id of the table. *)
Definition phone_taken (d : db) (ph : string) : bool :=
  existsb (fun m => String.eqb (phone m) ph) (members d).

Definition next_member_id (d : db) : Z :=
  fold_right Z.max 0 (map m_id (members d)) + 1.

(* INSERT INTO members(...) VALUES(?,?,?,?,1,?) *)
Definition insert_member (d : db) (name ph pinh : string) (sd : date)
           (now : string) : result db :=
  if phone_taken d ph then Raise IntegrityError
  else
    Ok (mkdb (settings d)
             (members d ++ [mkmember (next_member_id d) name ph pinh sd 1 now])
             (payments d) (seq_payments d)
             (bank_deposits d) (seq_bank_deposits d)).

Definition admin_add_member (hash : string -> string) (admin : bool) (d : db)
           (now : string) (full_name phone pin : string)
           (start_date : option date) : db * reply :=
  if negb admin then (d, Denied)
  else
    let full_name := strip full_name in
    let phone := strip phone in
    let pin := strip pin in
    if negb (is_valid_sn_phone phone)
    then (d, Render "Erreur" "Téléphone invalide (9 chiffres).")
    else if negb (is_valid_pin pin)
    then (d, Render "Erreur" "PIN invalide (4 chiffres).")
    else
      match start_date with
      | None => (d, Render "Erreur" "Date invalide (AAAA-MM-JJ).")
      | Some sd =>
          match insert_member d full_name phone (hash pin) sd now with
          | Ok d' => (d', Redirect "/admin")
          | Raise _ => (d, Render "Erreur" "Ce téléphone existe déjà.")
          end
      end.

(* UPDATE members SET full_name=?, phone=? WHERE id=? *)
Definition update_member (d : db) (mid : Z) (name ph : string) : db :=
  mkdb (settings d)
       (map (fun m =>
               if m_id m =? mid
               then mkmember (m_id m) name ph (pin_hash m) (start_date m)
                             (is_active m) (m_created_at m)
               else m)
            (members d))
       (payments d) (seq_payments d) (bank_deposits d) (seq_bank_deposits d).

(* SELECT id FROM members WHERE phone=? AND id<>? *)
Definition phone_of_other (d : db) (ph : string) (mid : Z) : bool :=
  existsb (fun m => String.eqb (phone m) ph && negb (m_id m =? mid))
          (members d).

Definition admin_update_member (admin : bool) (d : db) (mid : Z)
           (full_name phone : string) : db * reply :=
  if negb admin then (d, Denied)
  else
    let full_name := strip full_name in
    let phone := strip phone in
    if String.eqb full_name EmptyString
    then (d, Render "Erreur" "Nom vide.")
    else if negb (is_valid_sn_phone phone)
    then (d, Render "Erreur" "Téléphone invalide (9 chiffres).")
    else if negb (member_exists d mid)
    then (d, Render "Erreur" "Membre introuvable.")
    else if phone_of_other d phone mid
    then (d, Render "Erreur"
                    "Ce téléphone est déjà utilisé par un autre membre.")
    else (update_member d mid full_name phone, Redirect (admin_member_url mid)).

(* UPDATE members SET pin_hash=? WHERE id=? *)
Definition update_pin_hash (d : db) (mid : Z) (pinh : string) : db :=
  mkdb (settings d)
       (map (fun m =>
               if m_id m =? mid
               then mkmember (m_id m) (full_name m) (phone m) pinh
                             (start_date m) (is_active m) (m_created_at m)
               else m)
            (members d))
       (payments d) (seq_payments d) (bank_deposits d) (seq_bank_deposits d).

Definition admin_change_pin (hash : string -> string) (admin : bool) (d : db)
           (mid : Z) (new_pin : string) : db * reply :=
  if negb admin then (d, Denied)
  else
    let new_pin := strip new_pin in
    if negb (is_valid_pin new_pin)
    then (d, Render "Erreur" "PIN invalide (4 chiffres).")
    else (update_pin_hash d mid (hash new_pin), Redirect (admin_member_url mid)).

(* SELECT * FROM members WHERE phone=? *)
Definition member_by_phone (d : db) (ph : string) : option member :=
  find (fun m => String.eqb (phone m) ph) (members d).

(* SELECT * FROM members WHERE id=? *)
Definition member_by_id (d : db) (mid : Z) : option member :=
  find (fun m => m_id m =? mid) (members d).

Definition login_member (verify : string -> string -> bool) (d : db)
           (phone pin : string) : reply :=
  let phone := strip phone in
  let pin := strip pin in
  if negb (is_valid_sn_phone phone)
  then Render "Erreur" "Téléphone invalide (9 chiffres)."
  else if negb (is_valid_pin pin)
  then Render "Erreur" "PIN invalide (4 chiffres)."
  else
    match member_by_phone d phone with
    | None => Render "Erreur" "Compte désactivé ou introuvable."
    | Some m =>
        if negb (is_active m =? 1)
        then Render "Erreur" "Compte désactivé ou introuvable."
        else if negb (verify pin (pin_hash m))
        then Render "Erreur" "Téléphone ou PIN incorrect."
        else Redirect_set_cookie "/me" "member_id" (str_of_int (m_id m))
    end.

Definition logout : reply := Redirect_clear_cookie "/" ["admin"; "member_id"]%string.

(* require_member: the member id carried by the "member_id" cookie, for
   a cookie of ASCII characters; for other digits of Unicode the code
   passes isdigit and either reads them with int() or raises. *)
Definition require_member (cookie : option string) : option Z :=
  match cookie with
  | None => None
  | Some mid =>
      if String.eqb mid EmptyString || negb (isdigit mid) then None
      else Some (int_of_digits mid)
  end.

(* SELECT * FROM payments WHERE member_id=?
   ORDER BY pay_date DESC, id DESC LIMIT 400 *)
Definition member_payments (d : db) (mid : Z) : list payment :=
  firstn 400
    (order_by
       (fun a b => date_ltb (pay_date b) (pay_date a)
                   || (date_eqb (pay_date a) (pay_date b)
                       && (p_id b <=? p_id a)))
       (filter (fun p => member_id p =? mid) (payments d))).

Definition me (d : db) (today : date) (cookie : option string)
  : result reply :=
  match require_member cookie with
  | None => Ok Denied
  | Some mid =>
      let asof := as_of_date (settings d) today in
      match member_by_id d mid with
      | None => Ok (Redirect_clear_cookie "/" ["member_id"%string])
      | Some m =>
          if negb (is_active m =? 1)
          then Ok (Redirect_clear_cookie "/" ["member_id"%string])
          else
            let pays := member_payments d mid in
            st <- member_status d mid (start_date m) asof ;;
            let badge_cls :=
              (if String.eqb (status st) "À jour" then "ok" else "bad")%string in
            Ok (Page_me m st badge_cls pays)
      end
  end.

(* The loop of admin_restes over the active members. *)
Fixpoint restes_loop (d : db) (asof : date) (ms : list member)
  : result (list (Z * member * status_dict)) :=
  match ms with
  | [] => Ok []
  | m :: t =>
      st <- member_status d (m_id m) (start_date m) asof ;;
      data <- restes_loop d asof t ;;
      Ok (if 0 <? rest st then (rest st, m, st) :: data else data)
  end.

Definition admin_restes (admin : bool) (d : db) (today : date)
  : result reply :=
  if negb admin then Ok Denied
  else
    let asof := as_of_date (settings d) today in
    let ms := filter (fun m => is_active m =? 1) (members d) in
    data <- restes_loop d asof ms ;;
    Ok (Page_restes
          (order_by (fun a b => fst (fst a) <=? fst (fst b)) data)).

Definition with_settings (d : db) (cfg : config) : db :=
  mkdb cfg (members d) (payments d) (seq_payments d)
       (bank_deposits d) (seq_bank_deposits d).

Definition admin_config_save (admin : bool) (d : db)
           (project_start_date_in : option date)
           (daily_amount_in monthly_cap_in oct_2025_fixed_in : Z)
  : db * reply :=
  if negb admin then (d, Denied)
  else
    match project_start_date_in with
    | None => (d, Render "Erreur" "Date début invalide.")
    | Some sd =>
        if (daily_amount_in <? 0) || (monthly_cap_in <? 0)
           || (oct_2025_fixed_in <? 0)
        then (d, Render "Erreur" "Montants invalides.")
        else
          (with_settings d
             (mkconfig sd daily_amount_in monthly_cap_in oct_2025_fixed_in
                       (project_end_date (settings d))),
           Redirect "/admin/config")
    end.

Definition admin_project_stop (admin : bool) (d : db) (end_date : option date)
  : db * reply :=
  if negb admin then (d, Denied)
  else
    match end_date with
    | None => (d, Render "Erreur" "Date arrêt invalide (AAAA-MM-JJ).")
    | Some e =>
        (with_settings d
           (mkconfig (project_start_date (settings d))
                     (daily_amount (settings d)) (monthly_cap (settings d))
                     (oct_2025_fixed (settings d)) (Some e)),
         Redirect "/admin/config")
    end.

Definition admin_project_resume (admin : bool) (d : db) : db * reply :=
  if negb admin then (d, Denied)
  else
    (with_settings d
       (mkconfig (project_start_date (settings d))
                 (daily_amount (settings d)) (monthly_cap (settings d))
                 (oct_2025_fixed (settings d)) None),
     Redirect "/admin/config").

(** ** Well-formed rows *)

(* What the payment forms let through: a positive amount and one of the
   three modes. *)
Definition payment_wf (p : payment) : Prop :=
  0 < amount p /\ valid_mode (mode p) = true.

(* The entry a row of the GROUP BY query leaves in the table. *)
Definition row_stats (r : stat_row) : month_stats :=
  mkstats (r_total r) (r_wave_total r) (r_om_total r) (r_cash_total r).

(** ** Sums over the rows of the dashboard *)

Definition sum_rows (f : status_dict -> Z) (rs : list dashboard_row) : Z :=
  fold_right (fun r s => f (row_st r) + s) 0 rs.

Definition row_active (r : dashboard_row) : bool :=
  is_active (row_member r) =? 1.

Definition row_up_to_date (r : dashboard_row) : bool :=
  row_active r && (due (row_st r) <=? paid (row_st r)).

Definition count_rows (f : dashboard_row -> bool) (rs : list dashboard_row)
  : Z :=
  Z.of_nat (List.length (filter f rs)).

(* What the accumulators of the dashboard loop hold after any number of
   turns. *)
Definition dashboard_inv (acc : dashboard) : Prop :=
  ok_count acc + late_count acc = active_count acc
  /\ active_count acc = count_rows row_active (rows acc)
  /\ ok_count acc = count_rows row_up_to_date (rows acc)
  /\ total_due acc = sum_rows due (rows acc)
  /\ total_paid acc = sum_rows paid (rows acc)
  /\ total_rest acc = sum_rows rest (rows acc)
  /\ total_avance acc = sum_rows avance (rows acc)
  /\ total_avance acc - total_rest acc = total_paid acc - total_due acc.

(* What the members table guarantees: ids are positive and distinct
   (INTEGER PRIMARY KEY AUTOINCREMENT), phones are distinct (UNIQUE). *)
Definition members_wf (d : db) : Prop :=
  NoDup (map m_id (members d))
  /\ NoDup (map phone (members d))
  /\ Forall (fun m => 0 < m_id m) (members d).

(** ** Month keys, digit by digit *)

Definition digits4 (n : Z) : string :=
  String (digit_char (n / 10 / 10 / 10 mod 10))
    (String (digit_char (n / 10 / 10 mod 10))
       (String (digit_char (n / 10 mod 10))
          (String (digit_char (n mod 10)) EmptyString))).

Definition digits2 (n : Z) : string :=
  String (digit_char (n / 10 mod 10))
    (String (digit_char (n mod 10)) EmptyString).

(** ** The accounting page and the project summary *)

(* One row of the journal: the columns taken from the payment and from
   the member the JOIN pairs it with. *)
Record journal_row : Type := mkjrow {
  j_id : Z;
  j_pay_date : date;
  j_amount : Z;
  j_mode : string;
  j_reference : string;
  j_note : string;
  j_full_name : string;
  j_phone : string
}.

Definition journal_row_of (p : payment) (m : member) : journal_row :=
  mkjrow (p_id p) (pay_date p) (amount p) (mode p) (reference p) (note p)
         (full_name m) (phone m).

(* FROM payments p JOIN members m ON m.id = p.member_id
   WHERE substr(p.pay_date, 1, 7) = ? *)
Definition join_journal (d : db) (ym : string) : list journal_row :=
  flat_map
    (fun p => map (journal_row_of p)
                  (filter (fun m => m_id m =? member_id p) (members d)))
    (filter (fun p => String.eqb (pay_ym p) ym) (payments d)).

(* ORDER BY p.pay_date DESC, p.id DESC *)
Definition journal_desc (a b : journal_row) : bool :=
  date_ltb (j_pay_date b) (j_pay_date a)
  || (date_eqb (j_pay_date a) (j_pay_date b) && (j_id b <=? j_id a)).

(* ORDER BY p.pay_date ASC, p.id ASC *)
Definition journal_asc (a b : journal_row) : bool :=
  date_ltb (j_pay_date a) (j_pay_date b)
  || (date_eqb (j_pay_date a) (j_pay_date b) && (j_id a <=? j_id b)).

(* SELECT COALESCE(SUM(amount),0) AS total,
          COALESCE(SUM(CASE WHEN mode='wave' THEN amount ELSE 0 END),0) ...
   FROM payments WHERE ... *)
Record mode_totals : Type := mkmodes {
  t_total : Z;
  t_wave_total : Z;
  t_om_total : Z;
  t_cash_total : Z
}.

Definition select_mode_totals (ps : list payment) : mode_totals :=
  mkmodes (sum_amounts ps) (sum_mode "wave" ps) (sum_mode "om" ps)
          (sum_mode "cash" ps).

Definition dep_ym (b : bank_deposit) : string :=
  ym_key (year (dep_date b)) (month (dep_date b)).

(* ORDER BY dep_date DESC, id DESC *)
Definition deposit_desc (a b : bank_deposit) : bool :=
  date_ltb (dep_date b) (dep_date a)
  || (date_eqb (dep_date a) (dep_date b) && (b_id b <=? b_id a)).

(* What the accounting page shows; a bank row keeps the whole record,
   the page uses its id, date, amount, reference and note. *)
Record compta_page : Type := mkcompta {
  c_mois : Z;
  c_annee : Z;
  c_ym : string;
  c_members : list (Z * string * string);
  c_journal : list journal_row;
  c_totals : mode_totals;
  c_bank_rows : list bank_deposit;
  c_bank_total : Z;
  c_collected_all : Z;
  c_deposited_all : Z;
  c_available_bank : Z
}.

Definition admin_comptabilite (admin : bool) (d : db) (today : date)
           (mois annee : Z) : reply + compta_page :=
  if negb admin then inl Denied
  else
    let t := as_of_date (settings d) today in
    let mois := if mois =? 0 then month t else mois in
    let annee := if annee =? 0 then year t else annee in
    let ym := ym_key annee mois in
    let members :=
      map (fun m => (m_id m, full_name m, phone m))
          (order_by (fun a b => String.leb (full_name a) (full_name b))
                    (filter (fun m => is_active m =? 1) (members d))) in
    let journal := order_by journal_desc (join_journal d ym) in
    let totals :=
      select_mode_totals
        (filter (fun p => String.eqb (pay_ym p) ym) (payments d)) in
    let bank_rows :=
      order_by deposit_desc
               (filter (fun b => String.eqb (dep_ym b) ym) (bank_deposits d)) in
    let bank_total :=
      sum_deposits
        (filter (fun b => String.eqb (dep_ym b) ym) (bank_deposits d)) in
    let asof := as_of_date (settings d) today in
    let collected_all := total_collected_as_of d asof in
    let deposited_all := total_deposited_as_of d asof in
    let available_bank := Z.max 0 (collected_all - deposited_all) in
    inr (mkcompta mois annee ym members journal totals bank_rows bank_total
                  collected_all deposited_all available_bank).

(* stats[k] *)
Fixpoint dict_get {V} (k : string) (s : dict V) : option V :=
  match s with
  | [] => None
  | (k', v) :: t => if String.eqb k' k then Some v else dict_get k t
  end.

(* [stats[k][field] for k in labels]; None stands for the KeyError of a
   label that is not a key. *)
Fixpoint series (field : month_stats -> Z) (stats : dict month_stats)
         (labels : list string) : option (list Z) :=
  match labels with
  | [] => Some []
  | k :: t =>
      match dict_get k stats, series field stats t with
      | Some st, Some l => Some (field st :: l)
      | _, _ => None
      end
  end.

(* What the summary page shows: the figures and the data handed to the
   charts. *)
Record resume_page : Type := mkresume {
  r_asof : date;
  r_collected : Z;
  r_deposited : Z;
  r_caisse : Z;
  r_modes : mode_totals;
  r_labels : list string;
  r_totals : list Z;
  r_wave : list Z;
  r_om : list Z;
  r_cash : list Z
}.

(* What can end admin_resume without a page: an exception of
   monthly_collection_stats, or the KeyError of a label. *)
Inductive resume_error : Type :=
| Stats_raised (e : exn)
| KeyError.

Definition admin_resume (admin : bool) (d : db) (today : date)
  : resume_error + (reply + resume_page) :=
  if negb admin then inr (inl Denied)
  else
    let asof := as_of_date (settings d) today in
    let collected := total_collected_as_of d asof in
    let deposited := total_deposited_as_of d asof in
    let caisse := Z.max 0 (collected - deposited) in
    let modes :=
      select_mode_totals
        (filter (fun p => date_leb (pay_date p) asof) (payments d)) in
    match monthly_collection_stats d asof with
    | Raise e => inl (Stats_raised e)
    | Ok stats =>
        let labels := dict_keys stats in
        match series total stats labels, series wave stats labels,
              series om stats labels, series cash stats labels with
        | Some totals, Some wave, Some om, Some cash =>
            inr (inr (mkresume asof collected deposited caisse modes labels
                               totals wave om cash))
        | _, _, _, _ => inl KeyError
        end
    end.

Definition sum_Z (l : list Z) : Z := fold_right Z.add 0 l.

(** ** The CSV export of the journal *)

(* s.replace(";", ",") *)
Fixpoint replace_semicolons (s : string) : string :=
  match s with
  | EmptyString => EmptyString
  | String c s' =>
      String (if Ascii.eqb c ";" then "," else c) (replace_semicolons s')
  end.

(* date.isoformat() *)
Definition isoformat (d : date) : string :=
  (format_0d 4 (year d) ++ "-" ++ format_0d 2 (month d) ++ "-"
   ++ format_0d 2 (day d))%string.

Definition csv_header : string :=
  "date;nom;telephone;montant;mode;reference;note".

Definition csv_line (j : journal_row) : string :=
  (isoformat (j_pay_date j) ++ ";" ++ replace_semicolons (j_full_name j)
   ++ ";" ++ j_phone j ++ ";" ++ str_of_int (j_amount j) ++ ";" ++ j_mode j
   ++ ";" ++ replace_semicolons (j_reference j) ++ ";"
   ++ replace_semicolons (j_note j))%string.

(* The list [lines] of admin_comptabilite_export_csv. *)
Definition export_csv_lines (d : db) (mois annee : Z) : list string :=
  let ym := ym_key annee mois in
  let journal := order_by journal_asc (join_journal d ym) in
  csv_header :: map csv_line journal.

Inductive plain_text : Type :=
| PlainTextResponse (content : string) (status_code : Z) (media_type : string).

Definition admin_comptabilite_export_csv (admin : bool) (d : db)
           (mois annee : Z) : plain_text :=
  if negb admin then PlainTextResponse "Accès refusé." 403 "text/plain"
  else
    PlainTextResponse
      (String.concat (String "010" EmptyString) (export_csv_lines d mois annee))
      200 "text/csv; charset=utf-8".

Fixpoint count_char (c : ascii) (s : string) : nat :=
  match s with
  | EmptyString => O
  | String c' s' => ((if Ascii.eqb c' c then 1 else 0) + count_char c s')%nat
  end.

(** ** The range the exact sums and the ASCII texts stand for *)






(* A text of ASCII characters.  On such a text strip, lower, isdigit and
   the length above are those of Python; on other texts str.strip also
   removes the Unicode spaces, str.isdigit accepts the other Unicode
   digits and len counts code points, not bytes. *)
Fixpoint is_ascii (s : string) : bool :=
  match s with
  | EmptyString => true
  | String c s' => (nat_of_ascii c <? 128)%nat && is_ascii s'
  end.

(** ** The reads and the write of admin_add_bank_deposit

    The handler reads the settings (as_of_date) and the two totals on
    connections of their own and only then opens the connection of its
    INSERT.  Below [seen] is the store these reads find and [d] the
    store the INSERT reaches; they are the same store when no other
    request writes in between, which is [admin_add_bank_deposit]. *)


(** ** More sample stores *)


(* A store with a payment recorded for a member id that no member has. *)
Definition orphan_db : db :=
  db_of default_config [member_1]
        [mkpayment 1 1 (mkdate 2025 10 20) 100000 "wave" EmptyString
                   EmptyString "2025-10-20T09:00:00";
         mkpayment 2 999 (mkdate 2025 10 25) 5000 "cash" EmptyString
                   EmptyString "2025-10-25T09:00:00";
         mkpayment 3 1 (mkdate 2025 11 3) 2000 "om" EmptyString
                   EmptyString "2025-11-03T09:00:00"]
        [mkdeposit 1 (mkdate 2025 10 21) 40000 EmptyString EmptyString
                   "2025-10-21T09:00:00"].

(* A stand-in for the password library: the hash is the PIN behind a
   salt, and a PIN verifies against its own hash only. *)
Definition sample_hash (pin : string) : string := ("$salt$" ++ pin)%string.

Definition sample_verify (pin h : string) : bool :=
  String.eqb h (sample_hash pin).

Definition hashed_db : db :=
  db_of default_config
        [mkmember 1 "Awa" "770000001" (sample_hash "1234") enrolled_oct15 1
                  "2025-10-15T08:00:00";
         mkmember 2 "Moussa" "770000002" (sample_hash "4321") enrolled_oct15 0
                  "2025-10-15T08:05:00"]
        [] [].

(** ** Lines of a text *)

(* text.split(sep), for a separator of one character *)
Fixpoint split_on (sep : ascii) (s : string) : list string :=
  match s with
  | EmptyString => [EmptyString]
  | String c s' =>
      if Ascii.eqb c sep then EmptyString :: split_on sep s'
      else
        match split_on sep s' with
        | [] => [String c EmptyString]
        | h :: t => String c h :: t
        end
  end.

Definition LF : ascii := "010"%char.
Definition CR : ascii := "013"%char.

(* A text with no line break in it. *)
Definition one_line (s : string) : Prop :=
  count_char LF s = 0%nat /\ count_char CR s = 0%nat.

(** * Properties *)

(** ** Calendar facts *)

Ltac leap_cases y :=
  unfold is_leap;
  destruct (Z.eqb_spec (y mod 4) 0), (Z.eqb_spec (y mod 100) 0),
           (Z.eqb_spec (y mod 400) 0); cbn [andb orb negb].

Ltac month_cases m :=
  let H := fresh "Hm" in
  assert (H : m = 1 \/ m = 2 \/ m = 3 \/ m = 4 \/ m = 5 \/ m = 6 \/ m = 7
              \/ m = 8 \/ m = 9 \/ m = 10 \/ m = 11 \/ m = 12) by lia;
  repeat (destruct H as [H|H]; [subst m|]); [..|subst m].

(* Evaluate the calendar tables, leaving the arithmetic to lia. *)
Ltac calc := cbn -[Z.add Z.sub Z.mul Z.opp Z.le Z.lt Z.div Z.modulo] in *.

Lemma valid_dateb_bounds y m d :
  valid_dateb y m d = true ->
  1 <= y <= 9999 /\ 1 <= m <= 12 /\ 1 <= d <= days_in_month y m.
Proof.
  unfold valid_dateb, MINYEAR, MAXYEAR. intros H.
  repeat (apply andb_prop in H as [H ?]).
  repeat match goal with
         | H : (_ <=? _) = true |- _ => apply Z.leb_le in H
         end.
  lia.
Qed.

Lemma valid_dateb_intro y m d :
  1 <= y <= 9999 -> 1 <= m <= 12 -> 1 <= d <= days_in_month y m ->
  valid_dateb y m d = true.
Proof.
  intros. unfold valid_dateb, MINYEAR, MAXYEAR.
  repeat (apply andb_true_intro; split); apply Z.leb_le; lia.
Qed.

Lemma days_in_month_pos y m : 1 <= m <= 12 -> 28 <= days_in_month y m <= 31.
Proof.
  intros Hm. unfold days_in_month.
  month_cases m; destruct (is_leap y); calc; lia.
Qed.

Lemma days_before_year_succ y :
  days_before_year (y + 1)
  = days_before_year y + 365 + (if is_leap y then 1 else 0).
Proof.
  unfold days_before_year. cbv zeta.
  replace (y + 1 - 1) with y by lia.
  leap_cases y; Z.div_mod_to_equations; lia.
Qed.

Lemma days_before_year_mono y1 y2 :
  y1 <= y2 -> days_before_year y1 <= days_before_year y2.
Proof.
  intros H. unfold days_before_year. cbv zeta.
  Z.div_mod_to_equations. lia.
Qed.

(* The day of the year of a valid date lies within the year. *)
Lemma day_of_year_bounds y m d :
  1 <= m <= 12 -> 1 <= d <= days_in_month y m ->
  1 <= days_before_month y m + d <= 365 + (if is_leap y then 1 else 0).
Proof.
  intros Hm Hd. unfold days_before_month, days_in_month in *.
  month_cases m; destruct (is_leap y); calc; lia.
Qed.

Lemma day_of_year_lt y m1 d1 m2 d2 :
  1 <= m1 <= 12 -> 1 <= m2 <= 12 ->
  1 <= d1 <= days_in_month y m1 -> 1 <= d2 <= days_in_month y m2 ->
  m1 < m2 ->
  days_before_month y m1 + d1 < days_before_month y m2 + d2.
Proof.
  intros Hm1 Hm2 Hd1 Hd2 Hlt. unfold days_before_month, days_in_month in *.
  month_cases m1; month_cases m2; try lia;
    destruct (is_leap y); calc; lia.
Qed.

(** The last day of a month: [month_end] steps back one day from the
    first day of the next month, through the day ordinals. *)

Lemma div_mod_step d q r :
  0 <= r < d -> (d * q + r) / d = q /\ (d * q + r) mod d = r.
Proof.
  intros H. split.
  - symmetry. apply (Z.div_unique_pos _ _ q r); lia.
  - symmetry. apply (Z.mod_unique_pos _ _ q r); lia.
Qed.

(* The digits of a day number in the 400, 100, 4 and 1 year cycles. *)
Lemma cycle_digits a b c e k :
  0 <= b <= 3 -> 0 <= c <= 24 -> 0 <= e <= 3 -> 0 <= k < 365 ->
  let n := 146097 * a + 36524 * b + 1461 * c + 365 * e + k in
  n / 146097 = a
  /\ (n mod 146097) / 36524 = b
  /\ ((n mod 146097) mod 36524) / 1461 = c
  /\ (((n mod 146097) mod 36524) mod 1461) / 365 = e
  /\ (((n mod 146097) mod 36524) mod 1461) mod 365 = k.
Proof.
  intros Hb Hc He Hk n. subst n.
  destruct (div_mod_step 146097 a (36524 * b + 1461 * c + 365 * e + k))
    as [D1 M1]; [lia|].
  replace (146097 * a + 36524 * b + 1461 * c + 365 * e + k)
    with (146097 * a + (36524 * b + 1461 * c + 365 * e + k)) by lia.
  rewrite D1, M1.
  destruct (div_mod_step 36524 b (1461 * c + 365 * e + k)) as [D2 M2]; [lia|].
  replace (36524 * b + 1461 * c + 365 * e + k)
    with (36524 * b + (1461 * c + 365 * e + k)) by lia.
  rewrite D2, M2.
  destruct (div_mod_step 1461 c (365 * e + k)) as [D3 M3]; [lia|].
  replace (1461 * c + 365 * e + k) with (1461 * c + (365 * e + k)) by lia.
  rewrite D3, M3.
  destruct (div_mod_step 365 e k) as [D4 M4]; [lia|].
  rewrite D4, M4. repeat split; reflexivity.
Qed.

(* The same digits read off the number of whole years elapsed. *)
Lemma year_digits Y :
  let a := Y / 400 in
  let b := (Y mod 400) / 100 in
  let c := (Y mod 100) / 4 in
  let e := Y mod 4 in
  Y * 365 + Y / 4 - Y / 100 + Y / 400
  = 146097 * a + 36524 * b + 1461 * c + 365 * e
  /\ 0 <= b <= 3 /\ 0 <= c <= 24 /\ 0 <= e <= 3
  /\ Y = 400 * a + 100 * b + 4 * c + e.
Proof.
  cbv zeta.
  pose proof (Z.div_mod Y 400 ltac:(lia)) as E400.
  pose proof (Z.mod_pos_bound Y 400 ltac:(lia)) as B400.
  set (a := Y / 400) in *. set (R := Y mod 400) in *.
  pose proof (Z.div_mod R 100 ltac:(lia)) as E100.
  pose proof (Z.mod_pos_bound R 100 ltac:(lia)) as B100.
  set (b := R / 100) in *. set (R2 := R mod 100) in *.
  pose proof (Z.div_mod R2 4 ltac:(lia)) as E4.
  pose proof (Z.mod_pos_bound R2 4 ltac:(lia)) as B4.
  set (c := R2 / 4) in *. set (e := R2 mod 4) in *.
  destruct (div_mod_step 100 (4 * a + b) R2) as [D100 M100]; [lia|].
  replace (100 * (4 * a + b) + R2) with Y in D100, M100 by lia.
  destruct (div_mod_step 4 (100 * a + 25 * b + c) e) as [D4 M4]; [lia|].
  replace (4 * (100 * a + 25 * b + c) + e) with Y in D4, M4 by lia.
  rewrite M100. fold c. rewrite D100, D4, M4.
  repeat split; try lia.
Qed.

Lemma is_leap_digits a b c e :
  0 <= b <= 3 -> 0 <= c <= 24 -> 0 <= e <= 3 ->
  is_leap (400 * a + 100 * b + 4 * c + e + 1)
  = (e =? 3) && (negb (c =? 24) || (b =? 3)).
Proof.
  intros Hb Hc He. set (y := 400 * a + 100 * b + 4 * c + e + 1).
  assert (M4 : y mod 4 = (e + 1) mod 4).
  { unfold y. replace (400 * a + 100 * b + 4 * c + e + 1)
      with ((e + 1) + (100 * a + 25 * b + c) * 4) by lia.
    apply Z.mod_add. lia. }
  assert (M100 : y mod 100 = (4 * c + e + 1) mod 100).
  { unfold y. replace (400 * a + 100 * b + 4 * c + e + 1)
      with ((4 * c + e + 1) + (4 * a + b) * 100) by lia.
    apply Z.mod_add. lia. }
  assert (M400 : y mod 400 = (100 * b + 4 * c + e + 1) mod 400).
  { unfold y. replace (400 * a + 100 * b + 4 * c + e + 1)
      with ((100 * b + 4 * c + e + 1) + a * 400) by lia.
    apply Z.mod_add. lia. }
  unfold is_leap. rewrite M4, M100, M400.
  destruct (Z.eqb_spec e 3) as [->|He3].
  - change ((3 + 1) mod 4) with 0. cbn [Z.eqb andb].
    destruct (Z.eqb_spec c 24) as [->|Hc24].
    + change ((4 * 24 + 3 + 1) mod 100) with 0. cbn [Z.eqb negb orb].
      destruct (Z.eqb_spec b 3) as [->|Hb3]; [reflexivity|].
      destruct (Z.eqb_spec ((100 * b + 4 * 24 + 3 + 1) mod 400) 0) as [E|E];
        [|reflexivity].
      rewrite Z.mod_small in E by lia. lia.
    + destruct (Z.eqb_spec ((4 * c + 3 + 1) mod 100) 0) as [E|E];
        [|reflexivity].
      rewrite Z.mod_small in E by lia. lia.
  - destruct (Z.eqb_spec ((e + 1) mod 4) 0) as [E|E]; [|reflexivity].
    rewrite Z.mod_small in E by lia. lia.
Qed.

(* Within a year, ord2ymd finds the year and hands the day of the year
   to month_of_yday. *)
Lemma ord2ymd_in_year y k :
  0 <= k < 365 ->
  ord2ymd (days_before_year y + k + 1) = month_of_yday y (is_leap y) k.
Proof.
  intros Hk.
  destruct (year_digits (y - 1)) as (E & Hb & Hc & He & HY). cbv zeta in *.
  assert (Hd : days_before_year y
               = 146097 * ((y - 1) / 400) + 36524 * ((y - 1) mod 400 / 100)
                 + 1461 * ((y - 1) mod 100 / 4) + 365 * ((y - 1) mod 4))
    by exact E.
  set (a := (y - 1) / 400) in *. set (b := ((y - 1) mod 400) / 100) in *.
  set (c := ((y - 1) mod 100) / 4) in *. set (e := (y - 1) mod 4) in *.
  rewrite Hd. unfold ord2ymd, DI400Y, DI100Y, DI4Y. cbv zeta.
  replace (146097 * a + 36524 * b + 1461 * c + 365 * e + k + 1 - 1)
    with (146097 * a + 36524 * b + 1461 * c + 365 * e + k) by lia.
  destruct (cycle_digits a b c e k Hb Hc He Hk) as (D1 & D2 & D3 & D4 & D5).
  cbv zeta in *. rewrite D1, D2, D3, D4, D5.
  destruct (Z.eqb_spec e 4); [lia|]. destruct (Z.eqb_spec b 4); [lia|].
  cbn [orb].
  rewrite <- (is_leap_digits a b c e Hb Hc He).
  replace (a * 400 + 1 + (b * 100 + c * 4 + e)) with y by lia.
  replace (400 * a + 100 * b + 4 * c + e + 1) with y by lia.
  reflexivity.
Qed.

Lemma month_end_spec y m :
  1 <= y <= 9999 -> 1 <= m <= 12 ->
  month_end (mkdate y m 1) = Ok (mkdate y m (days_in_month y m)).
Proof.
  intros Hy Hm. unfold month_end. cbn [year month day].
  destruct (Z.eqb_spec m 12) as [->|Hne].
  - unfold date_new. rewrite valid_dateb_intro; [reflexivity|lia|lia|].
    unfold days_in_month. cbn. lia.
  - unfold date_new at 1. rewrite valid_dateb_intro; try lia.
    2:{ pose proof (days_in_month_pos y (m + 1)). lia. }
    cbn [bind]. unfold fromordinal, toordinal, ymd2ord. cbn [year month day].
    replace (days_before_year y + days_before_month y (m + 1) + 1 - 1)
      with (days_before_year y + (days_before_month y (m + 1) - 1) + 1) by lia.
    rewrite ord2ymd_in_year.
    2:{ unfold days_before_month.
        month_cases m; try lia; destruct (is_leap y); vm_compute; easy. }
    unfold days_before_month, days_in_month, date_new.
    month_cases m; try lia; destruct (is_leap y) eqn:L;
      cbn -[valid_dateb]; (rewrite valid_dateb_intro;
        [reflexivity | lia | lia | unfold days_in_month; rewrite ?L; cbn; lia ]).
Qed.

Lemma date_ltb_spec a b :
  date_ltb a b = true <->
  year a < year b
  \/ (year a = year b
      /\ (month a < month b \/ (month a = month b /\ day a < day b))).
Proof.
  unfold date_ltb.
  rewrite orb_true_iff, andb_true_iff, orb_true_iff, andb_true_iff.
  rewrite !Z.ltb_lt, !Z.eqb_eq. tauto.
Qed.

Lemma toordinal_lt a b :
  valid_date a -> valid_date b ->
  date_ltb a b = true -> toordinal a < toordinal b.
Proof.
  unfold valid_date. intros Ha Hb Hlt.
  apply valid_dateb_bounds in Ha as (Hya & Hma & Hda).
  apply valid_dateb_bounds in Hb as (Hyb & Hmb & Hdb).
  apply date_ltb_spec in Hlt.
  unfold toordinal, ymd2ord.
  pose proof (day_of_year_bounds _ _ _ Hma Hda) as Ba.
  pose proof (day_of_year_bounds _ _ _ Hmb Hdb) as Bb.
  destruct Hlt as [Hy | (Hy & [Hm | (Hm & Hd)])].
  - pose proof (days_before_year_succ (year a)) as Hs.
    pose proof (days_before_year_mono (year a + 1) (year b) ltac:(lia)).
    lia.
  - rewrite Hy in *.
    pose proof (day_of_year_lt (year b) _ _ _ _ Hma Hmb Hda Hdb Hm). lia.
  - rewrite Hy, Hm. lia.
Qed.

Lemma date_ltb_irrefl a : date_ltb a a = false.
Proof.
  destruct (date_ltb a a) eqn:E; [|reflexivity].
  apply date_ltb_spec in E. lia.
Qed.

Lemma date_ltb_trichotomy a b :
  date_ltb a b = true \/ a = b \/ date_ltb b a = true.
Proof.
  rewrite !date_ltb_spec. destruct a as [ya ma da], b as [yb mb db].
  cbn [year month day].
  destruct (Z.lt_total ya yb) as [?|[?|?]]; [lia| |lia].
  destruct (Z.lt_total ma mb) as [?|[?|?]]; [lia| |lia].
  destruct (Z.lt_total da db) as [?|[?|?]]; [lia| |lia].
  right; left. congruence.
Qed.

(* On valid dates the tuple order is the order of the ordinals. *)
Lemma date_ltb_toordinal a b :
  valid_date a -> valid_date b ->
  date_ltb a b = (toordinal a <? toordinal b).
Proof.
  intros Ha Hb.
  destruct (date_ltb_trichotomy a b) as [H|[H|H]].
  - rewrite H. symmetry. apply Z.ltb_lt. now apply toordinal_lt.
  - subst b. rewrite date_ltb_irrefl. symmetry. apply Z.ltb_ge. lia.
  - pose proof (toordinal_lt _ _ Hb Ha H).
    destruct (date_ltb a b) eqn:E.
    + pose proof (toordinal_lt _ _ Ha Hb E). lia.
    + symmetry. apply Z.ltb_ge. lia.
Qed.

(** ** Accrual of one month *)

Lemma first_day_valid y m :
  1 <= y <= 9999 -> 1 <= m <= 12 -> valid_date (mkdate y m 1).
Proof.
  intros Hy Hm. apply valid_dateb_intro; cbn [year month day]; auto.
  pose proof (days_in_month_pos y m Hm). lia.
Qed.

Lemma last_day_valid y m :
  1 <= y <= 9999 -> 1 <= m <= 12 -> valid_date (mkdate y m (days_in_month y m)).
Proof.
  intros Hy Hm. apply valid_dateb_intro; cbn [year month day]; auto.
  pose proof (days_in_month_pos y m Hm). lia.
Qed.

Lemma date_min_valid a b : valid_date a -> valid_date b -> valid_date (date_min a b).
Proof. unfold date_min. now destruct (date_ltb b a). Qed.

Lemma date_max_valid a b : valid_date a -> valid_date b -> valid_date (date_max a b).
Proof. unfold date_max. now destruct (date_ltb a b). Qed.

Lemma toordinal_date_min a b :
  valid_date a -> valid_date b ->
  toordinal (date_min a b) = Z.min (toordinal a) (toordinal b).
Proof.
  intros Ha Hb. unfold date_min. rewrite (date_ltb_toordinal b a) by assumption.
  destruct (Z.ltb_spec (toordinal b) (toordinal a)); lia.
Qed.

Lemma toordinal_date_max a b :
  valid_date a -> valid_date b ->
  toordinal (date_max a b) = Z.max (toordinal a) (toordinal b).
Proof.
  intros Ha Hb. unfold date_max. rewrite (date_ltb_toordinal a b) by assumption.
  destruct (Z.ltb_spec (toordinal a) (toordinal b)); lia.
Qed.

(* Outside the special month and from the enrollment month on, the code
   computes the prorated accrual. *)
Lemma due_for_month_general cfg y m asof member_start :
  1 <= y <= 9999 -> 1 <= m <= 12 ->
  valid_date asof -> valid_date member_start ->
  ym_ltb (y, m) (year member_start, month member_start) = false ->
  special_month y m = false ->
  due_for_month cfg y m asof member_start
  = Ok (prorated_due cfg y m asof member_start).
Proof.
  intros Hy Hm Ha Hs Hym Hsp.
  unfold due_for_month. rewrite Hym. fold (special_month y m). rewrite Hsp.
  pose proof (first_day_valid y m Hy Hm) as Hf.
  pose proof (last_day_valid y m Hy Hm) as Hl.
  unfold date_new. unfold valid_date in Hf. cbn [year month day] in Hf.
  rewrite Hf. cbn [bind].
  rewrite month_end_spec by assumption. cbn [bind]. cbv zeta.
  rewrite date_ltb_toordinal
    by (apply date_min_valid || apply date_max_valid; assumption).
  unfold days_between, prorated_due, window_days.
  rewrite toordinal_date_min, toordinal_date_max by assumption.
  cbv zeta.
  destruct (Z.ltb_spec
              (Z.min (toordinal (mkdate y m (days_in_month y m))) (toordinal asof))
              (Z.max (toordinal (mkdate y m 1)) (toordinal member_start)));
    destruct (Z.eqb_spec
                (Z.max 0
                   (Z.min (toordinal (mkdate y m (days_in_month y m)))
                      (toordinal asof)
                    - Z.max (toordinal (mkdate y m 1)) (toordinal member_start)
                    + 1)) 0); try lia; try reflexivity.
  f_equal. f_equal. f_equal. lia.
Qed.

(** ** The months from the enrollment to the as-of date *)

Lemma ym_ltb_index a b :
  1 <= snd a <= 12 -> 1 <= snd b <= 12 ->
  ym_ltb a b = (ym_index a <? ym_index b).
Proof.
  intros Ha Hb. unfold ym_ltb, ym_index.
  destruct (Z.ltb_spec (fst a) (fst b)), (Z.eqb_spec (fst a) (fst b)),
           (Z.ltb_spec (snd a) (snd b)),
           (Z.ltb_spec (fst a * 12 + (snd a - 1)) (fst b * 12 + (snd b - 1)));
    cbn; try reflexivity; lia.
Qed.

Lemma months_loop_seq fuel :
  forall y m e,
    1 <= m <= 12 -> 1 <= snd e <= 12 ->
    (months_fuel (y, m) e <= fuel)%nat ->
    months_loop fuel y m e = Ok (month_seq (months_fuel (y, m) e) y m).
Proof.
  induction fuel as [|fuel IH]; intros y m e Hm He Hfuel.
  - assert (H0 : months_fuel (y, m) e = 0%nat) by lia. rewrite H0.
    cbn [months_loop month_seq]. unfold ym_leb.
    rewrite ym_ltb_index by (cbn [snd]; assumption).
    unfold months_fuel, ym_index in *. cbn [fst snd] in *.
    destruct (Z.ltb_spec (fst e * 12 + (snd e - 1)) (y * 12 + (m - 1)));
      cbn [negb]; [reflexivity | lia].
  - cbn [months_loop]. unfold ym_leb.
    rewrite ym_ltb_index by (cbn [snd]; assumption).
    unfold ym_index. cbn [fst snd].
    destruct (Z.ltb_spec (fst e * 12 + (snd e - 1)) (y * 12 + (m - 1)))
      as [Hlt|Hge]; cbn [negb].
    + assert (H0 : months_fuel (y, m) e = 0%nat)
        by (unfold months_fuel; cbn [fst snd]; lia).
      now rewrite H0.
    + assert (HS : months_fuel (y, m) e
                   = S (months_fuel (if m =? 12 then (y + 1, 1) else (y, m + 1)) e)).
      { unfold months_fuel. destruct (Z.eqb_spec m 12); cbn [fst snd]; lia. }
      rewrite HS. cbn [month_seq].
      destruct (Z.eqb_spec m 12) as [->|Hne].
      * rewrite IH; [reflexivity | lia | assumption | lia].
      * rewrite IH; [reflexivity | lia | assumption | lia].
Qed.

Lemma valid_date_bounds d :
  valid_date d ->
  1 <= year d <= 9999 /\ 1 <= month d <= 12
  /\ 1 <= day d <= days_in_month (year d) (month d).
Proof. apply valid_dateb_bounds. Qed.

(* The loop of months_between ends by its condition, never by the fuel. *)
Lemma months_between_seq start end_ :
  valid_date start -> valid_date end_ ->
  months_between start end_
  = Ok (month_seq (months_fuel (year start, month start) (year end_, month end_))
                  (year start) (month start)).
Proof.
  intros Hs He.
  apply valid_date_bounds in Hs as (_ & Hs & _).
  apply valid_date_bounds in He as (_ & He & _).
  unfold months_between. apply months_loop_seq; cbn [snd]; auto.
Qed.

(* Every month of the sequence is a calendar month, in order from the
   first. *)
Lemma month_seq_in n :
  forall y m ym,
    1 <= m <= 12 -> In ym (month_seq n y m) ->
    1 <= snd ym <= 12
    /\ ym_index (y, m) <= ym_index ym < ym_index (y, m) + Z.of_nat n.
Proof.
  induction n as [|n IH]; intros y m ym Hm Hin; [destruct Hin|].
  cbn [month_seq] in Hin. destruct Hin as [<-|Hin].
  - cbn [snd]. lia.
  - destruct (Z.eqb_spec m 12) as [->|Hne];
      apply IH in Hin; try lia; unfold ym_index in *; cbn [fst snd] in *; lia.
Qed.

(** ** Cumulative due *)

Lemma special_month_eq y m : special_month y m = true -> y = 2025 /\ m = 10.
Proof.
  unfold special_month. intros H. apply andb_prop in H as [H1 H2].
  apply Z.eqb_eq in H1, H2. auto.
Qed.

Lemma due_for_month_from_enrollment cfg y m asof member_start :
  1 <= y <= 9999 -> 1 <= m <= 12 ->
  valid_date asof -> valid_date member_start ->
  ym_ltb (y, m) (year member_start, month member_start) = false ->
  due_for_month cfg y m asof member_start
  = Ok (month_due cfg asof member_start (y, m)).
Proof.
  intros Hy Hm Ha Hs Hym. unfold month_due. cbn [fst snd].
  destruct (special_month y m) eqn:Hsp.
  - unfold due_for_month. rewrite Hym. fold (special_month y m). rewrite Hsp.
    destruct (negb (ym_eqb (year member_start, month member_start) (2025, 10)));
      [reflexivity|].
    change (date_new 2025 10 31) with (Ok (mkdate 2025 10 31)). cbn [bind].
    now destruct (date_ltb asof (mkdate 2025 10 31)).
  - now apply due_for_month_general.
Qed.

Lemma due_loop_sum cfg asof member_start l :
  forall t,
    (forall ym, In ym l ->
                due_for_month cfg (fst ym) (snd ym) asof member_start
                = Ok (month_due cfg asof member_start ym)) ->
    due_loop cfg asof member_start l t
    = Ok (t + sum_list (map (month_due cfg asof member_start) l)).
Proof.
  induction l as [|[y m] l IH]; intros t H; cbn [due_loop map sum_list fold_right].
  - f_equal. lia.
  - pose proof (H (y, m) (or_introl eq_refl)) as Hd. cbn [fst snd] in Hd.
    rewrite Hd. cbn [bind].
    rewrite IH by (intros; apply H; now right).
    f_equal. unfold sum_list. lia.
Qed.

(* On valid dates due_total_as_of returns, and returns the sum of the
   months' contributions. *)
Lemma due_total_as_of_sum cfg asof member_start :
  valid_date asof -> valid_date member_start ->
  date_ltb asof member_start = false ->
  due_total_as_of cfg asof member_start
  = Ok (sum_list
          (map (month_due cfg asof member_start)
               (month_seq (months_fuel (year member_start, month member_start)
                                       (year asof, month asof))
                          (year member_start) (month member_start)))).
Proof.
  intros Ha Hs Hlt. unfold due_total_as_of. rewrite Hlt.
  rewrite months_between_seq by assumption. cbn [bind].
  rewrite due_loop_sum; [f_equal; lia|].
  intros [y m] Hin. cbn [fst snd].
  pose proof (valid_date_bounds _ Ha) as (Hya & Hma & _).
  pose proof (valid_date_bounds _ Hs) as (Hys & Hms & _).
  apply month_seq_in in Hin as (Hm & Hlo & Hhi); [|assumption].
  cbn [snd] in Hm.
  assert (Hfuel : Z.of_nat (months_fuel (year member_start, month member_start)
                                        (year asof, month asof))
                  <= ym_index (year asof, month asof)
                     - ym_index (year member_start, month member_start) + 1).
  { unfold months_fuel, ym_index. cbn [fst snd].
    assert (Hord : date_ltb asof member_start = false) by assumption.
    destruct (date_ltb_trichotomy asof member_start) as [H|[H|H]];
      [congruence | subst; lia |].
    apply date_ltb_spec in H. lia. }
  unfold ym_index in *. cbn [fst snd] in *.
  apply due_for_month_from_enrollment; try assumption; try lia.
  rewrite ym_ltb_index by (cbn [snd]; assumption).
  unfold ym_index. cbn [fst snd]. apply Z.ltb_ge. lia.
Qed.

Lemma window_days_nonneg y m asof member_start :
  0 <= window_days y m asof member_start.
Proof. unfold window_days. lia. Qed.

Lemma month_due_nonneg cfg asof member_start ym :
  config_nonneg cfg -> 0 <= month_due cfg asof member_start ym.
Proof.
  intros (Hd & Hc & Hf). unfold month_due, prorated_due.
  pose proof (window_days_nonneg (fst ym) (snd ym) asof member_start).
  repeat match goal with
         | |- context [if ?b then _ else _] => destruct b
         end; lia.
Qed.

Lemma window_days_mono y m a1 a2 member_start :
  toordinal a1 <= toordinal a2 ->
  window_days y m a1 member_start <= window_days y m a2 member_start.
Proof. unfold window_days. lia. Qed.

Lemma month_due_mono cfg a1 a2 member_start ym :
  config_nonneg cfg -> valid_date a1 -> valid_date a2 ->
  date_ltb a2 a1 = false ->
  month_due cfg a1 member_start ym <= month_due cfg a2 member_start ym.
Proof.
  intros Hcfg H1 H2 Hle.
  assert (Hord : toordinal a1 <= toordinal a2).
  { rewrite date_ltb_toordinal in Hle by assumption. now apply Z.ltb_ge. }
  destruct Hcfg as (Hd & Hc & Hf). unfold month_due.
  destruct (special_month (fst ym) (snd ym)).
  - destruct (negb (ym_eqb (year member_start, month member_start) (2025, 10)));
      [lia|].
    assert (Hv : valid_date (mkdate 2025 10 31)) by reflexivity.
    rewrite !date_ltb_toordinal by assumption.
    destruct (Z.ltb_spec (toordinal a1) (toordinal (mkdate 2025 10 31))),
             (Z.ltb_spec (toordinal a2) (toordinal (mkdate 2025 10 31))); lia.
  - unfold prorated_due.
    pose proof (window_days_mono (fst ym) (snd ym) a1 a2 member_start Hord) as Hw.
    pose proof (window_days_nonneg (fst ym) (snd ym) a1 member_start) as Hn.
    set (w1 := window_days _ _ a1 _) in *.
    set (w2 := window_days _ _ a2 _) in *.
    assert (Hmul : daily_amount cfg * w1 <= daily_amount cfg * w2)
      by (apply Z.mul_le_mono_nonneg_l; assumption).
    assert (0 <= daily_amount cfg * w2)
      by (apply Z.mul_nonneg_nonneg; lia).
    destruct (Z.eqb_spec w1 0), (Z.eqb_spec w2 0); lia.
Qed.

Lemma sum_list_nonneg (f : Z * Z -> Z) l :
  (forall ym, 0 <= f ym) -> 0 <= sum_list (map f l).
Proof.
  intros Hf. induction l as [|a l IH]; cbn; [lia|].
  specialize (Hf a). unfold sum_list in IH. lia.
Qed.

(* A longer run of months, each contributing at least as much, sums to
   at least as much. *)
Lemma month_seq_sum_mono (f1 f2 : Z * Z -> Z) n1 :
  (forall ym, f1 ym <= f2 ym) -> (forall ym, 0 <= f2 ym) ->
  forall n2 y m,
    (n1 <= n2)%nat ->
    sum_list (map f1 (month_seq n1 y m)) <= sum_list (map f2 (month_seq n2 y m)).
Proof.
  intros Hle Hpos. induction n1 as [|n1 IH]; intros n2 y m Hn.
  - cbn. now apply sum_list_nonneg.
  - destruct n2 as [|n2]; [lia|].
    cbn [month_seq map sum_list fold_right].
    specialize (Hle (y, m)).
    destruct (m =? 12).
    + specialize (IH n2 (y + 1) 1 ltac:(lia)). unfold sum_list in IH. lia.
    + specialize (IH n2 y (m + 1) ltac:(lia)). unfold sum_list in IH. lia.
Qed.

Lemma due_total_as_of_total cfg asof member_start :
  valid_date asof -> valid_date member_start ->
  exists v, due_total_as_of cfg asof member_start = Ok v.
Proof.
  intros Ha Hs. destruct (date_ltb asof member_start) eqn:E.
  - exists 0. unfold due_total_as_of. now rewrite E.
  - eexists. now apply due_total_as_of_sum.
Qed.

Lemma date_ltb_trans a b c :
  date_ltb a b = true -> date_ltb b c = true -> date_ltb a c = true.
Proof. rewrite !date_ltb_spec. lia. Qed.

Lemma date_ltb_asym a b : date_ltb a b = true -> date_ltb b a = false.
Proof.
  intros H. destruct (date_ltb b a) eqn:E; [|reflexivity].
  apply date_ltb_spec in H, E. lia.
Qed.

(** ** The claims on the accrual calculator *)

(** C1, as stated, fails: on 2025-11-01 the default member owes 32000,
    not 30000, because the first day of November accrues its own daily
    amount on top of October's fixed fee. *)
Lemma C1_counterexample :
  ~ (due_total_as_of default_config (mkdate 2025 10 20) enrolled_oct15 = Ok 0
     /\ due_total_as_of default_config (mkdate 2025 10 31) enrolled_oct15 = Ok 30000
     /\ due_total_as_of default_config (mkdate 2025 11 1) enrolled_oct15 = Ok 30000).
Proof.
  intros (_ & _ & H). vm_compute in H. discriminate H.
Qed.

(** C1, amended: with the default configuration and a member enrolled
    2025-10-15, the total due is 0 on 2025-10-20, 30000 on 2025-10-31
    and 32000 on 2025-11-01; October's own contribution is the fixed fee
    from month-end on and is still exactly 30000 on 2025-11-01, the
    extra 2000 being the first day of November. *)
Theorem C1_special_month_step :
  due_total_as_of default_config (mkdate 2025 10 20) enrolled_oct15 = Ok 0
  /\ due_total_as_of default_config (mkdate 2025 10 31) enrolled_oct15 = Ok 30000
  /\ due_total_as_of default_config (mkdate 2025 11 1) enrolled_oct15 = Ok 32000
  /\ due_for_month default_config 2025 10 (mkdate 2025 10 30) enrolled_oct15 = Ok 0
  /\ due_for_month default_config 2025 10 (mkdate 2025 11 1) enrolled_oct15 = Ok 30000
  /\ due_for_month default_config 2025 11 (mkdate 2025 11 1) enrolled_oct15 = Ok 2000.
Proof. repeat split; vm_compute; reflexivity. Qed.

(** C3: for a month other than October 2025, at or after the enrollment
    month, due_for_month is min(monthly_cap, daily_amount * days), days
    being the inclusive number of days common to the month and to the
    period from the enrollment to the as-of date, and 0 when there is no
    such day; for the default member the total is 90000 on 2025-11-30
    and 60000 on 2025-11-15. *)
Theorem C3_prorated_month :
  (forall cfg y m asof member_start,
      1 <= y <= 9999 -> 1 <= m <= 12 ->
      valid_date asof -> valid_date member_start ->
      special_month y m = false ->
      ym_ltb (y, m) (year member_start, month member_start) = false ->
      due_for_month cfg y m asof member_start
      = Ok (let days := window_days y m asof member_start in
            if days =? 0 then 0
            else Z.min (monthly_cap cfg) (daily_amount cfg * days)))
  /\ due_total_as_of default_config (mkdate 2025 11 30) enrolled_oct15
     = Ok (30000 + Z.min 60000 (2000 * 30))
  /\ due_total_as_of default_config (mkdate 2025 11 30) enrolled_oct15 = Ok 90000
  /\ due_total_as_of default_config (mkdate 2025 11 15) enrolled_oct15
     = Ok (30000 + Z.min 60000 (2000 * 15))
  /\ due_total_as_of default_config (mkdate 2025 11 15) enrolled_oct15 = Ok 60000.
Proof.
  split; [|repeat split; vm_compute; reflexivity].
  intros. now apply due_for_month_general.
Qed.

Lemma C3_prorated_month_witness :
  special_month 2025 12 = false
  /\ window_days 2025 12 (mkdate 2025 12 10) (mkdate 2025 12 4) = 7
  /\ due_for_month default_config 2025 12 (mkdate 2025 12 10) (mkdate 2025 12 4)
     = Ok 14000.
Proof.
  split; [reflexivity|]. split; [reflexivity|].
  rewrite (proj1 C3_prorated_month default_config 2025 12
                 (mkdate 2025 12 10) (mkdate 2025 12 4));
    [reflexivity | lia | lia | reflexivity | reflexivity | reflexivity
     | reflexivity].
Defined.

(** C4: for a fixed enrollment date and a configuration of non-negative
    amounts, due_total_as_of returns on every valid as-of date, is
    non-decreasing in the as-of date, and is 0 on every as-of date
    before the enrollment. *)
Theorem C4_due_total_monotone cfg member_start asof1 asof2 :
  config_nonneg cfg ->
  valid_date member_start -> valid_date asof1 -> valid_date asof2 ->
  date_ltb asof1 asof2 = true ->
  (exists v1 v2,
      due_total_as_of cfg asof1 member_start = Ok v1
      /\ due_total_as_of cfg asof2 member_start = Ok v2
      /\ v1 <= v2)
  /\ (date_ltb asof1 member_start = true ->
      due_total_as_of cfg asof1 member_start = Ok 0).
Proof.
  intros Hcfg Hs H1 H2 Hlt. split.
  2:{ intros E. unfold due_total_as_of. now rewrite E. }
  destruct (date_ltb asof1 member_start) eqn:E1.
  - exists 0. destruct (date_ltb asof2 member_start) eqn:E2.
    + exists 0. unfold due_total_as_of. rewrite E1, E2. repeat split; lia.
    + eexists. split; [unfold due_total_as_of; now rewrite E1|].
      split; [now apply due_total_as_of_sum|].
      apply sum_list_nonneg. intros. now apply month_due_nonneg.
  - assert (E2 : date_ltb asof2 member_start = false).
    { destruct (date_ltb asof2 member_start) eqn:E2; [|reflexivity].
      rewrite (date_ltb_trans _ _ _ Hlt E2) in E1. discriminate. }
    do 2 eexists.
    split; [now apply due_total_as_of_sum|].
    split; [now apply due_total_as_of_sum|].
    apply month_seq_sum_mono.
    + intros ym. apply month_due_mono; auto. now apply date_ltb_asym.
    + intros ym. now apply month_due_nonneg.
    + apply date_ltb_spec in Hlt. unfold months_fuel. cbn [fst snd].
      pose proof (valid_date_bounds _ H1) as (_ & B1 & _).
      pose proof (valid_date_bounds _ H2) as (_ & B2 & _).
      lia.
Qed.

Lemma C4_due_total_monotone_witness :
  config_nonneg default_config
  /\ date_ltb (mkdate 2025 10 20) (mkdate 2025 11 15) = true
  /\ exists v1 v2,
      due_total_as_of default_config (mkdate 2025 10 20) enrolled_oct15 = Ok v1
      /\ due_total_as_of default_config (mkdate 2025 11 15) enrolled_oct15 = Ok v2
      /\ v1 <= v2.
Proof.
  assert (Hc : config_nonneg default_config) by (repeat split; discriminate).
  split; [exact Hc|]. split; [reflexivity|].
  exact (proj1 (C4_due_total_monotone default_config enrolled_oct15
                  (mkdate 2025 10 20) (mkdate 2025 11 15)
                  Hc eq_refl eq_refl eq_refl eq_refl)).
Defined.

(** C10: a member whose enrollment month is not October 2025, enrolled
    before it or after it, is charged nothing for October 2025, on any
    as-of date: due_for_month(2025, 10, asof, enrollment) is 0. *)
Theorem C10_october_only_for_october_enrollees cfg asof member_start :
  (year member_start, month member_start) <> (2025, 10) ->
  due_for_month cfg 2025 10 asof member_start = Ok 0.
Proof.
  intros Hne. unfold due_for_month.
  destruct (ym_ltb (2025, 10) (year member_start, month member_start));
    [reflexivity|].
  cbn [Z.eqb Pos.eqb andb].
  assert (E : ym_eqb (year member_start, month member_start) (2025, 10) = false).
  { unfold ym_eqb. cbn [fst snd].
    destruct (Z.eqb_spec (year member_start) 2025),
             (Z.eqb_spec (month member_start) 10); try reflexivity.
    exfalso. apply Hne. congruence. }
  now rewrite E.
Qed.

Lemma C10_october_only_for_october_enrollees_witness :
  (year (mkdate 2025 9 1), month (mkdate 2025 9 1)) <> (2025, 10)
  /\ due_for_month default_config 2025 10 (mkdate 2025 12 31) (mkdate 2025 9 1)
     = Ok 0.
Proof.
  assert (H : (year (mkdate 2025 9 1), month (mkdate 2025 9 1)) <> (2025, 10))
    by (cbn; discriminate).
  split; [exact H|].
  exact (C10_october_only_for_october_enrollees
           default_config (mkdate 2025 12 31) (mkdate 2025 9 1) H).
Defined.

(** ** The claims on the ledger *)

(** C5, as stated, fails: with 30000 due and nothing paid, rest - avance
    is 30000 while paid - due is -30000. *)
Lemma C5_counterexample :
  exists st,
    member_status (db_of default_config [member_1] [] []) 1
                  enrolled_oct15 (mkdate 2025 10 31) = Ok st
    /\ rest st - avance st <> paid st - due st.
Proof.
  eexists. split; [vm_compute; reflexivity|]. cbn. discriminate.
Qed.

(** C5, amended: for valid dates member_status returns a status with
    rest = max(0, due - paid) and avance = max(0, paid - due), so that
    avance - rest = paid - due (equivalently rest - avance = due - paid);
    at most one of rest and avance is non-zero, and both are zero exactly
    when paid = due. *)
Theorem C5_balance_identity d mid member_start asof :
  valid_date member_start -> valid_date asof ->
  exists st,
    member_status d mid member_start asof = Ok st
    /\ due_total_as_of (settings d) asof member_start = Ok (due st)
    /\ paid st = paid_total_as_of d mid asof
    /\ rest st = Z.max 0 (due st - paid st)
    /\ avance st = Z.max 0 (paid st - due st)
    /\ avance st - rest st = paid st - due st
    /\ (rest st = 0 \/ avance st = 0)
    /\ (rest st = 0 /\ avance st = 0 <-> paid st = due st).
Proof.
  intros Hs Ha.
  destruct (due_total_as_of_total (settings d) asof member_start Ha Hs) as [v Hv].
  unfold member_status. rewrite Hv. cbn [bind]. eexists. split; [reflexivity|].
  cbn [due paid rest avance]. repeat split; try lia.
Qed.

Lemma C5_balance_identity_witness :
  valid_date enrolled_oct15 /\ valid_date (mkdate 2025 10 31)
  /\ exists st,
      member_status (db_of default_config [member_1] [] []) 1
                    enrolled_oct15 (mkdate 2025 10 31) = Ok st
      /\ avance st - rest st = paid st - due st.
Proof.
  split; [reflexivity|]. split; [reflexivity|].
  destruct (C5_balance_identity (db_of default_config [member_1] [] []) 1
              enrolled_oct15 (mkdate 2025 10 31) eq_refl eq_refl)
    as (st & H1 & _ & _ & _ & _ & H2 & _).
  exists st. split; assumption.
Defined.

Lemma date_min_ge today stop :
  date_ltb today stop = false -> date_min today stop = stop.
Proof.
  intros H. unfold date_min.
  destruct (date_ltb_trichotomy today stop) as [E|[E|E]].
  - congruence.
  - subst. now destruct (date_ltb stop stop).
  - now rewrite E.
Qed.

(** C6: when a stop date is set, the as-of date of every calculation is
    min(today, stop_date): today itself before the stop date, the stop
    date on that day and on every later one.  From the stop date on, the
    due computed for any member, the member status and the pages that
    show them (dashboard, member page, /me, the late list, the summary
    and the accounting page) are those of the stop date. *)
Theorem C6_time_frozen_at_stop_date d today stop :
  project_end_date (settings d) = Some stop ->
  as_of_date (settings d) today = (if date_ltb stop today then stop else today)
  /\ (date_ltb today stop = true -> as_of_date (settings d) today = today)
  /\ (date_ltb today stop = false ->
      as_of_date (settings d) today = stop
      /\ (forall member_start,
             due_total_as_of (settings d) (as_of_date (settings d) today)
                             member_start
             = due_total_as_of (settings d) stop member_start)
      /\ (forall mid member_start,
             member_status d mid member_start (as_of_date (settings d) today)
             = member_status d mid member_start stop)
      /\ admin_dashboard true d today = admin_dashboard true d stop
      /\ (forall mid, admin_member true d today mid = admin_member true d stop mid)
      /\ (forall cookie, me d today cookie = me d stop cookie)
      /\ admin_restes true d today = admin_restes true d stop
      /\ admin_resume true d today = admin_resume true d stop
      /\ (forall mois annee,
             admin_comptabilite true d today mois annee
             = admin_comptabilite true d stop mois annee)).
Proof.
  intros Hend.
  assert (Hmin : as_of_date (settings d) today
                 = (if date_ltb stop today then stop else today))
    by (unfold as_of_date, date_min; now rewrite Hend).
  split; [exact Hmin|]. split.
  { intros Hlt. rewrite Hmin. now rewrite (date_ltb_asym _ _ Hlt). }
  intros Hge.
  assert (Hstop : as_of_date (settings d) today = stop).
  { unfold as_of_date. rewrite Hend. now apply date_min_ge. }
  assert (Hself : as_of_date (settings d) stop = stop).
  { unfold as_of_date. rewrite Hend. apply date_min_ge, date_ltb_irrefl. }
  split; [exact Hstop|].
  split; [intros; now rewrite Hstop|].
  split; [intros; now rewrite Hstop|].
  split; [unfold admin_dashboard; cbn [negb]; now rewrite Hstop, Hself|].
  split; [intros mid; unfold admin_member; cbn [negb];
          now rewrite Hstop, Hself|].
  split; [intros cookie; unfold me; now rewrite Hstop, Hself|].
  split; [unfold admin_restes; cbn [negb]; now rewrite Hstop, Hself|].
  split; [unfold admin_resume; cbn [negb]; now rewrite Hstop, Hself|].
  intros mois annee. unfold admin_comptabilite. cbn [negb].
  now rewrite Hstop, Hself.
Qed.

Lemma C6_time_frozen_at_stop_date_witness :
  project_end_date (settings (db_of stopped_config [member_1] [] []))
  = Some (mkdate 2025 11 20)
  /\ as_of_date stopped_config (mkdate 2025 10 20) = mkdate 2025 10 20
  /\ as_of_date stopped_config (mkdate 2025 12 31) = mkdate 2025 11 20
  /\ due_total_as_of stopped_config
       (as_of_date stopped_config (mkdate 2025 12 31)) enrolled_oct15
     = due_total_as_of stopped_config (mkdate 2025 11 20) enrolled_oct15
  /\ due_total_as_of stopped_config (mkdate 2025 11 20) enrolled_oct15
     = Ok 70000
  /\ due_total_as_of stopped_config (mkdate 2025 12 31) enrolled_oct15
     = Ok 150000
  /\ due_total_as_of stopped_config
       (as_of_date stopped_config (mkdate 2025 10 20)) enrolled_oct15
     = Ok 0.
Proof.
  split; [reflexivity|].
  split.
  { exact (proj1 (proj2 (C6_time_frozen_at_stop_date
                           (db_of stopped_config [member_1] [] [])
                           (mkdate 2025 10 20) (mkdate 2025 11 20) eq_refl))
                 eq_refl). }
  pose proof (proj2 (proj2 (C6_time_frozen_at_stop_date
                              (db_of stopped_config [member_1] [] [])
                              (mkdate 2025 12 31) (mkdate 2025 11 20) eq_refl))
                    eq_refl) as (H1 & H2 & _).
  split; [exact H1|]. split; [exact (H2 enrolled_oct15)|].
  split; [vm_compute; reflexivity|].
  split; vm_compute; reflexivity.
Defined.

(** ** The deposit guard *)










(** ** The live status of a deactivated member *)

Lemma insert_by_In {A} (le : A -> A -> bool) x y l :
  In y (insert_by le x l) <-> y = x \/ In y l.
Proof.
  induction l as [|z l IH]; cbn [insert_by].
  - cbn. intuition auto.
  - destruct (le x z); cbn [In]; [intuition auto|].
    rewrite IH. intuition auto.
Qed.

Lemma order_by_In {A} (le : A -> A -> bool) y l :
  In y (order_by le l) <-> In y l.
Proof.
  induction l as [|x l IH]; cbn [order_by fold_right]; [reflexivity|].
  fold (order_by le l). rewrite insert_by_In, IH. cbn [In]. intuition auto.
Qed.

Lemma member_status_total d mid member_start asof :
  valid_date member_start -> valid_date asof ->
  exists st, member_status d mid member_start asof = Ok st.
Proof.
  intros Hs Ha.
  destruct (due_total_as_of_total (settings d) asof member_start Ha Hs) as [v Hv].
  unfold member_status. rewrite Hv. cbn [bind]. eauto.
Qed.

Lemma as_of_date_valid cfg today :
  valid_date today ->
  (forall e, project_end_date cfg = Some e -> valid_date e) ->
  valid_date (as_of_date cfg today).
Proof.
  intros Ht He. unfold as_of_date.
  destruct (project_end_date cfg) as [e|]; [|assumption].
  apply date_min_valid; auto.
Qed.

Lemma dashboard_step_inactive d asof acc m :
  is_active m <> 1 ->
  dashboard_step d asof acc m
  = Ok (mkdash (rows acc ++ [inactive_row m])
               (total_due acc) (total_paid acc) (total_rest acc)
               (total_avance acc) (ok_count acc) (late_count acc)
               (active_count acc)).
Proof.
  intros H. unfold dashboard_step.
  destruct (Z.eqb_spec (is_active m) 1); [contradiction|reflexivity].
Qed.

Lemma dashboard_step_row d asof acc m :
  valid_date asof -> valid_date (start_date m) ->
  exists acc' r,
    dashboard_step d asof acc m = Ok acc'
    /\ rows acc' = rows acc ++ [r]
    /\ row_member r = m
    /\ (is_active m <> 1 -> r = inactive_row m).
Proof.
  intros Ha Hs. destruct (Z.eq_dec (is_active m) 1) as [E|E].
  - destruct (member_status_total d (m_id m) (start_date m) asof Hs Ha) as [st Hst].
    unfold dashboard_step. rewrite E, Hst. cbn [Z.eqb Pos.eqb bind].
    do 2 eexists. split; [reflexivity|]. cbn [rows].
    split; [reflexivity|]. split; [reflexivity|]. intros; contradiction.
  - rewrite dashboard_step_inactive by assumption.
    do 2 eexists. split; [reflexivity|]. cbn [rows]. auto.
Qed.

Lemma dashboard_loop_rows d asof ms :
  valid_date asof ->
  (forall x, In x ms -> valid_date (start_date x)) ->
  forall acc,
  exists acc' new,
    dashboard_loop d asof ms acc = Ok acc'
    /\ rows acc' = rows acc ++ new
    /\ map row_member new = ms
    /\ (forall r, In r new -> is_active (row_member r) <> 1 ->
                  r = inactive_row (row_member r)).
Proof.
  intros Ha. induction ms as [|m ms IH]; intros Hv acc.
  - exists acc, []. cbn. rewrite app_nil_r. intuition auto.
  - destruct (dashboard_step_row d asof acc m Ha (Hv m (or_introl eq_refl)))
      as (acc1 & r & Hstep & Hrows & Hm & Hin).
    destruct (IH (fun x Hx => Hv x (or_intror Hx)) acc1)
      as (acc' & new & Hloop & Hrows' & Hmap & Hnew).
    exists acc', (r :: new). cbn [dashboard_loop]. rewrite Hstep. cbn [bind].
    split; [exact Hloop|].
    split; [rewrite Hrows', Hrows, <- app_assoc; reflexivity|].
    split; [cbn [map]; congruence|].
    intros r' [<-|Hr'] Hia; [rewrite Hm in *; auto|auto].
Qed.

Lemma update_is_active_members d mid v :
  map m_id (members (update_is_active d mid v)) = map m_id (members d)
  /\ map start_date (members (update_is_active d mid v))
     = map start_date (members d)
  /\ (forall m, In m (members (update_is_active d mid v)) ->
                m_id m = mid -> is_active m = v).
Proof.
  unfold update_is_active. cbn [members]. repeat split.
  - rewrite map_map. apply map_ext. intros m. now destruct (m_id m =? mid).
  - rewrite map_map. apply map_ext. intros m. now destruct (m_id m =? mid).
  - intros m Hin Hid. apply in_map_iff in Hin as (m0 & <- & _).
    destruct (Z.eqb_spec (m_id m0) mid) as [E|E]; [reflexivity|].
    contradiction.
Qed.

(** C8: a member whose active flag is not set is shown, on the dashboard
    and on the member page, with due = paid = rest = avance = 0 and the
    status "Désactivé", which is neither "À jour" nor "En retard",
    whatever the payments and the enrollment date recorded for the
    member; deactivating a member changes the flag only: the payments,
    the deposits, the member rows with their enrollment dates and the
    paid totals computed from the ledger are all kept. *)
Theorem C8_inactive_member_status d today :
  valid_date today ->
  (forall e, project_end_date (settings d) = Some e -> valid_date e) ->
  (forall x, In x (members d) -> valid_date (start_date x)) ->
  (due inactive_status = 0 /\ paid inactive_status = 0
   /\ rest inactive_status = 0 /\ avance inactive_status = 0
   /\ status inactive_status = "Désactivé"%string
   /\ status inactive_status <> "À jour"%string
   /\ status inactive_status <> "En retard"%string)
  /\ (exists dsh collected deposited available_bank,
         admin_dashboard true d today
         = Ok (Page_dashboard dsh collected deposited available_bank)
         /\ (forall m, In m (members d) ->
                       exists r, In r (rows dsh) /\ row_member r = m)
         /\ (forall r, In r (rows dsh) -> is_active (row_member r) <> 1 ->
                       row_st r = inactive_status
                       /\ row_label r = "Désactivé"%string))
  /\ (forall m,
         find (fun x => m_id x =? m_id m) (members d) = Some m ->
         is_active m <> 1 ->
         exists pays,
           admin_member true d today (m_id m)
           = Ok (Page_member m inactive_status "bad" "Désactivé" pays))
  /\ (forall mid,
         let d' := fst (admin_deactivate_member true d mid) in
         payments d' = payments d
         /\ bank_deposits d' = bank_deposits d
         /\ map m_id (members d') = map m_id (members d)
         /\ map start_date (members d') = map start_date (members d)
         /\ (forall m, In m (members d') -> m_id m = mid -> is_active m <> 1)
         /\ (forall asof, paid_total_as_of d' mid asof = paid_total_as_of d mid asof)).
Proof.
  intros Ht He Hv. split; [|split; [|split]].
  - repeat split; discriminate.
  - pose proof (as_of_date_valid _ _ Ht He) as Ha.
    set (ms := order_by (fun a b => String.leb (full_name a) (full_name b))
                        (members d)).
    assert (Hvs : forall x, In x ms -> valid_date (start_date x)).
    { intros x Hx. apply Hv. now apply order_by_In in Hx. }
    destruct (dashboard_loop_rows d (as_of_date (settings d) today) ms Ha Hvs
                                  (mkdash [] 0 0 0 0 0 0 0))
      as (dsh & new & Hloop & Hrows & Hmap & Hnew).
    cbn [rows app] in Hrows.
    exists dsh. do 3 eexists. split.
    { unfold admin_dashboard. cbn [negb]. fold ms. rewrite Hloop. reflexivity. }
    rewrite Hrows. split.
    + intros m Hm.
      apply (order_by_In (fun a b => String.leb (full_name a) (full_name b)) m)
        in Hm. fold ms in Hm.
      rewrite <- Hmap in Hm. apply in_map_iff in Hm as (r & Hr & Hin). eauto.
    + intros r Hr Hia. rewrite (Hnew r Hr Hia). split; reflexivity.
  - intros m Hfind Hia. unfold admin_member. cbn [negb]. rewrite Hfind.
    destruct (Z.eqb_spec (is_active m) 1); [contradiction|].
    cbn [bind andb]. eauto.
  - intros mid d'. unfold d', admin_deactivate_member. cbn [negb fst].
    destruct (update_is_active_members d mid 0) as (H1 & H2 & H3).
    repeat split; try assumption; try reflexivity.
    intros m Hin Hid. rewrite (H3 m Hin Hid). discriminate.
Qed.

Lemma C8_inactive_member_status_witness :
  valid_date (mkdate 2025 11 30)
  /\ is_active member_2 <> 1
  /\ paid_total_as_of inactive_db 2 (mkdate 2025 11 30) = 45000
  /\ exists pays,
      admin_member true inactive_db (mkdate 2025 11 30) 2
      = Ok (Page_member member_2 inactive_status "bad" "Désactivé" pays).
Proof.
  assert (Hia : is_active member_2 <> 1) by discriminate.
  split; [reflexivity|]. split; [exact Hia|]. split; [reflexivity|].
  assert (He : forall e, project_end_date (settings inactive_db) = Some e ->
                         valid_date e) by (intros e H; discriminate H).
  assert (Hv : forall x, In x (members inactive_db) -> valid_date (start_date x)).
  { intros x [<-|[<-|[]]]; reflexivity. }
  destruct (C8_inactive_member_status inactive_db (mkdate 2025 11 30)
              eq_refl He Hv) as (_ & _ & H & _).
  exact (H member_2 eq_refl Hia).
Defined.

(** ** Payments and the members table *)

(* With foreign keys enforced the insertion would raise, and neither
   handler catches the exception. *)
Lemma insert_payment_enforced d mid pd amt md ref nt now :
  sqlite_int mid = true -> sqlite_int amt = true ->
  member_exists d mid = false ->
  insert_payment true d mid pd amt md ref nt now = Raise IntegrityError.
Proof.
  intros Hm Ha H. unfold insert_payment. now rewrite Hm, Ha, H.
Qed.

(* Whatever the member id, a well-formed payment is inserted. *)
Lemma admin_add_payment_inserts d now mid dt amt md ref nt :
  valid_mode (lower (strip md)) = true -> 0 < amt ->
  sqlite_int mid = true -> sqlite_int amt = true ->
  admin_add_payment true d now mid (Some dt) amt md ref nt
  = Ok (mkdb (settings d) (members d)
             (payments d
              ++ [mkpayment (seq_payments d + 1) mid dt amt (lower (strip md))
                            (strip ref) (strip nt) now])
             (seq_payments d + 1) (bank_deposits d) (seq_bank_deposits d),
        RedirectResponse (Loc_admin_member mid)).
Proof.
  intros Hmode Hpos Hmid Hamt. unfold admin_add_payment. cbn [negb].
  rewrite Hmode. cbn [negb]. destruct (Z.leb_spec amt 0); [lia|].
  unfold insert_payment. rewrite Hmid, Hamt. reflexivity.
Qed.

(** C9 does not hold of the code: a payment for member id 999 on a store
    with no member at all is inserted by both payment handlers, which
    answer with their usual redirection. *)
Theorem C9_payment_for_unknown_member :
  member_exists empty_db 999 = false
  /\ admin_add_payment true empty_db "2025-11-01T10:00:00" 999
                       (Some (mkdate 2025 11 1)) 1000 "cash" EmptyString EmptyString
     = Ok (mkdb default_config []
                [mkpayment 1 999 (mkdate 2025 11 1) 1000 "cash" EmptyString EmptyString
                           "2025-11-01T10:00:00"]
                1 [] 0,
           RedirectResponse (Loc_admin_member 999))
  /\ admin_compta_add true empty_db "2025-11-01T10:00:00"
                      (Some (mkdate 2025 11 1)) 999 1000 "cash" EmptyString EmptyString 0 0
     = Ok (mkdb default_config []
                [mkpayment 1 999 (mkdate 2025 11 1) 1000 "cash" EmptyString EmptyString
                           "2025-11-01T10:00:00"]
                1 [] 0,
           RedirectResponse (Loc_comptabilite 11 2025)).
Proof. repeat split; vm_compute; reflexivity. Qed.

(** ** The monthly collection table *)

(** C7 does not hold of the code: with the scheme starting 2025-10-15
    and a payment dated 2025-09-10, the table as of 2025-10-20 lists
    "2025-10" before "2025-09"; the month before the start is kept, but
    it is placed after the months of the range. *)
Theorem C7_early_payment_month_is_last :
  monthly_collection_stats early_payment_db (mkdate 2025 10 20)
  = Ok [("2025-10"%string, mkstats 2000 2000 0 0);
        ("2025-09"%string, mkstats 5000 0 0 5000)]
  /\ String.ltb "2025-09" "2025-10" = true.
Proof. split; vm_compute; reflexivity. Qed.

(** What the table does contain: the keys are pairwise distinct, and
    they are the months of the range together with the months of the
    payments dated up to the as-of date. *)

Lemma dict_mem_set {V} k k' (v : V) s :
  dict_mem k (dict_set k' v s) = String.eqb k' k || dict_mem k s.
Proof.
  induction s as [|[k0 v0] s IH]; cbn [dict_set dict_mem existsb fst].
  - reflexivity.
  - destruct (String.eqb_spec k0 k') as [->|Hne];
      cbn [dict_mem existsb fst].
    + now destruct (String.eqb k' k).
    + fold (dict_mem k (dict_set k' v s)). rewrite IH.
      fold (dict_mem k s).
      destruct (String.eqb k0 k), (String.eqb k' k); reflexivity.
Qed.

Lemma dict_keys_set_nodup {V} k (v : V) s :
  NoDup (dict_keys s) -> NoDup (dict_keys (dict_set k v s)).
Proof.
  assert (Hin : forall (t : dict V) x,
             In x (dict_keys (dict_set k v t)) -> x = k \/ In x (dict_keys t)).
  { induction t as [|[k0 v0] t IH]; intros x; cbn [dict_set].
    - cbn. intuition auto.
    - destruct (String.eqb_spec k0 k) as [->|Hne]; cbn; [intuition auto|].
      intros [H|H]; [auto|]. apply IH in H. intuition auto. }
  induction s as [|[k0 v0] s IH]; intros Hnd; cbn [dict_set].
  - cbn. constructor; [intros []|constructor].
  - cbn [dict_keys map fst] in Hnd. inversion Hnd as [|? ? Hnotin Hnd']; subst.
    destruct (String.eqb_spec k0 k) as [->|Hne].
    + cbn. now constructor.
    + cbn [dict_keys map fst]. constructor; [|now apply IH].
      intros H. apply Hin in H as [H|H]; [congruence|contradiction].
Qed.

Lemma stats_add_row_mem k s r :
  dict_mem k (stats_add_row s r) = String.eqb (r_ym r) k || dict_mem k s.
Proof.
  unfold stats_add_row.
  destruct (dict_mem (r_ym r) s); cbn [negb]; rewrite !dict_mem_set.
  - reflexivity.
  - now destruct (String.eqb (r_ym r) k).
Qed.

Lemma stats_add_row_nodup s r :
  NoDup (dict_keys s) -> NoDup (dict_keys (stats_add_row s r)).
Proof.
  intros H. unfold stats_add_row.
  destruct (negb (dict_mem (r_ym r) s)); repeat apply dict_keys_set_nodup; auto.
Qed.

Lemma fold_rows_mem k rows :
  forall s,
    dict_mem k (fold_left stats_add_row rows s)
    = existsb (fun r => String.eqb (r_ym r) k) rows || dict_mem k s.
Proof.
  induction rows as [|r rows IH]; intros s; cbn [fold_left existsb].
  - reflexivity.
  - rewrite IH, stats_add_row_mem.
    destruct (String.eqb (r_ym r) k), (existsb _ rows); reflexivity.
Qed.

Lemma fold_months_mem k (ks : list string) :
  forall s : dict month_stats,
    dict_mem k (fold_left (fun s k' => dict_set k' zero_stats s) ks s)
    = existsb (fun k' => String.eqb k' k) ks || dict_mem k s.
Proof.
  induction ks as [|k0 ks IH]; intros s; cbn [fold_left existsb].
  - reflexivity.
  - rewrite IH, dict_mem_set.
    destruct (String.eqb k0 k), (existsb _ ks); reflexivity.
Qed.

Lemma insert_key_In k k' ks : In k (insert_key k' ks) <-> k = k' \/ In k ks.
Proof.
  induction ks as [|k0 ks IH]; cbn [insert_key].
  - cbn. intuition auto.
  - destruct (String.compare k' k0) eqn:E.
    + apply String.compare_eq_iff in E. subst. cbn. intuition auto.
    + cbn. intuition auto.
    + cbn [In]. rewrite IH. intuition auto.
Qed.

Lemma select_monthly_rows_keys d asof k :
  existsb (fun r => String.eqb (r_ym r) k) (select_monthly_rows d asof) = true
  <-> exists p, In p (payments d) /\ date_leb (pay_date p) asof = true
                /\ pay_ym p = k.
Proof.
  unfold select_monthly_rows. rewrite existsb_exists. split.
  - intros (r & Hr & Hk). apply String.eqb_eq in Hk.
    apply in_map_iff in Hr as (k0 & <- & Hk0). cbn [r_ym] in Hk. subst k0.
    assert (Hin : forall l, In k (fold_right insert_key [] l) -> In k l).
    { induction l as [|x l IH]; cbn [fold_right]; [auto|].
      rewrite insert_key_In. cbn. intuition auto. }
    apply Hin, in_map_iff in Hk0 as (p & Hp & Hf).
    apply filter_In in Hf as [Hf1 Hf2]. eauto.
  - intros (p & Hp & Hle & Hk).
    assert (Hin : forall l, In k l -> In k (fold_right insert_key [] l)).
    { induction l as [|x l IH]; cbn [fold_right]; [auto|].
      rewrite insert_key_In. cbn. intuition auto. }
    eexists. split.
    + apply in_map_iff. eexists. split; [reflexivity|].
      apply Hin, in_map_iff. exists p. split; [exact Hk|].
      apply filter_In. auto.
    + cbn [r_ym]. apply String.eqb_refl.
Qed.

Lemma fold_nodup {A} (f : dict month_stats -> A -> dict month_stats) l :
  (forall s a, NoDup (dict_keys s) -> NoDup (dict_keys (f s a))) ->
  forall s, NoDup (dict_keys s) -> NoDup (dict_keys (fold_left f l s)).
Proof.
  intros Hf. induction l as [|a l IH]; intros s Hs; cbn [fold_left]; auto.
Qed.

(** X1: the keys of the monthly table: one entry per key, a key for every
    month from the start month to the month of the as-of date, a key for
    the month of every payment dated up to the as-of date, and no other
    key. *)
Theorem monthly_collection_stats_keys d asof :
  valid_date (project_start_date (settings d)) -> valid_date asof ->
  exists stats,
    monthly_collection_stats d asof = Ok stats
    /\ NoDup (dict_keys stats)
    /\ forall k,
        dict_mem k stats = true
        <-> (exists ym,
                In ym (month_seq
                         (months_fuel
                            (year (project_start_date (settings d)),
                             month (project_start_date (settings d)))
                            (year asof, month asof))
                         (year (project_start_date (settings d)))
                         (month (project_start_date (settings d))))
                /\ k = ym_key (fst ym) (snd ym))
            \/ (exists p, In p (payments d)
                          /\ date_leb (pay_date p) asof = true
                          /\ pay_ym p = k).
Proof.
  intros Hs Ha. unfold monthly_collection_stats, ym_list.
  rewrite months_between_seq by assumption. cbn [bind].
  eexists. split; [reflexivity|]. split.
  - apply fold_nodup; [apply stats_add_row_nodup|].
    apply fold_nodup; [intros; now apply dict_keys_set_nodup|]. constructor.
  - intros k. rewrite fold_rows_mem, fold_months_mem, orb_true_iff.
    cbn [dict_mem existsb]. rewrite orb_false_r, select_monthly_rows_keys.
    rewrite existsb_exists. split.
    + intros [H|(k' & Hk' & E)]; [now right|left].
      apply String.eqb_eq in E. subst k'.
      apply in_map_iff in Hk' as (ym & E & Hin). eauto.
    + intros [(ym & Hin & ->)|H]; [right|now left].
      eexists. split; [|apply String.eqb_refl].
      apply in_map_iff. eauto.
Qed.

Lemma monthly_collection_stats_keys_witness :
  valid_date (project_start_date (settings early_payment_db))
  /\ valid_date (mkdate 2025 10 20)
  /\ exists stats,
      monthly_collection_stats early_payment_db (mkdate 2025 10 20) = Ok stats
      /\ NoDup (dict_keys stats).
Proof.
  split; [reflexivity|]. split; [reflexivity|].
  destruct (monthly_collection_stats_keys early_payment_db (mkdate 2025 10 20)
              eq_refl eq_refl) as (stats & H1 & H2 & _).
  exists stats. split; assumption.
Defined.

(** X2: month_end returns, for every valid date, the last calendar day
    of the month of that date. *)
Theorem month_end_last_day d :
  valid_date d ->
  month_end d
  = Ok (mkdate (year d) (month d) (days_in_month (year d) (month d))).
Proof.
  intros Hd. apply valid_date_bounds in Hd as (Hy & Hm & _).
  exact (month_end_spec (year d) (month d) Hy Hm).
Qed.

Lemma month_end_last_day_witness :
  valid_date (mkdate 2024 2 10)
  /\ month_end (mkdate 2024 2 10) = Ok (mkdate 2024 2 29).
Proof.
  split; [reflexivity|].
  exact (month_end_last_day (mkdate 2024 2 10) eq_refl).
Defined.

(** * Further properties of the accrual calculator *)

Lemma month_seq_length n : forall y m, List.length (month_seq n y m) = n.
Proof.
  induction n as [|n IH]; intros y m; cbn [month_seq List.length];
    [reflexivity|].
  destruct (m =? 12); now rewrite IH.
Qed.

Lemma ym_index_inj a b :
  1 <= snd a <= 12 -> 1 <= snd b <= 12 -> ym_index a = ym_index b -> a = b.
Proof.
  destruct a as [ya ma], b as [yb mb]. unfold ym_index. cbn [fst snd].
  intros Ha Hb E. assert (ya = yb) by lia. assert (ma = mb) by lia. congruence.
Qed.

Lemma month_seq_complete n :
  forall y m ym,
    1 <= m <= 12 -> 1 <= snd ym <= 12 ->
    ym_index (y, m) <= ym_index ym < ym_index (y, m) + Z.of_nat n ->
    In ym (month_seq n y m).
Proof.
  induction n as [|n IH]; intros y m ym Hm Hym Hr; [lia|].
  cbn [month_seq]. destruct (Z.eq_dec (ym_index ym) (ym_index (y, m))) as [E|E].
  - left. symmetry. now apply ym_index_inj.
  - right. unfold ym_index in *. cbn [fst snd] in *.
    destruct (Z.eqb_spec m 12) as [->|Hne];
      apply IH; unfold ym_index; cbn [fst snd]; lia.
Qed.

Lemma month_seq_sorted n :
  forall y m,
    1 <= m <= 12 ->
    StronglySorted (fun a b => ym_ltb a b = true) (month_seq n y m).
Proof.
  induction n as [|n IH]; intros y m Hm; cbn [month_seq]; constructor.
  - destruct (Z.eqb_spec m 12); apply IH; lia.
  - apply Forall_forall. intros ym Hin.
    assert (H : 1 <= snd ym <= 12 /\ ym_index (y, m) < ym_index ym).
    { destruct (Z.eqb_spec m 12) as [->|Hne];
        apply month_seq_in in Hin; unfold ym_index in *; cbn [fst snd] in *;
        lia. }
    rewrite ym_ltb_index by (cbn [snd]; tauto). apply Z.ltb_lt. tauto.
Qed.

(** X3: on valid dates months_between always leaves its loop and returns
    the calendar months from the month of start to the month of end,
    each once, in increasing order; the list is empty when the month of
    start is after the month of end. *)
Theorem months_between_exact start end_ :
  valid_date start -> valid_date end_ ->
  exists l,
    months_between start end_ = Ok l
    /\ Z.of_nat (List.length l)
       = Z.max 0 (ym_index (year end_, month end_)
                  - ym_index (year start, month start) + 1)
    /\ (forall ym,
           In ym l <->
           1 <= snd ym <= 12
           /\ ym_index (year start, month start) <= ym_index ym
              <= ym_index (year end_, month end_))
    /\ StronglySorted (fun a b => ym_ltb a b = true) l.
Proof.
  intros Hs He. rewrite months_between_seq by assumption.
  pose proof (valid_date_bounds _ Hs) as (_ & Bs & _).
  pose proof (valid_date_bounds _ He) as (_ & Be & _).
  eexists. split; [reflexivity|].
  assert (Hn : Z.of_nat (months_fuel (year start, month start)
                                     (year end_, month end_))
               = Z.max 0 (ym_index (year end_, month end_)
                          - ym_index (year start, month start) + 1)).
  { unfold months_fuel, ym_index. cbn [fst snd]. lia. }
  split; [now rewrite month_seq_length|]. split.
  - intros ym. split.
    + intros Hin. apply month_seq_in in Hin; [|assumption]. lia.
    + intros (Hm & Hr). apply month_seq_complete; try assumption. lia.
  - now apply month_seq_sorted.
Qed.

Lemma months_between_exact_witness :
  valid_date (mkdate 2025 11 20) /\ valid_date (mkdate 2026 2 3)
  /\ exists l,
      months_between (mkdate 2025 11 20) (mkdate 2026 2 3) = Ok l
      /\ Z.of_nat (List.length l) = 4.
Proof.
  split; [reflexivity|]. split; [reflexivity|].
  destruct (months_between_exact (mkdate 2025 11 20) (mkdate 2026 2 3)
              eq_refl eq_refl) as (l & H1 & H2 & _).
  exists l. split; [exact H1|exact H2].
Defined.

Lemma prorated_due_le_cap cfg y m asof member_start :
  config_nonneg cfg ->
  prorated_due cfg y m asof member_start <= monthly_cap cfg.
Proof.
  intros (_ & Hc & _). unfold prorated_due.
  destruct (window_days y m asof member_start =? 0); lia.
Qed.

Lemma window_days_before_month y m asof member_start :
  toordinal asof < toordinal (mkdate y m 1) ->
  window_days y m asof member_start = 0.
Proof. unfold window_days. lia. Qed.

(** X4: with non-negative settings and valid dates, due_for_month
    returns for every calendar month; the amount is never negative,
    never above monthly_cap outside October 2025, either 0 or the fixed
    fee in October 2025, and 0 for a month that starts after the as-of
    date. *)
Theorem due_for_month_bounds cfg y m asof member_start :
  config_nonneg cfg ->
  1 <= y <= 9999 -> 1 <= m <= 12 ->
  valid_date asof -> valid_date member_start ->
  exists v,
    due_for_month cfg y m asof member_start = Ok v
    /\ 0 <= v
    /\ (special_month y m = false -> v <= monthly_cap cfg)
    /\ (special_month y m = true -> v = 0 \/ v = oct_2025_fixed cfg)
    /\ (date_ltb asof (mkdate y m 1) = true -> v = 0).
Proof.
  intros Hcfg Hy Hm Ha Hs.
  destruct (ym_ltb (y, m) (year member_start, month member_start)) eqn:Hym.
  - exists 0. unfold due_for_month. rewrite Hym.
    pose proof Hcfg as (_ & Hc & _). repeat split; auto; lia.
  - rewrite due_for_month_from_enrollment by assumption.
    eexists. split; [reflexivity|].
    split; [now apply month_due_nonneg|].
    unfold month_due. cbn [fst snd].
    destruct (special_month y m) eqn:Hsp.
    + split; [discriminate|]. split.
      * intros _.
        destruct (negb (ym_eqb (year member_start, month member_start) (2025, 10)));
          [now left|].
        destruct (date_ltb asof (mkdate 2025 10 31)); [now left|now right].
      * intros Hlt. apply special_month_eq in Hsp as [-> ->].
        destruct (negb (ym_eqb (year member_start, month member_start) (2025, 10)));
          [reflexivity|].
        rewrite (date_ltb_trans asof (mkdate 2025 10 1) (mkdate 2025 10 31) Hlt)
          by reflexivity.
        reflexivity.
    + split; [intros _; now apply prorated_due_le_cap|].
      split; [discriminate|].
      intros Hlt. unfold prorated_due.
      rewrite window_days_before_month; [reflexivity|].
      apply toordinal_lt; auto. now apply first_day_valid.
Qed.

Lemma due_for_month_bounds_witness :
  config_nonneg default_config
  /\ exists v,
      due_for_month default_config 2026 1 (mkdate 2026 1 31) enrolled_oct15 = Ok v
      /\ v <= monthly_cap default_config.
Proof.
  assert (Hc : config_nonneg default_config) by (repeat split; discriminate).
  split; [exact Hc|].
  destruct (due_for_month_bounds default_config 2026 1 (mkdate 2026 1 31)
              enrolled_oct15 Hc ltac:(lia) ltac:(lia) eq_refl eq_refl)
    as (v & H1 & _ & H2 & _).
  exists v. split; [exact H1|exact (H2 eq_refl)].
Defined.

(** X5: a month other than October 2025 that lies wholly between the
    enrollment date and the as-of date is charged min(monthly_cap,
    daily_amount * number of days of the month). *)
Theorem due_for_month_full_month cfg y m asof member_start :
  1 <= y <= 9999 -> 1 <= m <= 12 ->
  valid_date asof -> valid_date member_start ->
  special_month y m = false ->
  date_ltb (mkdate y m 1) member_start = false ->
  date_ltb asof (mkdate y m (days_in_month y m)) = false ->
  due_for_month cfg y m asof member_start
  = Ok (Z.min (monthly_cap cfg) (daily_amount cfg * days_in_month y m)).
Proof.
  intros Hy Hm Ha Hs Hsp Hfirst Hlast.
  pose proof (first_day_valid y m Hy Hm) as Vf.
  pose proof (last_day_valid y m Hy Hm) as Vl.
  pose proof (days_in_month_pos y m Hm) as Hd.
  assert (Hym : ym_ltb (y, m) (year member_start, month member_start) = false).
  { destruct (ym_ltb (y, m) (year member_start, month member_start)) eqn:E;
      [|reflexivity].
    assert (Hlt : date_ltb (mkdate y m 1) member_start = true).
    { apply date_ltb_spec. cbn [year month day].
      unfold ym_ltb in E. cbn [fst snd] in E.
      apply orb_true_iff in E as [E|E]; [apply Z.ltb_lt in E; lia|].
      apply andb_true_iff in E as [E1 E2].
      apply Z.eqb_eq in E1. apply Z.ltb_lt in E2. lia. }
    congruence. }
  rewrite due_for_month_general by assumption.
  unfold prorated_due, window_days.
  rewrite date_ltb_toordinal in Hfirst, Hlast by assumption.
  apply Z.ltb_ge in Hfirst, Hlast.
  assert (Hspan : toordinal (mkdate y m (days_in_month y m))
                  - toordinal (mkdate y m 1) = days_in_month y m - 1).
  { unfold toordinal, ymd2ord. cbn [year month day]. lia. }
  replace (Z.max 0
             (Z.min (toordinal (mkdate y m (days_in_month y m))) (toordinal asof)
              - Z.max (toordinal (mkdate y m 1)) (toordinal member_start) + 1))
    with (days_in_month y m) by lia.
  cbv zeta. destruct (Z.eqb_spec (days_in_month y m) 0); [lia|reflexivity].
Qed.

Lemma due_for_month_full_month_witness :
  special_month 2026 2 = false
  /\ due_for_month default_config 2026 2 (mkdate 2026 3 5) enrolled_oct15
     = Ok 56000.
Proof.
  split; [reflexivity|].
  exact (due_for_month_full_month default_config 2026 2 (mkdate 2026 3 5)
           enrolled_oct15 ltac:(lia) ltac:(lia) eq_refl eq_refl eq_refl
           eq_refl eq_refl).
Defined.

Lemma sum_list_le_bound (f : Z * Z -> Z) (b : Z) l :
  (forall ym, f ym <= b) ->
  sum_list (map f l) <= Z.of_nat (List.length l) * b.
Proof.
  intros Hf. induction l as [|a l IH]; cbn [map sum_list fold_right List.length].
  - lia.
  - specialize (Hf a). unfold sum_list in IH. lia.
Qed.

(** X6: with non-negative settings the total due is between 0 and the
    number of months from the enrollment month to the as-of month times
    the larger of monthly_cap and the October 2025 fixed fee. *)
Theorem due_total_as_of_bounds cfg asof member_start :
  config_nonneg cfg -> valid_date asof -> valid_date member_start ->
  exists v,
    due_total_as_of cfg asof member_start = Ok v
    /\ 0 <= v
       <= Z.max 0 (ym_index (year asof, month asof)
                   - ym_index (year member_start, month member_start) + 1)
          * Z.max (monthly_cap cfg) (oct_2025_fixed cfg).
Proof.
  intros Hcfg Ha Hs. destruct (date_ltb asof member_start) eqn:E.
  - exists 0. unfold due_total_as_of. rewrite E. split; [reflexivity|].
    destruct Hcfg as (_ & Hc & _). split; [lia|].
    apply Z.mul_nonneg_nonneg; lia.
  - rewrite due_total_as_of_sum by assumption. eexists. split; [reflexivity|].
    split; [apply sum_list_nonneg; intros; now apply month_due_nonneg|].
    set (b := Z.max (monthly_cap cfg) (oct_2025_fixed cfg)).
    etransitivity; [apply (sum_list_le_bound _ b)|].
    + intros ym. unfold month_due.
      pose proof (prorated_due_le_cap cfg (fst ym) (snd ym) asof member_start Hcfg).
      destruct Hcfg as (_ & Hc & Hf).
      repeat match goal with
             | |- context [if ?c then _ else _] => destruct c
             end; lia.
    + rewrite month_seq_length. unfold months_fuel, ym_index. cbn [fst snd].
      destruct Hcfg as (_ & Hc & Hf).
      apply Z.mul_le_mono_nonneg_r; lia.
Qed.

Lemma due_total_as_of_bounds_witness :
  config_nonneg default_config
  /\ exists v,
      due_total_as_of default_config (mkdate 2026 3 5) enrolled_oct15 = Ok v
      /\ 0 <= v <= 6 * 60000.
Proof.
  assert (Hc : config_nonneg default_config) by (repeat split; discriminate).
  split; [exact Hc|].
  destruct (due_total_as_of_bounds default_config (mkdate 2026 3 5)
              enrolled_oct15 Hc eq_refl eq_refl) as (v & H1 & H2).
  exists v. split; [exact H1|exact H2].
Defined.

(** * Further properties of the ledger *)


Lemma sum_deposits_app l1 l2 :
  sum_deposits (l1 ++ l2) = sum_deposits l1 + sum_deposits l2.
Proof.
  unfold sum_deposits. induction l1 as [|p l1 IH]; cbn [app fold_right]; lia.
Qed.










Lemma filter_all {A} (f : A -> bool) l :
  (forall x, In x l -> f x = true) -> filter f l = l.
Proof.
  induction l as [|a l IH]; intros H; cbn [filter]; [reflexivity|].
  rewrite (H a (or_introl eq_refl)). f_equal. apply IH. intros; apply H; now right.
Qed.

(** X8: when every stored payment id is at most the AUTOINCREMENT
    counter and the next id is still a 64-bit value, a payment accepted
    by admin_add_payment (valid mode, positive amount, member id and
    amount of 64 bits) gets the next id, above every id in use, and
    deleting that id with admin_delete_payment gives back the payments
    there were; the ids stay at most the counter after both steps. *)
Theorem add_then_delete_payment d now mid dt amt md ref nt mois annee :
  valid_mode (lower (strip md)) = true -> 0 < amt ->
  sqlite_int mid = true -> sqlite_int amt = true ->
  sqlite_int (seq_payments d + 1) = true ->
  (forall p, In p (payments d) -> p_id p <= seq_payments d) ->
  exists d',
    admin_add_payment true d now mid (Some dt) amt md ref nt
    = Ok (d', RedirectResponse (Loc_admin_member mid))
    /\ (exists p, payments d' = payments d ++ [p]
                  /\ p_id p = seq_payments d + 1)
    /\ (forall p, In p (payments d') -> p_id p <= seq_payments d')
    /\ payments (fst (admin_delete_payment true d' (seq_payments d + 1)
                                           mois annee))
       = payments d
    /\ (forall p,
           In p (payments (fst (admin_delete_payment true d'
                                  (seq_payments d + 1) mois annee))) ->
           p_id p <= seq_payments
                       (fst (admin_delete_payment true d'
                               (seq_payments d + 1) mois annee))).
Proof.
  intros Hm Hp Hmid Hamt _ Hids.
  eexists. split; [now apply admin_add_payment_inserts|].
  assert (Hdel : forall mo an,
             payments (fst (admin_delete_payment true
                              (mkdb (settings d) (members d)
                                    (payments d
                                     ++ [mkpayment (seq_payments d + 1) mid dt amt
                                           (lower (strip md)) (strip ref)
                                           (strip nt) now])
                                    (seq_payments d + 1) (bank_deposits d)
                                    (seq_bank_deposits d))
                              (seq_payments d + 1) mo an))
             = payments d).
  { intros mo an. unfold admin_delete_payment. cbn [negb].
    destruct (negb (mo =? 0) && negb (an =? 0));
      cbn [fst delete_payment payments];
      rewrite filter_app; cbn [filter p_id]; rewrite Z.eqb_refl; cbn [negb];
      rewrite app_nil_r; apply filter_all; intros p Hin;
      specialize (Hids p Hin); apply negb_true_iff, Z.eqb_neq; lia. }
  split; [eexists; split; [reflexivity|reflexivity]|].
  split.
  { cbn [payments seq_payments]. intros p Hin. apply in_app_iff in Hin as [Hin|Hin].
    - specialize (Hids p Hin). lia.
    - destruct Hin as [<-|[]]. cbn [p_id]. lia. }
  split; [apply Hdel|].
  intros p. rewrite Hdel. intros Hin. specialize (Hids p Hin).
  unfold admin_delete_payment. cbn [negb].
  destruct (negb (mois =? 0) && negb (annee =? 0));
    cbn [fst delete_payment seq_payments]; lia.
Qed.

Lemma add_then_delete_payment_witness :
  valid_mode (lower (strip "cash")) = true /\ 0 < 700
  /\ sqlite_int 700 = true
  /\ exists d',
      admin_add_payment true ledger_db "2025-11-02T10:00:00" 1
                        (Some (mkdate 2025 11 2)) 700 "cash"
                        EmptyString EmptyString
      = Ok (d', RedirectResponse (Loc_admin_member 1))
      /\ payments (fst (admin_delete_payment true d' 2 0 0))
         = payments ledger_db.
Proof.
  split; [reflexivity|]. split; [reflexivity|]. split; [reflexivity|].
  assert (Hids : forall p, In p (payments ledger_db) ->
                           p_id p <= seq_payments ledger_db).
  { intros p [<-|[]]. cbn. discriminate. }
  destruct (add_then_delete_payment ledger_db "2025-11-02T10:00:00" 1
              (mkdate 2025 11 2) 700 "cash" EmptyString EmptyString 0 0
              eq_refl eq_refl eq_refl eq_refl eq_refl Hids)
    as (d' & H & _ & _ & Hd & _).
  exists d'. split; [exact H|exact Hd].
Defined.

(** X9: admin_delete_payment removes the payments carrying the given id
    and no other: the collected total of every as-of date drops by the
    amounts of the removed payments dated up to it, an id that no
    payment carries leaves the payments as they are, and members,
    settings and deposits are never touched. *)
Theorem delete_payment_effect d pid mois annee :
  let d' := fst (admin_delete_payment true d pid mois annee) in
  (forall p, In p (payments d') <-> In p (payments d) /\ p_id p <> pid)
  /\ (forall asof,
         total_collected_as_of d asof
         = total_collected_as_of d' asof
           + sum_amounts (filter (fun p => (p_id p =? pid)
                                           && date_leb (pay_date p) asof)
                                 (payments d)))
  /\ ((forall p, In p (payments d) -> p_id p <> pid) ->
      payments d' = payments d)
  /\ members d' = members d /\ settings d' = settings d
  /\ bank_deposits d' = bank_deposits d.
Proof.
  intros d'.
  assert (Hd : d' = delete_payment d pid).
  { unfold d', admin_delete_payment. cbn [negb].
    now destruct (negb (mois =? 0) && negb (annee =? 0)). }
  rewrite Hd. cbn [delete_payment payments members settings bank_deposits].
  split; [|split; [|split]].
  - intros p. rewrite filter_In, negb_true_iff, Z.eqb_neq. tauto.
  - intros asof. unfold total_collected_as_of, sum_amounts, delete_payment.
    cbn [payments].
    induction (payments d) as [|p l IH]; cbn [filter fold_right];
      [reflexivity|].
    destruct (p_id p =? pid) eqn:E1, (date_leb (pay_date p) asof) eqn:E2;
      cbn [negb andb filter fold_right]; rewrite ?E2; cbn [fold_right]; lia.
  - intros Hno. apply filter_all. intros p Hin.
    apply negb_true_iff, Z.eqb_neq. now apply Hno.
  - auto.
Qed.

(** X10: admin_add_bank_deposit keeps the deposited total within the
    collected total at the as-of date of the request: if deposited <=
    collected before the request, so it is after it, whether the request
    is accepted or refused; every deposit it adds has a positive
    amount. *)
Theorem deposit_guard_keeps_deposited_within_collected
        admin d today now dep amt ref nt mois annee :
  let asof := as_of_date (settings d) today in
  total_deposited_as_of d asof <= total_collected_as_of d asof ->
  let d' := fst (admin_add_bank_deposit admin d today now dep amt ref nt
                                        mois annee) in
  settings d' = settings d /\ payments d' = payments d
  /\ total_deposited_as_of d' asof <= total_collected_as_of d' asof
  /\ (forall b, In b (bank_deposits d') ->
                In b (bank_deposits d) \/ 0 < b_amount b).
Proof.
  intros asof Hinv d'. unfold d', admin_add_bank_deposit.
  destruct admin; cbn [negb fst]; [|auto].
  destruct dep as [dt|]; cbn [fst]; [|auto].
  destruct (Z.leb_spec amt 0); cbn [fst]; [auto|].
  fold asof.
  destruct (Z.ltb_spec (Z.max 0 (total_collected_as_of d asof
                                 - total_deposited_as_of d asof)) amt);
    cbn [fst]; [auto|].
  cbn [insert_bank_deposit settings payments bank_deposits].
  split; [reflexivity|]. split; [reflexivity|]. split.
  - unfold total_deposited_as_of, total_collected_as_of in *.
    cbn [insert_bank_deposit bank_deposits payments].
    rewrite filter_app, sum_deposits_app.
    cbn [filter dep_date]. destruct (date_leb dt asof); cbn; lia.
  - intros b Hin. apply in_app_iff in Hin as [Hin|[<-|[]]]; [now left|right].
    cbn [b_amount]. lia.
Qed.

Lemma deposit_guard_keeps_deposited_within_collected_witness :
  total_deposited_as_of ledger_db (mkdate 2025 11 1)
  <= total_collected_as_of ledger_db (mkdate 2025 11 1)
  /\ total_deposited_as_of
       (fst (admin_add_bank_deposit true ledger_db (mkdate 2025 11 1)
               "2025-11-01T10:00:00" (Some (mkdate 2025 11 1)) 60000
               EmptyString EmptyString 0 0))
       (mkdate 2025 11 1)
     <= total_collected_as_of
          (fst (admin_add_bank_deposit true ledger_db (mkdate 2025 11 1)
                  "2025-11-01T10:00:00" (Some (mkdate 2025 11 1)) 60000
                  EmptyString EmptyString 0 0))
          (mkdate 2025 11 1).
Proof.
  assert (H : total_deposited_as_of ledger_db (mkdate 2025 11 1)
              <= total_collected_as_of ledger_db (mkdate 2025 11 1))
    by (vm_compute; discriminate).
  split; [exact H|].
  exact (proj1 (proj2 (proj2
           (deposit_guard_keeps_deposited_within_collected
              true ledger_db (mkdate 2025 11 1) "2025-11-01T10:00:00"
              (Some (mkdate 2025 11 1)) 60000 EmptyString EmptyString 0 0 H)))).
Defined.

(** X11: the guard of admin_add_bank_deposit only counts deposits dated
    up to the as-of date.  A deposit dated after the as-of date is
    accepted like any other, but it does not lower the available
    balance of that day: the same request is accepted a second time,
    and the deposited total of the as-of date is still what it was. *)
Theorem deposit_dated_after_asof_is_not_counted
        d today now dt amt ref nt mois annee :
  let asof := as_of_date (settings d) today in
  0 < amt ->
  amt <= Z.max 0 (total_collected_as_of d asof - total_deposited_as_of d asof) ->
  date_ltb asof dt = true ->
  let r1 := admin_add_bank_deposit true d today now (Some dt) amt ref nt
                                   mois annee in
  let r2 := admin_add_bank_deposit true (fst r1) today now (Some dt) amt ref nt
                                   mois annee in
  (exists mo an, snd r1 = RedirectResponse (Loc_comptabilite mo an))
  /\ (exists mo an, snd r2 = RedirectResponse (Loc_comptabilite mo an))
  /\ List.length (bank_deposits (fst r2))
     = S (S (List.length (bank_deposits d)))
  /\ total_deposited_as_of (fst r2) asof = total_deposited_as_of d asof
  /\ sum_deposits (bank_deposits (fst r2))
     = sum_deposits (bank_deposits d) + 2 * amt.
Proof.
  intros asof Hpos Hle Hlt r1 r2.
  assert (Hleb : date_leb dt asof = false)
    by (unfold date_leb; now rewrite Hlt).
  assert (Hins : forall d0,
             settings d0 = settings d ->
             total_collected_as_of d0 asof = total_collected_as_of d asof ->
             total_deposited_as_of d0 asof = total_deposited_as_of d asof ->
             admin_add_bank_deposit true d0 today now (Some dt) amt ref nt
                                    mois annee
             = (insert_bank_deposit d0 dt amt (strip ref) (strip nt) now,
                RedirectResponse
                  (Loc_comptabilite (if mois =? 0 then month dt else mois)
                                    (if annee =? 0 then year dt else annee)))).
  { intros d0 Hs Hc Hd. unfold admin_add_bank_deposit. cbn [negb].
    destruct (Z.leb_spec amt 0); [lia|]. rewrite Hs. fold asof.
    rewrite Hc, Hd.
    destruct (Z.ltb_spec (Z.max 0 (total_collected_as_of d asof
                                   - total_deposited_as_of d asof)) amt);
      [lia|reflexivity]. }
  assert (Hdep : forall d0,
             total_deposited_as_of
               (insert_bank_deposit d0 dt amt (strip ref) (strip nt) now) asof
             = total_deposited_as_of d0 asof).
  { intros d0. unfold total_deposited_as_of.
    cbn [insert_bank_deposit bank_deposits].
    rewrite filter_app, sum_deposits_app. cbn [filter dep_date].
    rewrite Hleb. cbn. lia. }
  assert (E1 : r1 = (insert_bank_deposit d dt amt (strip ref) (strip nt) now,
                     RedirectResponse
                       (Loc_comptabilite (if mois =? 0 then month dt else mois)
                                         (if annee =? 0 then year dt else annee))))
    by (apply Hins; reflexivity).
  assert (E2 : r2 = (insert_bank_deposit (fst r1) dt amt (strip ref) (strip nt)
                                         now,
                     RedirectResponse
                       (Loc_comptabilite (if mois =? 0 then month dt else mois)
                                         (if annee =? 0 then year dt else annee)))).
  { apply Hins; rewrite E1; cbn [fst]; [reflexivity|reflexivity|apply Hdep]. }
  rewrite E2, E1. cbn [fst snd].
  split; [eauto|]. split; [eauto|]. split.
  - cbn [insert_bank_deposit bank_deposits]. rewrite !length_app. cbn. lia.
  - split; [now rewrite !Hdep|].
    cbn [insert_bank_deposit bank_deposits]. rewrite !sum_deposits_app.
    unfold sum_deposits. cbn [fold_right b_amount]. lia.
Qed.

Lemma deposit_dated_after_asof_is_not_counted_witness :
  0 < 60000
  /\ date_ltb (mkdate 2025 11 1) (mkdate 2025 12 25) = true
  /\ total_deposited_as_of
       (fst (admin_add_bank_deposit true
               (fst (admin_add_bank_deposit true ledger_db (mkdate 2025 11 1)
                       "2025-11-01T10:00:00" (Some (mkdate 2025 12 25)) 60000
                       EmptyString EmptyString 0 0))
               (mkdate 2025 11 1) "2025-11-01T10:00:00"
               (Some (mkdate 2025 12 25)) 60000 EmptyString EmptyString 0 0))
       (mkdate 2025 11 1)
     = total_deposited_as_of ledger_db (mkdate 2025 11 1).
Proof.
  split; [reflexivity|]. split; [reflexivity|].
  assert (Hle : 60000 <= Z.max 0 (total_collected_as_of ledger_db (mkdate 2025 11 1)
                                  - total_deposited_as_of ledger_db
                                      (mkdate 2025 11 1)))
    by (vm_compute; discriminate).
  pose proof (deposit_dated_after_asof_is_not_counted ledger_db
                (mkdate 2025 11 1) "2025-11-01T10:00:00" (mkdate 2025 12 25)
                60000 EmptyString EmptyString 0 0 eq_refl Hle eq_refl) as H.
  cbv zeta in H. destruct H as (_ & _ & _ & H & _). exact H.
Defined.

(** * What the handlers change and what they leave alone *)

(** X12: a request that is refused changes nothing.  Each handler that
    writes to the store returns the store it was given unless it answers
    with a redirection, and without the admin cookie it answers with the
    refusal page.  The two payment handlers raise in one case only, the
    OverflowError of an admin request whose member id or amount is
    outside 64 bits, and then nothing is written. *)
Theorem refused_requests_change_nothing :
  (forall admin d now mid pd amt md ref nt,
      match admin_add_payment admin d now mid pd amt md ref nt with
      | Ok (d', r) =>
          ((forall loc, r <> RedirectResponse loc) -> d' = d)
          /\ (admin = false -> r = Acces_refuse)
      | Raise e =>
          e = OverflowError /\ admin = true
          /\ sqlite_int mid && sqlite_int amt = false
      end)
  /\ (forall admin d now pd mid amt md ref nt mois annee,
         match admin_compta_add admin d now pd mid amt md ref nt mois annee
         with
         | Ok (d', r) =>
             ((forall loc, r <> RedirectResponse loc) -> d' = d)
             /\ (admin = false -> r = Acces_refuse)
         | Raise e =>
             e = OverflowError /\ admin = true
             /\ sqlite_int mid && sqlite_int amt = false
         end)
  /\ (forall admin d today now dep amt ref nt mois annee,
         let r := admin_add_bank_deposit admin d today now dep amt ref nt
                                         mois annee in
         ((forall loc, snd r <> RedirectResponse loc) -> fst r = d)
         /\ (admin = false -> snd r = Acces_refuse))
  /\ (forall hash admin d now name ph pin sd,
         let r := admin_add_member hash admin d now name ph pin sd in
         ((forall url, snd r <> Redirect url) -> fst r = d)
         /\ (admin = false -> snd r = Denied))
  /\ (forall admin d mid name ph,
         let r := admin_update_member admin d mid name ph in
         ((forall url, snd r <> Redirect url) -> fst r = d)
         /\ (admin = false -> snd r = Denied))
  /\ (forall hash admin d mid pin,
         let r := admin_change_pin hash admin d mid pin in
         ((forall url, snd r <> Redirect url) -> fst r = d)
         /\ (admin = false -> snd r = Denied))
  /\ (forall admin d sd da cap oct,
         let r := admin_config_save admin d sd da cap oct in
         ((forall url, snd r <> Redirect url) -> fst r = d)
         /\ (admin = false -> snd r = Denied))
  /\ (forall admin d e,
         let r := admin_project_stop admin d e in
         ((forall url, snd r <> Redirect url) -> fst r = d)
         /\ (admin = false -> snd r = Denied))
  /\ (forall d mid pid bid mois annee,
         admin_project_resume false d = (d, Denied)
         /\ admin_activate_member false d mid = (d, Acces_refuse)
         /\ admin_deactivate_member false d mid = (d, Acces_refuse)
         /\ admin_delete_payment false d pid mois annee = (d, Denied)
         /\ admin_delete_bank_deposit false d bid mois annee = (d, Denied)).
Proof.
  repeat match goal with |- _ /\ _ => split end.
  - intros admin d now mid pd amt md ref nt.
    unfold admin_add_payment, insert_payment, PRAGMA_foreign_keys.
    destruct admin, (valid_mode (lower (strip md))), pd, (amt <=? 0),
      (sqlite_int mid && sqlite_int amt) eqn:E;
      cbn [negb andb bind];
      try (split; [intros; reflexivity|intros; try reflexivity; discriminate]);
      try (split; [reflexivity|split; reflexivity]).
    split; [|discriminate]. intros Hno. exfalso. eapply Hno. reflexivity.
  - intros admin d now pd mid amt md ref nt mois annee.
    unfold admin_compta_add, insert_payment, PRAGMA_foreign_keys.
    destruct admin, (valid_mode (lower (strip md))), pd, (amt <=? 0),
      (sqlite_int mid && sqlite_int amt) eqn:E;
      cbn [negb andb bind];
      try (split; [intros; reflexivity|intros; try reflexivity; discriminate]);
      try (split; [reflexivity|split; reflexivity]).
    split; [|discriminate]. intros Hno. exfalso. eapply Hno. reflexivity.
  - intros admin d today now dep amt ref nt mois annee r. unfold r.
    split; [|intros ->; reflexivity].
    unfold admin_add_bank_deposit.
    destruct admin, dep, (amt <=? 0); cbn [negb fst snd]; try reflexivity.
    destruct (_ <? amt); cbn [fst snd]; [reflexivity|].
    intros Hno. exfalso. eapply Hno. reflexivity.
  - intros hash admin d now name ph pin sd r. unfold r.
    split; [|intros ->; reflexivity].
    unfold admin_add_member, insert_member.
    destruct admin, (is_valid_sn_phone (strip ph)), (is_valid_pin (strip pin)),
      sd, (phone_taken d (strip ph)); cbn [negb fst snd]; try reflexivity.
    intros Hno. exfalso. eapply Hno. reflexivity.
  - intros admin d mid name ph r. unfold r.
    split; [|intros ->; reflexivity].
    unfold admin_update_member.
    destruct admin, (String.eqb (strip name) EmptyString),
      (is_valid_sn_phone (strip ph)), (member_exists d mid),
      (phone_of_other d (strip ph) mid); cbn [negb fst snd]; try reflexivity.
    intros Hno. exfalso. eapply Hno. reflexivity.
  - intros hash admin d mid pin r. unfold r.
    split; [|intros ->; reflexivity].
    unfold admin_change_pin.
    destruct admin, (is_valid_pin (strip pin)); cbn [negb fst snd];
      try reflexivity.
    intros Hno. exfalso. eapply Hno. reflexivity.
  - intros admin d sd da cap oct r. unfold r.
    split; [|intros ->; reflexivity].
    unfold admin_config_save.
    destruct admin, sd, (da <? 0), (cap <? 0), (oct <? 0);
      cbn [negb orb fst snd]; try reflexivity;
      intros Hno; exfalso; eapply Hno; reflexivity.
  - intros admin d e r. unfold r.
    split; [|intros ->; reflexivity].
    unfold admin_project_stop.
    destruct admin, e; cbn [negb fst snd]; try reflexivity.
    intros Hno. exfalso. eapply Hno. reflexivity.
  - intros d mid pid bid mois annee. repeat split.
Qed.

(** X13: every payment that enters the store through admin_add_payment
    or admin_compta_add has a positive amount and the mode "wave", "om"
    or "cash" (the mode text is stripped and lower-cased first); a store
    whose payments are all of that kind stays so under the payment
    handlers and the deletion, and the other handlers that write do not
    touch the payments at all. *)
Theorem payments_stay_well_formed d :
  Forall payment_wf (payments d) ->
  (forall admin now mid pd amt md ref nt d' r,
      admin_add_payment admin d now mid pd amt md ref nt = Ok (d', r) ->
      Forall payment_wf (payments d'))
  /\ (forall admin now pd mid amt md ref nt mois annee d' r,
         admin_compta_add admin d now pd mid amt md ref nt mois annee
         = Ok (d', r) ->
         Forall payment_wf (payments d'))
  /\ (forall admin pid mois annee,
         Forall payment_wf
                (payments (fst (admin_delete_payment admin d pid mois annee))))
  /\ (forall hash admin today now dep amt ref nt mois annee name ph pin sd mid
             bid da cap oct e,
         payments (fst (admin_add_bank_deposit admin d today now dep amt ref nt
                                               mois annee)) = payments d
         /\ payments (fst (admin_delete_bank_deposit admin d bid mois annee))
            = payments d
         /\ payments (fst (admin_add_member hash admin d now name ph pin sd))
            = payments d
         /\ payments (fst (admin_update_member admin d mid name ph)) = payments d
         /\ payments (fst (admin_change_pin hash admin d mid pin)) = payments d
         /\ payments (fst (admin_activate_member admin d mid)) = payments d
         /\ payments (fst (admin_deactivate_member admin d mid)) = payments d
         /\ payments (fst (admin_config_save admin d sd da cap oct)) = payments d
         /\ payments (fst (admin_project_stop admin d e)) = payments d
         /\ payments (fst (admin_project_resume admin d)) = payments d).
Proof.
  intros Hwf.
  assert (Hadd : forall mid dt amt md ref nt now,
             valid_mode (lower (strip md)) = true -> (amt <=? 0) = false ->
             Forall payment_wf
                    (payments d
                     ++ [mkpayment (seq_payments d + 1) mid dt amt
                                   (lower (strip md)) (strip ref) (strip nt)
                                   now])).
  { intros. apply Forall_app. split; [assumption|].
    constructor; [|constructor]. split; cbn [amount mode]; [|assumption].
    now apply Z.leb_gt. }
  repeat match goal with |- _ /\ _ => split end.
  - intros admin now mid pd amt md ref nt d' r.
    unfold admin_add_payment, insert_payment, PRAGMA_foreign_keys.
    destruct admin, (valid_mode (lower (strip md))) eqn:Em, pd,
      (amt <=? 0) eqn:Ea, (sqlite_int mid && sqlite_int amt);
      cbn [negb andb bind]; intros E; try discriminate E;
      injection E as <- <-; cbn [payments]; auto.
  - intros admin now pd mid amt md ref nt mois annee d' r.
    unfold admin_compta_add, insert_payment, PRAGMA_foreign_keys.
    destruct admin, (valid_mode (lower (strip md))) eqn:Em, pd,
      (amt <=? 0) eqn:Ea, (sqlite_int mid && sqlite_int amt);
      cbn [negb andb bind]; intros E; try discriminate E;
      injection E as <- <-; cbn [payments]; auto.
  - intros admin pid mois annee. unfold admin_delete_payment.
    destruct admin; cbn [negb fst]; [|assumption].
    destruct (negb (mois =? 0) && negb (annee =? 0));
      cbn [fst delete_payment payments];
      apply Forall_forall; intros p Hin; apply filter_In in Hin as [Hin _];
      now apply (proj1 (Forall_forall _ _) Hwf).
  - intros hash admin today now dep amt ref nt mois annee name ph pin sd mid
           bid da cap oct e.
    repeat split.
    + unfold admin_add_bank_deposit.
      destruct admin, dep, (amt <=? 0); cbn [negb fst]; try reflexivity.
      now destruct (_ <? amt).
    + unfold admin_delete_bank_deposit.
      destruct admin; cbn [negb fst]; [|reflexivity].
      now destruct (negb (mois =? 0) && negb (annee =? 0)).
    + unfold admin_add_member, insert_member.
      now destruct admin, (is_valid_sn_phone (strip ph)),
        (is_valid_pin (strip pin)), sd, (phone_taken d (strip ph)).
    + unfold admin_update_member.
      now destruct admin, (String.eqb (strip name) EmptyString),
        (is_valid_sn_phone (strip ph)), (member_exists d mid),
        (phone_of_other d (strip ph) mid).
    + unfold admin_change_pin.
      now destruct admin, (is_valid_pin (strip pin)).
    + unfold admin_activate_member. now destruct admin.
    + unfold admin_deactivate_member. now destruct admin.
    + unfold admin_config_save.
      now destruct admin, sd, (da <? 0), (cap <? 0), (oct <? 0).
    + unfold admin_project_stop. now destruct admin, e.
    + unfold admin_project_resume. now destruct admin.
Qed.

Lemma payments_stay_well_formed_witness :
  Forall payment_wf (payments ledger_db)
  /\ Forall payment_wf
       (payments (fst (admin_delete_payment true ledger_db 7 0 0))).
Proof.
  assert (H : Forall payment_wf (payments ledger_db)).
  { constructor; [|constructor]. split; reflexivity. }
  split; [exact H|].
  exact (proj1 (proj2 (proj2 (payments_stay_well_formed ledger_db H)))
               true 7 0 0).
Defined.

(** * The values of the monthly collection table *)

Lemma dict_set_In {V} k (v : V) k' v' s :
  NoDup (dict_keys s) ->
  In (k, v) (dict_set k' v' s) ->
  (k = k' /\ v = v') \/ (k <> k' /\ In (k, v) s).
Proof.
  induction s as [|[k0 v0] s IH]; intros Hnd Hin; cbn [dict_set] in Hin.
  - destruct Hin as [[= <- <-]|[]]. now left.
  - cbn [dict_keys map fst] in Hnd. inversion Hnd as [|? ? Hnotin Hnd']; subst.
    destruct (String.eqb_spec k0 k') as [->|Hne].
    + destruct Hin as [[= <- <-]|Hin]; [now left|]. right. split; [|now right].
      intros ->. apply Hnotin. apply in_map_iff. now exists (k', v).
    + destruct Hin as [[= <- <-]|Hin].
      * right. split; [assumption|now left].
      * destruct (IH Hnd' Hin) as [H|[H1 H2]]; [now left|].
        right. split; [assumption|now right].
Qed.

Lemma fold_months_zero (ks : list string) :
  forall s : dict month_stats,
    NoDup (dict_keys s) ->
    (forall k v, In (k, v) s -> v = zero_stats) ->
    forall k v,
      In (k, v) (fold_left (fun s k' => dict_set k' zero_stats s) ks s) ->
      v = zero_stats.
Proof.
  induction ks as [|k0 ks IH]; intros s Hnd Hz k v Hin; cbn [fold_left] in Hin.
  - eauto.
  - eapply IH; [| |exact Hin].
    + now apply dict_keys_set_nodup.
    + intros k1 v1 H1. apply dict_set_In in H1; [|exact Hnd].
      destruct H1 as [[_ ->]|[_ H1]]; eauto.
Qed.

Lemma fold_rows_In rows :
  forall s k v,
    NoDup (dict_keys s) ->
    In (k, v) (fold_left stats_add_row rows s) ->
    (exists r, In r rows /\ r_ym r = k /\ v = row_stats r)
    \/ (In (k, v) s /\ forall r, In r rows -> r_ym r <> k).
Proof.
  induction rows as [|r rows IH]; intros s k v Hnd Hin; cbn [fold_left] in Hin.
  - right. split; [assumption|intros r []].
  - destruct (IH _ _ _ (stats_add_row_nodup s r Hnd) Hin)
      as [(r' & Hr' & Hk & Hv)|[Hin' Hno]].
    + left. exists r'. split; [now right|auto].
    + unfold stats_add_row in Hin'.
      assert (Hnd1 : NoDup (dict_keys
                              (if negb (dict_mem (r_ym r) s)
                               then dict_set (r_ym r) zero_stats s else s)))
        by (destruct (negb (dict_mem (r_ym r) s));
            [now apply dict_keys_set_nodup|assumption]).
      apply dict_set_In in Hin'; [|exact Hnd1].
      destruct Hin' as [[-> ->]|[Hne Hin']].
      * left. exists r. split; [now left|]. split; reflexivity.
      * right. split.
        -- destruct (negb (dict_mem (r_ym r) s)); [|assumption].
           apply dict_set_In in Hin'; [|exact Hnd].
           destruct Hin' as [[-> _]|[_ Hin']]; [congruence|assumption].
        -- intros r' [<-|Hr']; [congruence|now apply Hno].
Qed.

Lemma valid_mode_cases md :
  valid_mode md = true ->
  md = "wave"%string \/ md = "om"%string \/ md = "cash"%string.
Proof.
  unfold valid_mode. rewrite !orb_true_iff, !String.eqb_eq. tauto.
Qed.

Lemma sum_amounts_by_mode l :
  Forall payment_wf l ->
  sum_amounts l = sum_mode "wave" l + sum_mode "om" l + sum_mode "cash" l
  /\ 0 <= sum_mode "wave" l /\ 0 <= sum_mode "om" l /\ 0 <= sum_mode "cash" l.
Proof.
  unfold sum_mode, sum_amounts.
  induction 1 as [|p l [Hp Hm] _ IH]; cbn [filter fold_right]; [lia|].
  apply valid_mode_cases in Hm as [E|[E|E]]; rewrite E;
    cbn [String.eqb Ascii.eqb Bool.eqb fold_right]; lia.
Qed.

(** X14: each entry of the monthly collection table carries the sums of
    the payments of its month dated up to the as-of date: the total and
    the wave, om and cash totals; a month without such a payment carries
    zeros.  When every stored payment has a positive amount and one of
    the three modes, the total of each month is the sum of its three
    mode totals and none of them is negative. *)
Theorem monthly_collection_stats_values d asof :
  valid_date (project_start_date (settings d)) -> valid_date asof ->
  exists stats,
    monthly_collection_stats d asof = Ok stats
    /\ forall k st,
        In (k, st) stats ->
        let g := filter (fun p => String.eqb (pay_ym p) k)
                        (filter (fun p => date_leb (pay_date p) asof)
                                (payments d)) in
        total st = sum_amounts g
        /\ wave st = sum_mode "wave" g
        /\ om st = sum_mode "om" g
        /\ cash st = sum_mode "cash" g
        /\ (Forall payment_wf (payments d) ->
            total st = wave st + om st + cash st
            /\ 0 <= wave st /\ 0 <= om st /\ 0 <= cash st).
Proof.
  intros Hs Ha. unfold monthly_collection_stats, ym_list.
  rewrite months_between_seq by assumption. cbn [bind].
  eexists. split; [reflexivity|]. intros k st Hin.
  set (g := filter (fun p => String.eqb (pay_ym p) k)
                   (filter (fun p => date_leb (pay_date p) asof) (payments d))).
  assert (Hsums : total st = sum_amounts g /\ wave st = sum_mode "wave" g
                  /\ om st = sum_mode "om" g /\ cash st = sum_mode "cash" g).
  { apply fold_rows_In in Hin.
    2:{ apply fold_nodup; [intros; now apply dict_keys_set_nodup|constructor]. }
    destruct Hin as [(r & Hr & Hk & ->)|[Hin Hno]].
    - unfold select_monthly_rows in Hr.
      apply in_map_iff in Hr as (k0 & <- & _). cbn [r_ym] in Hk. subst k0.
      cbn. repeat split; reflexivity.
    - apply fold_months_zero in Hin; [|constructor|intros ? ? []]. subst st.
      assert (Hg : g = []).
      { unfold g. destruct (filter _ _) as [|p l] eqn:E; [reflexivity|].
        exfalso.
        assert (Hp : In p (filter (fun p => String.eqb (pay_ym p) k)
                             (filter (fun p => date_leb (pay_date p) asof)
                                     (payments d))))
          by (rewrite E; now left).
        apply filter_In in Hp as [Hp Hk]. apply filter_In in Hp as [Hp Hle].
        apply String.eqb_eq in Hk.
        assert (Hex : existsb (fun r => String.eqb (r_ym r) k)
                              (select_monthly_rows d asof) = true)
          by (apply select_monthly_rows_keys; eauto).
        apply existsb_exists in Hex as (r & Hr & Hrk).
        apply String.eqb_eq in Hrk. exact (Hno r Hr Hrk). }
      rewrite Hg. cbn. repeat split; reflexivity. }
  destruct Hsums as (H1 & H2 & H3 & H4).
  split; [exact H1|]. split; [exact H2|]. split; [exact H3|].
  split; [exact H4|]. intros Hwf.
  assert (Hg : Forall payment_wf g).
  { apply Forall_forall. intros p Hp. unfold g in Hp.
    apply filter_In in Hp as [Hp _]. apply filter_In in Hp as [Hp _].
    now apply (proj1 (Forall_forall _ _) Hwf). }
  destruct (sum_amounts_by_mode g Hg) as (S1 & S2 & S3 & S4).
  rewrite H1, H2, H3, H4. repeat split; assumption.
Qed.

Lemma monthly_collection_stats_values_witness :
  valid_date (project_start_date (settings early_payment_db))
  /\ valid_date (mkdate 2025 10 20)
  /\ exists stats,
      monthly_collection_stats early_payment_db (mkdate 2025 10 20) = Ok stats
      /\ forall k st, In (k, st) stats ->
                      total st
                      = sum_amounts
                          (filter (fun p => String.eqb (pay_ym p) k)
                             (filter (fun p => date_leb (pay_date p)
                                                        (mkdate 2025 10 20))
                                     (payments early_payment_db))).
Proof.
  split; [reflexivity|]. split; [reflexivity|].
  destruct (monthly_collection_stats_values early_payment_db (mkdate 2025 10 20)
              eq_refl eq_refl) as (stats & H1 & H2).
  exists stats. split; [exact H1|].
  intros k st Hin. exact (proj1 (H2 k st Hin)).
Defined.

(** * The lists of the admin pages *)

Lemma member_status_fields d mid member_start asof st :
  member_status d mid member_start asof = Ok st ->
  rest st = Z.max 0 (due st - paid st)
  /\ avance st = Z.max 0 (paid st - due st)
  /\ ((status st = "À jour"%string /\ due st <= paid st)
      \/ (status st = "En retard"%string /\ paid st < due st)).
Proof.
  unfold member_status.
  destruct (due_total_as_of (settings d) asof member_start) as [v|e];
    cbn [bind]; [|discriminate].
  intros [= <-]. cbn [rest avance due paid status].
  split; [lia|]. split; [lia|].
  destruct (Z.eqb_spec (Z.max 0 (- (paid_total_as_of d mid asof - v))) 0);
    [left|right]; split; try reflexivity; lia.
Qed.

Lemma insert_by_sorted {A} (key : A -> Z) x l :
  StronglySorted (fun a b => key a <= key b) l ->
  StronglySorted (fun a b => key a <= key b)
                 (insert_by (fun a b => key a <=? key b) x l).
Proof.
  induction 1 as [|y l Hs IH Hall]; cbn [insert_by].
  - repeat constructor.
  - destruct (Z.leb_spec (key x) (key y)).
    + constructor; [now constructor|].
      constructor; [assumption|].
      eapply Forall_impl; [|exact Hall]. cbn. intros; lia.
    + constructor; [assumption|].
      apply Forall_forall. intros z Hz. apply insert_by_In in Hz as [->|Hz];
        [lia|]. now apply (proj1 (Forall_forall _ _) Hall).
Qed.

Lemma order_by_sorted {A} (key : A -> Z) l :
  StronglySorted (fun a b => key a <= key b)
                 (order_by (fun a b => key a <=? key b) l).
Proof.
  induction l as [|x l IH]; cbn [order_by fold_right]; [constructor|].
  now apply insert_by_sorted.
Qed.

Lemma restes_loop_spec d asof ms :
  valid_date asof ->
  (forall m, In m ms -> valid_date (start_date m)) ->
  exists data,
    restes_loop d asof ms = Ok data
    /\ forall r m st,
        In (r, m, st) data <->
        In m ms /\ member_status d (m_id m) (start_date m) asof = Ok st
        /\ r = rest st /\ 0 < rest st.
Proof.
  intros Ha. induction ms as [|m0 ms IH]; intros Hv.
  - exists []. split; [reflexivity|]. intros r m st. cbn. tauto.
  - destruct (member_status_total d (m_id m0) (start_date m0) asof
                (Hv m0 (or_introl eq_refl)) Ha) as [st0 Hst0].
    destruct (IH (fun m Hm => Hv m (or_intror Hm))) as (data & Hloop & Hdata).
    cbn [restes_loop]. rewrite Hst0, Hloop. cbn [bind].
    eexists. split; [reflexivity|]. intros r m st.
    destruct (Z.ltb_spec 0 (rest st0)) as [Hpos|Hneg]; cbn [In].
    + rewrite Hdata. split.
      * intros [[= <- <- <-]|(H1 & H2 & H3 & H4)]; [auto|]. tauto.
      * intros ([<-|Hin] & H2 & -> & H4).
        -- left. congruence.
        -- right. tauto.
    + rewrite Hdata. split.
      * intros (H1 & H2 & H3 & H4). tauto.
      * intros ([<-|Hin] & H2 & -> & H4); [|tauto].
        assert (st = st0) by congruence. subst. lia.
Qed.

(** X15: admin_restes lists exactly the active members who are behind:
    an entry (rest, member, status) is shown if and only if the member
    is in the members table with is_active = 1, the status is the one
    member_status computes on the as-of date, and rest = due - paid is
    positive; the entries are in ascending order of rest. *)
Theorem admin_restes_lists_late_members d today :
  valid_date today ->
  (forall e, project_end_date (settings d) = Some e -> valid_date e) ->
  (forall m, In m (members d) -> valid_date (start_date m)) ->
  exists data,
    admin_restes true d today = Ok (Page_restes data)
    /\ StronglySorted (fun a b => fst (fst a) <= fst (fst b)) data
    /\ forall r m st,
        In (r, m, st) data <->
        In m (members d) /\ is_active m = 1
        /\ member_status d (m_id m) (start_date m)
                         (as_of_date (settings d) today) = Ok st
        /\ r = due st - paid st /\ paid st < due st.
Proof.
  intros Ht He Hv. pose proof (as_of_date_valid _ _ Ht He) as Ha.
  destruct (restes_loop_spec d (as_of_date (settings d) today)
              (filter (fun m => is_active m =? 1) (members d)) Ha)
    as (data & Hloop & Hdata).
  { intros m Hm. apply filter_In in Hm as [Hm _]. now apply Hv. }
  unfold admin_restes. cbn [negb]. rewrite Hloop. cbn [bind].
  eexists. split; [reflexivity|].
  split; [apply (order_by_sorted (fun a => fst (fst a)))|].
  intros r m st. rewrite order_by_In, Hdata, filter_In, Z.eqb_eq.
  split.
  - intros ((Hm & Hact) & Hst & -> & Hpos).
    destruct (member_status_fields _ _ _ _ _ Hst) as (Hr & _ & _).
    repeat split; auto; lia.
  - intros (Hm & Hact & Hst & -> & Hlt).
    destruct (member_status_fields _ _ _ _ _ Hst) as (Hr & _ & _).
    repeat split; auto; lia.
Qed.

Lemma admin_restes_lists_late_members_witness :
  valid_date (mkdate 2025 10 31)
  /\ exists data,
      admin_restes true ledger_db (mkdate 2025 10 31) = Ok (Page_restes data)
      /\ StronglySorted (fun a b => fst (fst a) <= fst (fst b)) data.
Proof.
  split; [reflexivity|].
  assert (He : forall e, project_end_date (settings ledger_db) = Some e ->
                         valid_date e) by (intros e H; discriminate H).
  assert (Hv : forall m, In m (members ledger_db) -> valid_date (start_date m)).
  { intros m [<-|[]]. reflexivity. }
  destruct (admin_restes_lists_late_members ledger_db (mkdate 2025 10 31)
              eq_refl He Hv) as (data & H1 & H2 & _).
  exists data. split; [exact H1|exact H2].
Defined.

Lemma sum_rows_app f l1 l2 : sum_rows f (l1 ++ l2) = sum_rows f l1 + sum_rows f l2.
Proof.
  unfold sum_rows. induction l1 as [|r l1 IH]; cbn [app fold_right]; lia.
Qed.

Lemma count_rows_app f l r :
  count_rows f (l ++ [r]) = count_rows f l + (if f r then 1 else 0).
Proof.
  unfold count_rows. rewrite filter_app, length_app. cbn [filter].
  destruct (f r); cbn [List.length]; lia.
Qed.

Lemma row_active_mk m b l st :
  row_active (mkdrow m b l st) = (is_active m =? 1).
Proof. reflexivity. Qed.

Lemma row_up_to_date_mk m b l st :
  row_up_to_date (mkdrow m b l st)
  = (is_active m =? 1) && (due st <=? paid st).
Proof. reflexivity. Qed.

Lemma dashboard_step_inv d asof acc m :
  valid_date asof -> valid_date (start_date m) ->
  exists acc' r,
    dashboard_step d asof acc m = Ok acc'
    /\ rows acc' = rows acc ++ [r]
    /\ row_member r = m
    /\ (dashboard_inv acc -> dashboard_inv acc').
Proof.
  intros Ha Hs. unfold dashboard_step.
  destruct (Z.eqb_spec (is_active m) 1) as [E|E].
  - destruct (member_status_total d (m_id m) (start_date m) asof Hs Ha)
      as [st Hst].
    rewrite Hst. cbn [bind].
    destruct (member_status_fields _ _ _ _ _ Hst) as (Hr & Hav & Hlab).
    do 2 eexists. split; [reflexivity|]. cbn [rows].
    split; [reflexivity|]. split; [reflexivity|].
    intros (I1 & I2 & I3 & I4 & I5 & I6 & I7 & I8).
    unfold dashboard_inv.
    cbn [ok_count late_count active_count total_due total_paid total_rest
         total_avance rows].
    rewrite !count_rows_app, !sum_rows_app.
    rewrite !row_up_to_date_mk, !row_active_mk.
    unfold sum_rows at 2 4 6 8. cbn [fold_right row_st].
    destruct (Z.eqb_spec (is_active m) 1) as [_|]; [|contradiction].
    cbn [andb].
    destruct Hlab as [[-> Hle]|[-> Hlt]]; cbn [String.eqb Ascii.eqb Bool.eqb].
    + destruct (Z.leb_spec (due st) (paid st)); [|lia].
      repeat split; lia.
    + destruct (Z.leb_spec (due st) (paid st)); [lia|].
      repeat split; lia.
  - cbn [bind]. do 2 eexists. split; [reflexivity|]. cbn [rows].
    split; [reflexivity|]. split; [reflexivity|].
    intros (I1 & I2 & I3 & I4 & I5 & I6 & I7 & I8).
    unfold dashboard_inv.
    cbn [ok_count late_count active_count total_due total_paid total_rest
         total_avance rows].
    rewrite !count_rows_app, !sum_rows_app.
    rewrite !row_up_to_date_mk, !row_active_mk.
    unfold sum_rows at 2 4 6 8. cbn [fold_right row_st].
    destruct (Z.eqb_spec (is_active m) 1) as [|_]; [contradiction|].
    cbn [andb inactive_status due paid rest avance].
    repeat split; lia.
Qed.

Lemma dashboard_loop_inv d asof ms :
  valid_date asof ->
  (forall x, In x ms -> valid_date (start_date x)) ->
  forall acc,
  exists acc',
    dashboard_loop d asof ms acc = Ok acc'
    /\ map row_member (rows acc') = map row_member (rows acc) ++ ms
    /\ (dashboard_inv acc -> dashboard_inv acc').
Proof.
  intros Ha. induction ms as [|m ms IH]; intros Hv acc.
  - exists acc. cbn. rewrite app_nil_r. auto.
  - destruct (dashboard_step_inv d asof acc m Ha (Hv m (or_introl eq_refl)))
      as (acc1 & r & Hstep & Hrows & Hm & Hinv).
    destruct (IH (fun x Hx => Hv x (or_intror Hx)) acc1)
      as (acc' & Hloop & Hmap & Hinv').
    exists acc'. cbn [dashboard_loop]. rewrite Hstep. cbn [bind].
    split; [exact Hloop|]. split; [|auto].
    rewrite Hmap, Hrows, map_app, <- app_assoc. cbn [map app]. now rewrite Hm.
Qed.

Lemma insert_by_length_filter {A} (le : A -> A -> bool) (f : A -> bool) x l :
  List.length (filter f (insert_by le x l)) = List.length (filter f (x :: l)).
Proof.
  induction l as [|y l IH]; cbn [insert_by]; [reflexivity|].
  destruct (le x y); [reflexivity|].
  cbn [filter] in *. destruct (f y), (f x); cbn [List.length] in *; lia.
Qed.

Lemma order_by_length_filter {A} (le : A -> A -> bool) (f : A -> bool) l :
  List.length (filter f (order_by le l)) = List.length (filter f l).
Proof.
  induction l as [|x l IH]; cbn [order_by fold_right]; [reflexivity|].
  fold (order_by le l). rewrite insert_by_length_filter.
  cbn [filter]. destruct (f x); cbn [List.length]; lia.
Qed.

(** X16: the counters of the dashboard agree with its rows.  There is
    one row per member; active_count is the number of members with
    is_active = 1 and equals ok_count + late_count; ok_count counts the
    active members whose paid total reaches their due; the four totals
    are the sums of the rows' figures, and total_avance - total_rest =
    total_paid - total_due; the bank figure is max(0, collected -
    deposited). *)
Theorem admin_dashboard_counters d today :
  valid_date today ->
  (forall e, project_end_date (settings d) = Some e -> valid_date e) ->
  (forall m, In m (members d) -> valid_date (start_date m)) ->
  exists dsh collected deposited available_bank,
    admin_dashboard true d today
    = Ok (Page_dashboard dsh collected deposited available_bank)
    /\ List.length (rows dsh) = List.length (members d)
    /\ active_count dsh
       = Z.of_nat (List.length (filter (fun m => is_active m =? 1) (members d)))
    /\ ok_count dsh + late_count dsh = active_count dsh
    /\ ok_count dsh = count_rows row_up_to_date (rows dsh)
    /\ total_due dsh = sum_rows due (rows dsh)
    /\ total_paid dsh = sum_rows paid (rows dsh)
    /\ total_rest dsh = sum_rows rest (rows dsh)
    /\ total_avance dsh = sum_rows avance (rows dsh)
    /\ total_avance dsh - total_rest dsh = total_paid dsh - total_due dsh
    /\ collected = total_collected_as_of d (as_of_date (settings d) today)
    /\ deposited = total_deposited_as_of d (as_of_date (settings d) today)
    /\ available_bank = Z.max 0 (collected - deposited).
Proof.
  intros Ht He Hv. pose proof (as_of_date_valid _ _ Ht He) as Ha.
  set (ms := order_by (fun a b => String.leb (full_name a) (full_name b))
                      (members d)).
  assert (Hvs : forall x, In x ms -> valid_date (start_date x)).
  { intros x Hx. apply Hv. now apply order_by_In in Hx. }
  destruct (dashboard_loop_inv d (as_of_date (settings d) today) ms Ha Hvs
                               (mkdash [] 0 0 0 0 0 0 0))
    as (dsh & Hloop & Hmap & Hinv).
  cbn [rows map app] in Hmap.
  destruct Hinv as (I1 & I2 & I3 & I4 & I5 & I6 & I7 & I8).
  { unfold dashboard_inv, count_rows, sum_rows. cbn. repeat split. }
  exists dsh. do 3 eexists. split.
  { unfold admin_dashboard. cbn [negb]. fold ms. rewrite Hloop. reflexivity. }
  assert (Hlen : forall f : member -> bool,
             List.length (filter (fun r => f (row_member r)) (rows dsh))
             = List.length (filter f (members d))).
  { intros f.
    rewrite <- (order_by_length_filter
                  (fun a b => String.leb (full_name a) (full_name b)) f).
    fold ms. rewrite <- Hmap. clear.
    induction (rows dsh) as [|r l IH]; cbn [map filter]; [reflexivity|].
    destruct (f (row_member r)); cbn [List.length]; now rewrite IH. }
  split.
  { rewrite <- (length_map row_member), Hmap. unfold ms.
    pose proof (order_by_length_filter
                  (fun a b => String.leb (full_name a) (full_name b))
                  (fun _ => true) (members d)) as H.
    rewrite !filter_all in H by (intros; reflexivity). exact H. }
  split.
  { rewrite I2. unfold count_rows, row_active.
    now rewrite (Hlen (fun m => is_active m =? 1)). }
  repeat split; assumption.
Qed.

Lemma admin_dashboard_counters_witness :
  valid_date (mkdate 2025 11 30)
  /\ exists dsh collected deposited available_bank,
      admin_dashboard true inactive_db (mkdate 2025 11 30)
      = Ok (Page_dashboard dsh collected deposited available_bank)
      /\ List.length (rows dsh) = List.length (members inactive_db)
      /\ ok_count dsh + late_count dsh = active_count dsh.
Proof.
  split; [reflexivity|].
  assert (He : forall e, project_end_date (settings inactive_db) = Some e ->
                         valid_date e) by (intros e H; discriminate H).
  assert (Hv : forall m, In m (members inactive_db) ->
                         valid_date (start_date m)).
  { intros m [<-|[<-|[]]]; reflexivity. }
  destruct (admin_dashboard_counters inactive_db (mkdate 2025 11 30)
              eq_refl He Hv)
    as (dsh & c & dp & av & H1 & H2 & _ & H3 & _).
  exists dsh, c, dp, av. split; [exact H1|]. split; [exact H2|exact H3].
Defined.

(** * Settings *)

(** X17: admin_config_save accepts a request exactly when it comes with
    the admin cookie, a start date that parses and three amounts none of
    which is negative (zero is accepted); it then stores exactly these
    four values and keeps the stop date.  Settings whose amounts are not
    negative therefore stay so under admin_config_save,
    admin_project_stop and admin_project_resume. *)
Theorem settings_amounts_stay_non_negative d :
  config_nonneg (settings d) ->
  (forall admin sd da cap oct,
      let r := admin_config_save admin d sd da cap oct in
      config_nonneg (settings (fst r))
      /\ project_end_date (settings (fst r)) = project_end_date (settings d)
      /\ (snd r = Redirect "/admin/config" <->
          admin = true /\ sd <> None /\ 0 <= da /\ 0 <= cap /\ 0 <= oct)
      /\ (forall s, admin = true -> sd = Some s ->
                    0 <= da -> 0 <= cap -> 0 <= oct ->
                    settings (fst r)
                    = mkconfig s da cap oct (project_end_date (settings d))))
  /\ (forall admin e,
         config_nonneg (settings (fst (admin_project_stop admin d e))))
  /\ (forall admin,
         config_nonneg (settings (fst (admin_project_resume admin d)))).
Proof.
  intros Hc. repeat match goal with |- _ /\ _ => split end.
  - intros admin sd da cap oct r. unfold r, admin_config_save.
    destruct admin; cbn [negb fst snd].
    2:{ split; [assumption|]. split; [reflexivity|]. split.
        - split; [discriminate|]. intros (H & _). discriminate H.
        - intros s H. discriminate H. }
    destruct sd as [s|]; cbn [fst snd].
    2:{ split; [assumption|]. split; [reflexivity|]. split.
        - split; [discriminate|]. intros (_ & H & _). now contradiction H.
        - intros s _ H. discriminate H. }
    destruct (Z.ltb_spec da 0), (Z.ltb_spec cap 0), (Z.ltb_spec oct 0);
      cbn [orb fst snd with_settings settings project_end_date].
    8:{ split; [unfold config_nonneg; cbn; lia|]. split; [reflexivity|]. split.
        - split; [intros _|reflexivity]. repeat split; try lia. discriminate.
        - intros s0 _ [= ->] _ _ _. reflexivity. }
    all: split; [assumption|]; (split; [reflexivity|]); split;
      [split; [discriminate|intros (_ & _ & ? & ? & ?); lia]
      |intros; lia].
  - intros admin e. unfold admin_project_stop.
    destruct admin, e; cbn [negb fst]; assumption.
  - intros admin. unfold admin_project_resume.
    destruct admin; cbn [negb fst]; assumption.
Qed.

Lemma settings_amounts_stay_non_negative_witness :
  config_nonneg (settings ledger_db)
  /\ config_nonneg
       (settings (fst (admin_config_save true ledger_db
                         (Some (mkdate 2025 11 1)) 0 50000 30000))).
Proof.
  assert (H : config_nonneg (settings ledger_db))
    by (repeat split; discriminate).
  split; [exact H|].
  exact (proj1 (proj1 (settings_amounts_stay_non_negative ledger_db H)
                      true (Some (mkdate 2025 11 1)) 0 50000 30000)).
Defined.

(** X18: admin_project_stop sets the stop date and nothing else, so that
    from then on the as-of date is min(today, stop date): the stop date
    once it is reached, today before it; admin_project_resume clears it,
    the as-of date is today again, and a project that had no stop date
    is back to the store it had before the stop. *)
Theorem stop_then_resume d e today :
  let d1 := fst (admin_project_stop true d (Some e)) in
  let d2 := fst (admin_project_resume true d1) in
  as_of_date (settings d1) today = date_min today e
  /\ (date_ltb e today = true -> as_of_date (settings d1) today = e)
  /\ (date_ltb e today = false -> as_of_date (settings d1) today = today)
  /\ as_of_date (settings d2) today = today
  /\ (project_end_date (settings d) = None -> d2 = d)
  /\ members d1 = members d /\ payments d1 = payments d
  /\ bank_deposits d1 = bank_deposits d
  /\ project_start_date (settings d1) = project_start_date (settings d)
  /\ daily_amount (settings d1) = daily_amount (settings d)
  /\ monthly_cap (settings d1) = monthly_cap (settings d)
  /\ oct_2025_fixed (settings d1) = oct_2025_fixed (settings d).
Proof.
  intros d1 d2. unfold d2, d1, admin_project_resume, admin_project_stop.
  cbn [negb fst with_settings settings project_end_date as_of_date
       project_start_date daily_amount monthly_cap oct_2025_fixed
       members payments bank_deposits].
  repeat split.
  - intros H. unfold date_min. now rewrite H.
  - intros H. unfold date_min. now rewrite H.
  - intros H. destruct d as [[s da cap oct en] ms ps sp bs sb].
    cbn in H. subst en. reflexivity.
Qed.

(** * Numbers as text *)

Lemma digit_char_spec d :
  0 <= d <= 9 -> digit_val (digit_char d) = d /\ is_digit (digit_char d) = true.
Proof.
  intros H.
  assert (E : d = 0 \/ d = 1 \/ d = 2 \/ d = 3 \/ d = 4 \/ d = 5 \/ d = 6
              \/ d = 7 \/ d = 8 \/ d = 9) by lia.
  repeat (destruct E as [->|E]; [split; reflexivity|]). subst. split; reflexivity.
Qed.

Lemma digits_value_decimal fuel :
  forall n acc,
    0 <= n < 2 ^ Z.of_nat fuel ->
    digits_value (decimal_digits fuel n acc) 0 = digits_value acc n.
Proof.
  induction fuel as [|fuel IH]; intros n acc Hn.
  - cbn [decimal_digits]. change (2 ^ Z.of_nat 0) with 1 in Hn.
    now replace n with 0 by lia.
  - cbn [decimal_digits].
    pose proof (Z.mod_pos_bound n 10 ltac:(lia)) as Hm.
    pose proof (Z.div_mod n 10 ltac:(lia)) as Hd.
    destruct (digit_char_spec (n mod 10) ltac:(lia)) as [Hv _].
    destruct (Z.eqb_spec (n / 10) 0) as [E|E].
    + cbn [digits_value]. rewrite Hv. f_equal. lia.
    + rewrite IH.
      * cbn [digits_value]. rewrite Hv. f_equal. lia.
      * rewrite Nat2Z.inj_succ, Z.pow_succ_r in Hn by lia.
        pose proof (Z.pow_pos_nonneg 2 (Z.of_nat fuel) ltac:(lia) ltac:(lia)).
        split; [apply Z.div_pos; lia|].
        apply Z.div_lt_upper_bound; lia.
Qed.

Lemma all_digits_decimal fuel :
  forall n acc,
    0 <= n -> all_digits acc = true ->
    all_digits (decimal_digits fuel n acc) = true.
Proof.
  induction fuel as [|fuel IH]; intros n acc Hn Hacc; cbn [decimal_digits];
    [assumption|].
  pose proof (Z.mod_pos_bound n 10 ltac:(lia)) as Hm.
  destruct (digit_char_spec (n mod 10) ltac:(lia)) as [_ Hd].
  assert (Hacc' : all_digits (String (digit_char (n mod 10)) acc) = true)
    by (cbn [all_digits]; now rewrite Hd, Hacc).
  destruct (n / 10 =? 0); [assumption|].
  apply IH; [apply Z.div_pos; lia|assumption].
Qed.

Lemma decimal_digits_nonempty fuel :
  forall n acc, acc <> EmptyString -> decimal_digits fuel n acc <> EmptyString.
Proof.
  induction fuel as [|fuel IH]; intros n acc Hacc; cbn [decimal_digits];
    [assumption|].
  destruct (n / 10 =? 0); [discriminate|]. apply IH. discriminate.
Qed.

Lemma digits_value_zeros k s : digits_value (zeros k ++ s) 0 = digits_value s 0.
Proof. induction k as [|k IH]; cbn [zeros append digits_value]; auto. Qed.

Lemma all_digits_zeros k s : all_digits (zeros k ++ s) = all_digits s.
Proof. induction k as [|k IH]; cbn [zeros append all_digits]; auto. Qed.

Lemma append_nonempty s t : t <> EmptyString -> (s ++ t)%string <> EmptyString.
Proof. destruct s; cbn; [auto|discriminate]. Qed.

Lemma isdigit_all_digits s :
  s <> EmptyString -> isdigit s = all_digits s.
Proof. destruct s; [contradiction|reflexivity]. Qed.

Lemma format_0d_reads_back width n :
  0 <= n ->
  isdigit (format_0d width n) = true
  /\ int_of_digits (format_0d width n) = n
  /\ require_member (Some (str_of_int n)) = Some n.
Proof.
  intros Hn.
  assert (Hfmt : forall w,
             format_0d w n
             = (zeros (w - String.length
                             (decimal_digits (S (Z.to_nat (Z.log2 (Z.abs n))))
                                             (Z.abs n) EmptyString))
                ++ decimal_digits (S (Z.to_nat (Z.log2 (Z.abs n)))) (Z.abs n)
                                  EmptyString)%string).
  { intros w. unfold format_0d. cbv zeta.
    destruct (Z.ltb_spec n 0); [lia|reflexivity]. }
  assert (Hbound : 0 <= Z.abs n < 2 ^ Z.of_nat (S (Z.to_nat (Z.log2 (Z.abs n))))).
  { rewrite Z.abs_eq by lia. split; [assumption|].
    rewrite Nat2Z.inj_succ, Z2Nat.id by apply Z.log2_nonneg.
    destruct (Z.eq_dec n 0) as [->|Hne]; [reflexivity|].
    apply Z.log2_spec. lia. }
  assert (Hne : decimal_digits (S (Z.to_nat (Z.log2 (Z.abs n)))) (Z.abs n)
                               EmptyString <> EmptyString).
  { cbn [decimal_digits]. destruct (Z.abs n / 10 =? 0); [discriminate|].
    apply decimal_digits_nonempty. discriminate. }
  assert (Hdig : forall w, isdigit (format_0d w n) = true).
  { intros w. rewrite Hfmt.
    rewrite isdigit_all_digits by (now apply append_nonempty).
    rewrite all_digits_zeros. apply all_digits_decimal; [lia|reflexivity]. }
  assert (Hval : forall w, int_of_digits (format_0d w n) = n).
  { intros w. rewrite Hfmt. unfold int_of_digits.
    rewrite digits_value_zeros, digits_value_decimal by assumption.
    cbn [digits_value]. lia. }
  split; [apply Hdig|]. split; [apply Hval|].
  unfold require_member, str_of_int. rewrite Hdig, Hval. cbn [negb orb].
  destruct (String.eqb_spec (format_0d 0 n) EmptyString) as [E|_];
    [|reflexivity].
  exfalso. pose proof (Hdig 0%nat) as H. rewrite E in H. discriminate H.
Qed.


(** X19: a non-negative number written in decimal, with or without
    zero padding, reads back as itself: the text consists of digits
    only, and int of it is the number.  In particular the member id
    that login writes into the "member_id" cookie is the id that
    require_member reads from it. *)
Theorem decimal_text_round_trip width n :
  0 <= n ->
  isdigit (format_0d width n) = true
  /\ int_of_digits (format_0d width n) = n
  /\ require_member (Some (str_of_int n)) = Some n.
Proof. apply format_0d_reads_back. Qed.

Lemma decimal_text_round_trip_witness :
  0 <= 2025
  /\ format_0d 6 2025 = "002025"%string
  /\ int_of_digits (format_0d 6 2025) = 2025.
Proof.
  split; [discriminate|]. split; [reflexivity|].
  exact (proj1 (proj2 (decimal_text_round_trip 6 2025 ltac:(discriminate)))).
Defined.

(** * Members *)

Lemma next_member_id_above d :
  0 < next_member_id d
  /\ forall m, In m (members d) -> m_id m < next_member_id d.
Proof.
  unfold next_member_id. induction (members d) as [|m0 l [IH1 IH2]];
    cbn [map fold_right].
  - split; [lia|intros m []].
  - split; [lia|]. intros m [<-|Hm]; [lia|]. specialize (IH2 m Hm). lia.
Qed.

Lemma phone_taken_spec d ph :
  phone_taken d ph = true <-> In ph (map phone (members d)).
Proof.
  unfold phone_taken. rewrite existsb_exists, in_map_iff. split.
  - intros (m & Hm & E). apply String.eqb_eq in E. eauto.
  - intros (m & E & Hm). exists m. split; [assumption|]. now apply String.eqb_eq.
Qed.

Lemma NoDup_app_one {A} (l : list A) x : NoDup l -> ~ In x l -> NoDup (l ++ [x]).
Proof.
  induction l as [|a l IH]; intros Hnd Hx; cbn [app].
  - constructor; [intros []|constructor].
  - inversion Hnd as [|? ? Ha Hl]; subst. constructor.
    + intros H. apply in_app_iff in H as [H|[H|[]]]; [contradiction|].
      apply Hx. now left.
    + apply IH; [assumption|]. intros H. apply Hx. now right.
Qed.

Lemma map_update_ids (f : member -> member) l :
  (forall m, m_id (f m) = m_id m) -> map m_id (map f l) = map m_id l.
Proof. intros H. rewrite map_map. apply map_ext. exact H. Qed.

(* Changing the phone of the rows with one id keeps the phones distinct
   when no other row has the new phone. *)
Lemma update_phone_nodup mid name ph l :
  NoDup (map m_id l) -> NoDup (map phone l) ->
  (forall m, In m l -> m_id m <> mid -> phone m <> ph) ->
  NoDup (map phone
             (map (fun m =>
                     if m_id m =? mid
                     then mkmember (m_id m) name ph (pin_hash m) (start_date m)
                                   (is_active m) (m_created_at m)
                     else m) l)).
Proof.
  induction l as [|m0 l IH]; intros Hids Hph Hother; cbn [map]; [constructor|].
  cbn [map] in Hids, Hph.
  inversion Hids as [|? ? Hid0 Hids']; inversion Hph as [|? ? Hph0 Hph']; subst.
  assert (IHl := IH Hids' Hph' (fun m Hm => Hother m (or_intror Hm))).
  constructor; [|exact IHl].
  intros Hin. apply in_map_iff in Hin as (m1 & E & Hm1).
  apply in_map_iff in Hm1 as (m & <- & Hm).
  destruct (Z.eqb_spec (m_id m0) mid) as [E0|E0];
    destruct (Z.eqb_spec (m_id m) mid) as [E1|E1]; cbn [phone] in E.
  - apply Hid0. apply in_map_iff. exists m. split; [congruence|assumption].
  - apply (Hother m (or_intror Hm) E1). congruence.
  - apply (Hother m0 (or_introl eq_refl) E0). congruence.
  - apply Hph0. apply in_map_iff. exists m. split; [congruence|assumption].
Qed.

Lemma phone_of_other_false d ph mid :
  phone_of_other d ph mid = false ->
  forall m, In m (members d) -> m_id m <> mid -> phone m <> ph.
Proof.
  unfold phone_of_other. intros H m Hm Hid Hp.
  assert (Hex : existsb (fun m => String.eqb (phone m) ph && negb (m_id m =? mid))
                        (members d) = true).
  { apply existsb_exists. exists m. split; [assumption|].
    apply andb_true_intro. split; [now apply String.eqb_eq|].
    now apply negb_true_iff, Z.eqb_neq. }
  congruence.
Qed.

(** X20: the handlers keep the members table well formed: starting from
    ids that are positive and pairwise distinct and phones that are
    pairwise distinct, the store after admin_add_member,
    admin_update_member, admin_change_pin, admin_activate_member or
    admin_deactivate_member has the same property, whatever the
    request. *)
Theorem members_stay_well_formed d :
  members_wf d ->
  (forall hash admin now name ph pin sd,
      members_wf (fst (admin_add_member hash admin d now name ph pin sd)))
  /\ (forall admin mid name ph,
         members_wf (fst (admin_update_member admin d mid name ph)))
  /\ (forall hash admin mid pin,
         members_wf (fst (admin_change_pin hash admin d mid pin)))
  /\ (forall admin mid, members_wf (fst (admin_activate_member admin d mid)))
  /\ (forall admin mid, members_wf (fst (admin_deactivate_member admin d mid))).
Proof.
  intros (Hids & Hph & Hpos).
  assert (Hwf : members_wf d) by (repeat split; assumption).
  assert (Hsame : forall f : member -> member,
             (forall m, m_id (f m) = m_id m) ->
             (forall m, phone (f m) = phone m) ->
             NoDup (map m_id (map f (members d)))
             /\ NoDup (map phone (map f (members d)))
             /\ Forall (fun m => 0 < m_id m) (map f (members d))).
  { intros f Hf1 Hf2. repeat split.
    - now rewrite map_update_ids.
    - rewrite map_map. erewrite map_ext; [exact Hph|]. exact Hf2.
    - apply Forall_forall. intros m Hm. apply in_map_iff in Hm as (m0 & <- & Hm0).
      rewrite Hf1. now apply (proj1 (Forall_forall _ _) Hpos). }
  repeat match goal with |- _ /\ _ => split end.
  - intros hash admin now name ph pin sd. unfold admin_add_member, insert_member.
    destruct admin, (is_valid_sn_phone (strip ph)), (is_valid_pin (strip pin)),
      sd, (phone_taken d (strip ph)) eqn:Et; cbn [negb fst]; try assumption.
    destruct (next_member_id_above d) as [Hn1 Hn2].
    unfold members_wf. cbn [members]. rewrite !map_app. cbn [map m_id phone].
    repeat split.
    + apply NoDup_app_one; [assumption|]. intros Hin.
      apply in_map_iff in Hin as (m & E & Hm). specialize (Hn2 m Hm). lia.
    + apply NoDup_app_one; [assumption|]. intros Hin.
      apply phone_taken_spec in Hin. congruence.
    + apply Forall_app. split; [assumption|].
      constructor; [cbn [m_id]; assumption|constructor].
  - intros admin mid name ph. unfold admin_update_member.
    destruct admin, (String.eqb (strip name) EmptyString),
      (is_valid_sn_phone (strip ph)), (member_exists d mid),
      (phone_of_other d (strip ph) mid) eqn:Eo; cbn [negb fst]; try assumption.
    unfold members_wf, update_member. cbn [members]. repeat split.
    + rewrite map_update_ids; [assumption|].
      intros m. now destruct (m_id m =? mid).
    + apply update_phone_nodup; try assumption.
      now apply phone_of_other_false.
    + apply Forall_forall. intros m Hm. apply in_map_iff in Hm as (m0 & <- & Hm0).
      pose proof (proj1 (Forall_forall _ _) Hpos m0 Hm0) as H0.
      now destruct (m_id m0 =? mid).
  - intros hash admin mid pin. unfold admin_change_pin.
    destruct admin, (is_valid_pin (strip pin)); cbn [negb fst]; try assumption.
    unfold members_wf, update_pin_hash. cbn [members].
    apply Hsame; intros m; now destruct (m_id m =? mid).
  - intros admin mid. unfold admin_activate_member.
    destruct admin; cbn [negb fst]; try assumption.
    unfold members_wf, update_is_active. cbn [members].
    apply Hsame; intros m; now destruct (m_id m =? mid).
  - intros admin mid. unfold admin_deactivate_member.
    destruct admin; cbn [negb fst]; try assumption.
    unfold members_wf, update_is_active. cbn [members].
    apply Hsame; intros m; now destruct (m_id m =? mid).
Qed.

Lemma members_stay_well_formed_witness :
  members_wf inactive_db
  /\ members_wf (fst (admin_update_member true inactive_db 2 "Moussa Fall"
                                          "770000009")).
Proof.
  assert (H : members_wf inactive_db).
  { repeat split.
    - repeat constructor; cbn; intuition discriminate.
    - repeat constructor; cbn; intuition discriminate.
    - repeat constructor. }
  split; [exact H|].
  exact (proj1 (proj2 (members_stay_well_formed inactive_db H))
               true 2 "Moussa Fall"%string "770000009"%string).
Defined.

(** X21: login_member opens a session only for an active member.  For a
    phone and a PIN typed in ASCII characters (where strip, isdigit and
    the length of the model are Python's): when the answer is the
    redirection that sets a cookie, the stripped phone is nine digits
    and the stripped PIN four, the redirection goes to /me, the cookie
    is "member_id", and a member of the table has that phone, is
    active, their stored hash verifies the PIN, and the cookie holds
    their id. *)
Theorem login_member_only_for_active_members verify d ph pin url key value :
  is_ascii ph = true -> is_ascii pin = true ->
  login_member verify d ph pin = Redirect_set_cookie url key value ->
  is_valid_sn_phone (strip ph) = true
  /\ is_valid_pin (strip pin) = true
  /\ url = "/me"%string /\ key = "member_id"%string
  /\ exists m,
      In m (members d) /\ phone m = strip ph /\ is_active m = 1
      /\ verify (strip pin) (pin_hash m) = true
      /\ value = str_of_int (m_id m).
Proof.
  intros _ _. unfold login_member, member_by_phone.
  destruct (is_valid_sn_phone (strip ph)); cbn [negb]; [|discriminate].
  destruct (is_valid_pin (strip pin)); cbn [negb]; [|discriminate].
  destruct (find _ (members d)) as [m|] eqn:Ef; [|discriminate].
  apply find_some in Ef as [Hm Hp]. apply String.eqb_eq in Hp.
  destruct (Z.eqb_spec (is_active m) 1); cbn [negb]; [|discriminate].
  destruct (verify (strip pin) (pin_hash m)) eqn:Ev; cbn [negb];
    [|discriminate].
  intros [= <- <- <-]. repeat split. exists m. repeat split; assumption.
Qed.

Lemma login_member_only_for_active_members_witness :
  is_ascii " 770000001" = true /\ is_ascii "1234 " = true
  /\ login_member sample_verify hashed_db " 770000001" "1234 "
     = Redirect_set_cookie "/me" "member_id" "1"
  /\ exists m,
      In m (members hashed_db) /\ is_active m = 1
      /\ sample_verify "1234" (pin_hash m) = true.
Proof.
  assert (H : login_member sample_verify hashed_db " 770000001" "1234 "
              = Redirect_set_cookie "/me" "member_id" "1") by reflexivity.
  split; [reflexivity|]. split; [reflexivity|]. split; [exact H|].
  destruct (login_member_only_for_active_members
              sample_verify hashed_db " 770000001" "1234 " _ _ _
              eq_refl eq_refl H)
    as (_ & _ & _ & _ & m & Hm & _ & Ha & Hv & _).
  exists m. split; [assumption|]. split; assumption.
Defined.

Lemma find_unique {A} (f : A -> bool) (l : list A) x :
  In x l -> f x = true -> (forall y, In y l -> f y = true -> y = x) ->
  find f l = Some x.
Proof.
  induction l as [|a l IH]; intros Hin Hf Huniq; [destruct Hin|].
  cbn [find]. destruct (f a) eqn:Ea.
  - f_equal. apply Huniq; [now left|assumption].
  - destruct Hin as [->|Hin]; [congruence|].
    apply IH; auto. intros y Hy. apply Huniq. now right.
Qed.

Lemma NoDup_map_inj {A B} (g : A -> B) l x y :
  NoDup (map g l) -> In x l -> In y l -> g x = g y -> x = y.
Proof.
  induction l as [|a l IH]; intros Hnd Hx Hy E; [destruct Hx|].
  cbn [map] in Hnd. inversion Hnd as [|? ? Ha Hl]; subst.
  destruct Hx as [->|Hx], Hy as [->|Hy]; auto.
  - exfalso. apply Ha. rewrite E. now apply in_map.
  - exfalso. apply Ha. rewrite <- E. now apply in_map.
Qed.

Lemma update_is_active_wf d mid v :
  members_wf d -> members_wf (update_is_active d mid v).
Proof.
  intros (Hids & Hph & Hpos). unfold members_wf, update_is_active.
  cbn [members]. repeat split.
  - rewrite map_update_ids; [assumption|]. intros m. now destruct (m_id m =? mid).
  - rewrite map_map. erewrite map_ext; [exact Hph|].
    intros m. now destruct (m_id m =? mid).
  - apply Forall_forall. intros m Hm. apply in_map_iff in Hm as (m0 & <- & Hm0).
    pose proof (proj1 (Forall_forall _ _) Hpos m0 Hm0).
    now destruct (m_id m0 =? mid).
Qed.

(* The row of a member once its flag is set to v. *)
Lemma update_is_active_row d mid v m :
  In m (members d) -> m_id m = mid ->
  In (mkmember (m_id m) (full_name m) (phone m) (pin_hash m) (start_date m) v
               (m_created_at m))
     (members (update_is_active d mid v)).
Proof.
  intros Hm Hid. unfold update_is_active. cbn [members].
  apply in_map_iff. exists m. split; [|assumption].
  destruct (Z.eqb_spec (m_id m) mid); [reflexivity|contradiction].
Qed.

(** X22: deactivating a member locks them out and reactivating lets them
    back in.  In a well-formed members table, after
    admin_deactivate_member on a member's id, login_member with their
    phone never opens a session, whatever the PIN, and /me with their
    cookie answers with the redirection to / that clears the cookie;
    after admin_activate_member the member is found again, active, with
    the same name, phone, PIN hash and enrollment date. *)
Theorem deactivated_member_is_locked_out d m :
  members_wf d -> In m (members d) ->
  let d' := fst (admin_deactivate_member true d (m_id m)) in
  let d'' := fst (admin_activate_member true d' (m_id m)) in
  (forall verify ph pin url key value,
      strip ph = phone m ->
      login_member verify d' ph pin <> Redirect_set_cookie url key value)
  /\ (forall today,
         me d' today (Some (str_of_int (m_id m)))
         = Ok (Redirect_clear_cookie "/" ["member_id"%string]))
  /\ member_by_id d'' (m_id m)
     = Some (mkmember (m_id m) (full_name m) (phone m) (pin_hash m)
                      (start_date m) 1 (m_created_at m)).
Proof.
  intros Hwf Hm d' d''.
  assert (Ed' : d' = update_is_active d (m_id m) 0) by reflexivity.
  assert (Ed'' : d'' = update_is_active d' (m_id m) 1) by reflexivity.
  pose proof (update_is_active_wf d (m_id m) 0 Hwf) as Hwf'.
  rewrite <- Ed' in Hwf'.
  pose proof (update_is_active_wf d' (m_id m) 1 Hwf') as Hwf''.
  rewrite <- Ed'' in Hwf''.
  pose proof (update_is_active_row d (m_id m) 0 m Hm eq_refl) as Hrow.
  rewrite <- Ed' in Hrow.
  set (m0 := mkmember (m_id m) (full_name m) (phone m) (pin_hash m)
                      (start_date m) 0 (m_created_at m)) in *.
  pose proof (update_is_active_row d' (m_id m) 1 m0 Hrow eq_refl) as Hrow1.
  rewrite <- Ed'' in Hrow1. cbn [m0 m_id full_name phone pin_hash start_date
                                 m_created_at] in Hrow1.
  destruct Hwf' as (Hids' & Hph' & Hpos').
  destruct Hwf'' as (Hids'' & _ & _).
  assert (Hbyphone : member_by_phone d' (phone m) = Some m0).
  { apply find_unique; [assumption|apply String.eqb_refl|].
    intros y Hy Ey. apply String.eqb_eq in Ey.
    apply (NoDup_map_inj phone (members d')); auto. }
  assert (Hbyid : member_by_id d' (m_id m) = Some m0).
  { apply find_unique; [assumption|apply Z.eqb_refl|].
    intros y Hy Ey. apply Z.eqb_eq in Ey.
    apply (NoDup_map_inj m_id (members d')); auto. }
  repeat match goal with |- _ /\ _ => split end.
  - intros verify ph pin url key value Hph. unfold login_member.
    rewrite Hph, Hbyphone.
    destruct (is_valid_sn_phone (phone m)), (is_valid_pin (strip pin));
      cbn [negb m0 is_active Z.eqb]; discriminate.
  - intros today. unfold me.
    assert (Hpos : 0 <= m_id m).
    { destruct Hwf as (_ & _ & Hp).
      pose proof (proj1 (Forall_forall _ _) Hp m Hm). cbn in *. lia. }
    destruct (format_0d_reads_back 0 (m_id m) Hpos) as (_ & _ & Hreq).
    rewrite Hreq, Hbyid. reflexivity.
  - apply find_unique; [assumption|apply Z.eqb_refl|].
    intros y Hy Ey. apply Z.eqb_eq in Ey.
    apply (NoDup_map_inj m_id (members d'')); auto.
Qed.

Lemma deactivated_member_is_locked_out_witness :
  members_wf inactive_db /\ In member_1 (members inactive_db)
  /\ me (fst (admin_deactivate_member true inactive_db 1)) (mkdate 2025 11 30)
        (Some "1"%string)
     = Ok (Redirect_clear_cookie "/" ["member_id"%string]).
Proof.
  assert (H : members_wf inactive_db).
  { repeat split.
    - repeat constructor; cbn; intuition discriminate.
    - repeat constructor; cbn; intuition discriminate.
    - repeat constructor. }
  assert (Hin : In member_1 (members inactive_db)) by (now left).
  split; [exact H|]. split; [exact Hin|].
  exact (proj1 (proj2 (deactivated_member_is_locked_out inactive_db member_1
                         H Hin))
               (mkdate 2025 11 30)).
Defined.

Lemma find_app_last {A} (f : A -> bool) l x :
  (forall y, In y l -> f y = false) -> f x = true ->
  find f (l ++ [x]) = Some x.
Proof.
  induction l as [|a l IH]; intros Hl Hx; cbn [app find].
  - now rewrite Hx.
  - rewrite (Hl a (or_introl eq_refl)). apply IH; [|assumption].
    intros y Hy. apply Hl. now right.
Qed.

(** X23: a member added by admin_add_member can log in at once.  With a
    phone of nine digits that no member has, a PIN of four digits and a
    start date that parses, the member is appended with the next id,
    active, with the hash of the PIN; login_member with the same phone
    and PIN then sets the "member_id" cookie to that id (given that the
    library verifies a PIN against its own hash), /me with that cookie
    shows the new member, and a second admin_add_member with the same
    phone is answered "Ce téléphone existe déjà." and changes nothing. *)
Theorem added_member_can_log_in
        hash verify d now name ph pin sd today name2 pin2 sd2 :
  is_valid_sn_phone (strip ph) = true ->
  is_valid_pin (strip pin) = true ->
  phone_taken d (strip ph) = false ->
  verify (strip pin) (hash (strip pin)) = true ->
  valid_date sd -> valid_date today ->
  (forall e, project_end_date (settings d) = Some e -> valid_date e) ->
  is_valid_pin (strip pin2) = true ->
  let new_member :=
    mkmember (next_member_id d) (strip name) (strip ph) (hash (strip pin)) sd 1
             now in
  exists d',
    admin_add_member hash true d now name ph pin (Some sd)
    = (d', Redirect "/admin")
    /\ members d' = members d ++ [new_member]
    /\ login_member verify d' ph pin
       = Redirect_set_cookie "/me" "member_id" (str_of_int (next_member_id d))
    /\ (exists st badge pays,
           me d' today (Some (str_of_int (next_member_id d)))
           = Ok (Page_me new_member st badge pays))
    /\ admin_add_member hash true d' now name2 ph pin2 (Some sd2)
       = (d', Render "Erreur" "Ce téléphone existe déjà.").
Proof.
  intros Hph Hpin Htaken Hver Hsd Htoday Hend Hpin2 new_member.
  destruct (next_member_id_above d) as [Hn1 Hn2].
  eexists. split.
  { unfold admin_add_member, insert_member. cbn [negb].
    rewrite Hph, Hpin, Htaken. cbn [negb]. reflexivity. }
  cbn [members settings]. fold new_member.
  split; [reflexivity|].
  assert (Hbyphone : find (fun m => String.eqb (phone m) (strip ph))
                          (members d ++ [new_member]) = Some new_member).
  { apply find_app_last; [|apply String.eqb_refl].
    intros y Hy. apply String.eqb_neq. intros E.
    assert (Hin : In (strip ph) (map phone (members d)))
      by (rewrite <- E; now apply in_map).
    apply phone_taken_spec in Hin. congruence. }
  assert (Hbyid : find (fun m => m_id m =? next_member_id d)
                       (members d ++ [new_member]) = Some new_member).
  { apply find_app_last; [|apply Z.eqb_refl].
    intros y Hy. apply Z.eqb_neq. specialize (Hn2 y Hy). lia. }
  split.
  { unfold login_member, member_by_phone. cbn [members].
    rewrite Hph, Hpin, Hbyphone. cbn [negb new_member is_active pin_hash m_id].
    rewrite Hver. reflexivity. }
  split.
  { unfold me, member_by_id.
    destruct (format_0d_reads_back 0 (next_member_id d) ltac:(lia))
      as (_ & _ & Hreq).
    rewrite Hreq. cbn [members]. rewrite Hbyid.
    cbn [new_member is_active start_date Z.eqb Pos.eqb negb].
    match goal with
    | |- context [member_status ?dd ?mid ?s ?a] =>
        destruct (member_status_total dd mid s a) as [st Hst]
    end; [assumption|apply as_of_date_valid; assumption|].
    rewrite Hst. cbn [bind]. eauto. }
  unfold admin_add_member, insert_member. cbn [negb].
  rewrite Hph, Hpin2. cbn [negb].
  assert (Ht : phone_taken
                 (mkdb (settings d) (members d ++ [new_member]) (payments d)
                       (seq_payments d) (bank_deposits d) (seq_bank_deposits d))
                 (strip ph) = true).
  { apply phone_taken_spec. cbn [members]. rewrite map_app. apply in_app_iff.
    right. now left. }
  now rewrite Ht.
Qed.

Lemma added_member_can_log_in_witness :
  is_valid_sn_phone (strip "781234567") = true
  /\ phone_taken ledger_db (strip "781234567") = false
  /\ login_member String.eqb
       (fst (admin_add_member (fun p => p) true ledger_db "2025-11-02T09:00:00"
               "Fatou" "781234567" "4321" (Some (mkdate 2025 11 2))))
       "781234567" "4321"
     = Redirect_set_cookie "/me" "member_id" "2".
Proof.
  split; [reflexivity|]. split; [reflexivity|].
  assert (He : forall e, project_end_date (settings ledger_db) = Some e ->
                         valid_date e) by (intros e H; discriminate H).
  destruct (added_member_can_log_in (fun p => p) String.eqb ledger_db
              "2025-11-02T09:00:00" "Fatou" "781234567" "4321"
              (mkdate 2025 11 2) (mkdate 2025 11 3) "Fatou" "4321"
              (mkdate 2025 11 2)
              eq_refl eq_refl eq_refl eq_refl eq_refl eq_refl He eq_refl)
    as (d' & H1 & _ & H2 & _).
  rewrite H1. exact H2.
Defined.

(** * Month keys *)

Lemma decimal_digits_fuel f1 :
  forall f2 n acc,
    0 <= n -> n < 2 ^ Z.of_nat (S f1) -> n < 2 ^ Z.of_nat (S f2) ->
    decimal_digits (S f1) n acc = decimal_digits (S f2) n acc.
Proof.
  induction f1 as [|f1 IH]; intros f2 n acc Hn H1 H2.
  - change (2 ^ Z.of_nat 1) with 2 in H1.
    cbn [decimal_digits]. rewrite (Z.div_small n 10) by lia. reflexivity.
  - cbn [decimal_digits].
    destruct (Z.eqb_spec (n / 10) 0) as [E|E]; [reflexivity|].
    destruct f2 as [|f2].
    + change (2 ^ Z.of_nat 1) with 2 in H2. exfalso. apply E.
      apply Z.div_small. lia.
    + rewrite (Nat2Z.inj_succ (S f1)), Z.pow_succ_r in H1 by lia.
      rewrite (Nat2Z.inj_succ (S f2)), Z.pow_succ_r in H2 by lia.
      apply IH.
      * apply Z.div_pos; lia.
      * apply Z.div_lt_upper_bound; lia.
      * apply Z.div_lt_upper_bound; lia.
Qed.

Lemma format_0d_fuel width n f :
  0 <= n < 2 ^ Z.of_nat (S f) ->
  format_0d width n
  = (zeros (width - String.length (decimal_digits (S f) n EmptyString))
     ++ decimal_digits (S f) n EmptyString)%string.
Proof.
  intros [Hn Hf]. unfold format_0d. cbv zeta.
  destruct (Z.ltb_spec n 0); [lia|]. rewrite Z.abs_eq by lia.
  assert (E : decimal_digits (S (Z.to_nat (Z.log2 n))) n EmptyString
              = decimal_digits (S f) n EmptyString).
  { apply decimal_digits_fuel; [assumption| |assumption].
    rewrite Nat2Z.inj_succ, Z2Nat.id by apply Z.log2_nonneg.
    destruct (Z.eq_dec n 0) as [->|Hne]; [reflexivity|].
    apply Z.log2_spec. lia. }
  now rewrite E.
Qed.

Lemma digit_char_0 : digit_char 0 = "0"%char.
Proof. reflexivity. Qed.

Lemma format_0d_4 n : 0 <= n <= 9999 -> format_0d 4 n = digits4 n.
Proof.
  intros Hn. rewrite (format_0d_fuel 4 n 13) by (cbn; lia).
  unfold digits4. cbn [decimal_digits].
  destruct (Z.eqb_spec (n / 10) 0) as [E1|E1].
  { rewrite E1. cbn. reflexivity. }
  destruct (Z.eqb_spec (n / 10 / 10) 0) as [E2|E2].
  { rewrite E2. cbn. reflexivity. }
  destruct (Z.eqb_spec (n / 10 / 10 / 10) 0) as [E3|E3].
  { rewrite E3. cbn. reflexivity. }
  destruct (Z.eqb_spec (n / 10 / 10 / 10 / 10) 0) as [E4|E4].
  { cbn. reflexivity. }
  exfalso. apply E4. rewrite !Z.div_div by lia. apply Z.div_small. lia.
Qed.

Lemma format_0d_2 n : 0 <= n <= 99 -> format_0d 2 n = digits2 n.
Proof.
  intros Hn. rewrite (format_0d_fuel 2 n 6) by (cbn; lia).
  unfold digits2. cbn [decimal_digits].
  destruct (Z.eqb_spec (n / 10) 0) as [E1|E1].
  { rewrite E1. cbn. reflexivity. }
  destruct (Z.eqb_spec (n / 10 / 10) 0) as [E2|E2].
  { cbn. reflexivity. }
  exfalso. apply E2. rewrite !Z.div_div by lia. apply Z.div_small. lia.
Qed.

Lemma digit_char_compare a b :
  0 <= a <= 9 -> 0 <= b <= 9 ->
  Ascii.compare (digit_char a) (digit_char b) = (a ?= b).
Proof.
  intros Ha Hb.
  assert (Ea : a = 0 \/ a = 1 \/ a = 2 \/ a = 3 \/ a = 4 \/ a = 5 \/ a = 6
               \/ a = 7 \/ a = 8 \/ a = 9) by lia.
  assert (Eb : b = 0 \/ b = 1 \/ b = 2 \/ b = 3 \/ b = 4 \/ b = 5 \/ b = 6
               \/ b = 7 \/ b = 8 \/ b = 9) by lia.
  repeat (destruct Ea as [->|Ea]); try subst a;
    repeat (destruct Eb as [->|Eb]); try subst b; reflexivity.
Qed.

Lemma compare_div10 a b :
  (a ?= b)
  = match a / 10 ?= b / 10 with
    | Eq => a mod 10 ?= b mod 10
    | c => c
    end.
Proof.
  pose proof (Z.div_mod a 10 ltac:(lia)). pose proof (Z.div_mod b 10 ltac:(lia)).
  pose proof (Z.mod_pos_bound a 10 ltac:(lia)).
  pose proof (Z.mod_pos_bound b 10 ltac:(lia)).
  destruct (Z.compare_spec (a / 10) (b / 10)).
  - destruct (Z.compare_spec (a mod 10) (b mod 10));
      [apply Z.compare_eq_iff|apply Z.compare_lt_iff|apply Z.compare_gt_iff];
      lia.
  - apply Z.compare_lt_iff. lia.
  - apply Z.compare_gt_iff. lia.
Qed.

Lemma digits4_compare y1 y2 :
  0 <= y1 <= 9999 -> 0 <= y2 <= 9999 ->
  forall s1 s2,
    String.compare (digits4 y1 ++ s1) (digits4 y2 ++ s2)
    = match y1 ?= y2 with
      | Eq => String.compare s1 s2
      | c => c
      end.
Proof.
  intros H1 H2 s1 s2. unfold digits4. cbn [append String.compare].
  assert (B : forall n, 0 <= n mod 10 <= 9)
    by (intros n; pose proof (Z.mod_pos_bound n 10 ltac:(lia)); lia).
  rewrite !digit_char_compare by apply B.
  assert (T : forall y, 0 <= y <= 9999 -> y / 10 / 10 / 10 mod 10 = y / 10 / 10 / 10).
  { intros y Hy. apply Z.mod_small. rewrite !Z.div_div by lia.
    split; [apply Z.div_pos; lia|apply Z.div_lt_upper_bound; lia]. }
  rewrite (T y1 H1), (T y2 H2).
  rewrite (compare_div10 y1 y2), (compare_div10 (y1 / 10) (y2 / 10)),
    (compare_div10 (y1 / 10 / 10) (y2 / 10 / 10)).
  destruct (y1 / 10 / 10 / 10 ?= y2 / 10 / 10 / 10),
    (y1 / 10 / 10 mod 10 ?= y2 / 10 / 10 mod 10),
    (y1 / 10 mod 10 ?= y2 / 10 mod 10), (y1 mod 10 ?= y2 mod 10);
    reflexivity.
Qed.

Lemma digits2_compare m1 m2 :
  0 <= m1 <= 99 -> 0 <= m2 <= 99 ->
  String.compare (digits2 m1) (digits2 m2) = (m1 ?= m2).
Proof.
  intros H1 H2. unfold digits2. cbn [String.compare].
  assert (B : forall n, 0 <= n mod 10 <= 9)
    by (intros n; pose proof (Z.mod_pos_bound n 10 ltac:(lia)); lia).
  rewrite !digit_char_compare by apply B.
  assert (T : forall m, 0 <= m <= 99 -> m / 10 mod 10 = m / 10).
  { intros m Hm. apply Z.mod_small.
    split; [apply Z.div_pos; lia|apply Z.div_lt_upper_bound; lia]. }
  rewrite (T m1 H1), (T m2 H2), (compare_div10 m1 m2).
  destruct (m1 / 10 ?= m2 / 10), (m1 mod 10 ?= m2 mod 10); reflexivity.
Qed.

Lemma string_compare_refl s : String.compare s s = Eq.
Proof.
  induction s as [|c s IH]; cbn [String.compare]; [reflexivity|].
  unfold Ascii.compare. now rewrite N.compare_refl.
Qed.

Lemma ym_key_compare y1 m1 y2 m2 :
  0 <= y1 <= 9999 -> 0 <= y2 <= 9999 -> 0 <= m1 <= 99 -> 0 <= m2 <= 99 ->
  String.compare (ym_key y1 m1) (ym_key y2 m2)
  = match y1 ?= y2 with
    | Eq => m1 ?= m2
    | c => c
    end.
Proof.
  intros Hy1 Hy2 Hm1 Hm2. unfold ym_key.
  rewrite !format_0d_4, !format_0d_2 by assumption.
  rewrite digits4_compare by assumption.
  cbn [append String.compare]. change (Ascii.compare "-" "-") with Eq.
  now rewrite digits2_compare.
Qed.

(** X24: the "YYYY-MM" keys sort like the months they stand for.  For
    years 0..9999 and months 0..99 the key is four digits, a dash and
    two digits, and comparing two keys as texts gives the result of
    comparing the (year, month) pairs; so two different months never
    share a key. *)
Theorem ym_key_order y1 m1 y2 m2 :
  0 <= y1 <= 9999 -> 0 <= y2 <= 9999 -> 0 <= m1 <= 99 -> 0 <= m2 <= 99 ->
  String.length (ym_key y1 m1) = 7%nat
  /\ (String.ltb (ym_key y1 m1) (ym_key y2 m2) = ym_ltb (y1, m1) (y2, m2))
  /\ (ym_key y1 m1 = ym_key y2 m2 -> y1 = y2 /\ m1 = m2).
Proof.
  intros Hy1 Hy2 Hm1 Hm2.
  pose proof (ym_key_compare y1 m1 y2 m2 Hy1 Hy2 Hm1 Hm2) as Hc.
  split; [|split].
  - unfold ym_key. rewrite format_0d_4, format_0d_2 by assumption. reflexivity.
  - unfold String.ltb. rewrite Hc. unfold ym_ltb. cbn [fst snd].
    destruct (Z.compare_spec y1 y2) as [->|Hlt|Hgt].
    + rewrite Z.ltb_irrefl, Z.eqb_refl. cbn [orb andb].
      destruct (Z.compare_spec m1 m2); symmetry;
        [apply Z.ltb_ge|apply Z.ltb_lt|apply Z.ltb_ge]; lia.
    + apply Z.ltb_lt in Hlt. now rewrite Hlt.
    + destruct (Z.ltb_spec y1 y2); [lia|].
      destruct (Z.eqb_spec y1 y2); [lia|]. reflexivity.
  - intros E. rewrite E in Hc.
    rewrite string_compare_refl in Hc.
    destruct (Z.compare_spec y1 y2) as [->|Hlt|Hgt]; try discriminate.
    split; [reflexivity|]. symmetry in Hc. now apply Z.compare_eq_iff in Hc.
Qed.

Lemma ym_key_order_witness :
  0 <= 2025 <= 9999 /\ 0 <= 9 <= 99
  /\ String.ltb (ym_key 2025 9) (ym_key 2025 10) = true.
Proof.
  split; [lia|]. split; [lia|].
  exact (proj1 (proj2 (ym_key_order 2025 9 2025 10 ltac:(lia) ltac:(lia)
                                    ltac:(lia) ltac:(lia)))).
Defined.

Lemma ym_key_ltb y1 m1 y2 m2 :
  0 <= y1 <= 9999 -> 0 <= y2 <= 9999 -> 0 <= m1 <= 99 -> 0 <= m2 <= 99 ->
  String.ltb (ym_key y1 m1) (ym_key y2 m2) = ym_ltb (y1, m1) (y2, m2).
Proof.
  intros Hy1 Hy2 Hm1 Hm2. unfold String.ltb.
  rewrite ym_key_compare by assumption. unfold ym_ltb. cbn [fst snd].
  destruct (Z.compare_spec y1 y2) as [->|Hlt|Hgt].
  - rewrite Z.ltb_irrefl, Z.eqb_refl. cbn [orb andb].
    destruct (Z.compare_spec m1 m2); symmetry;
      [apply Z.ltb_ge|apply Z.ltb_lt|apply Z.ltb_ge]; lia.
  - apply Z.ltb_lt in Hlt. now rewrite Hlt.
  - destruct (Z.ltb_spec y1 y2); [lia|].
    destruct (Z.eqb_spec y1 y2); [lia|]. reflexivity.
Qed.

Lemma dict_mem_keys {V} k (s : dict V) :
  dict_mem k s = true <-> In k (dict_keys s).
Proof.
  unfold dict_mem, dict_keys. rewrite existsb_exists, in_map_iff. split.
  - intros (kv & Hin & E). apply String.eqb_eq in E. eauto.
  - intros (kv & E & Hin). exists kv. split; [assumption|].
    now apply String.eqb_eq.
Qed.

Lemma dict_keys_set_mem {V} k (v : V) s :
  In k (dict_keys s) -> dict_keys (dict_set k v s) = dict_keys s.
Proof.
  induction s as [|[k0 v0] s IH]; intros Hin; [destruct Hin|].
  cbn [dict_set]. destruct (String.eqb_spec k0 k) as [->|Hne]; [reflexivity|].
  cbn [dict_keys map fst] in *. f_equal. apply IH.
  destruct Hin as [E|Hin]; [contradiction|assumption].
Qed.

Lemma dict_keys_set_new {V} k (v : V) s :
  ~ In k (dict_keys s) -> dict_keys (dict_set k v s) = dict_keys s ++ [k].
Proof.
  induction s as [|[k0 v0] s IH]; intros Hin; [reflexivity|].
  cbn [dict_set]. cbn [dict_keys map fst] in Hin.
  destruct (String.eqb_spec k0 k) as [->|Hne]; [exfalso; apply Hin; now left|].
  cbn [dict_keys map fst app]. f_equal. apply IH. intros H. apply Hin. now right.
Qed.

Lemma fold_months_keys (ks : list string) :
  forall s : dict month_stats,
    NoDup (dict_keys s ++ ks) ->
    dict_keys (fold_left (fun s k' => dict_set k' zero_stats s) ks s)
    = dict_keys s ++ ks.
Proof.
  induction ks as [|k ks IH]; intros s Hnd; cbn [fold_left].
  - now rewrite app_nil_r.
  - assert (Hk : ~ In k (dict_keys s)).
    { intros Hin. apply NoDup_remove_2 in Hnd. apply Hnd.
      apply in_app_iff. now left. }
    rewrite IH; rewrite dict_keys_set_new by assumption.
    + now rewrite <- app_assoc.
    + now rewrite <- app_assoc.
Qed.

Lemma stats_add_row_keys s r :
  In (r_ym r) (dict_keys s) -> dict_keys (stats_add_row s r) = dict_keys s.
Proof.
  intros Hin. unfold stats_add_row.
  rewrite (proj2 (dict_mem_keys (r_ym r) s) Hin). cbn [negb].
  now apply dict_keys_set_mem.
Qed.

Lemma fold_rows_keys rows :
  forall s,
    (forall r, In r rows -> In (r_ym r) (dict_keys s)) ->
    dict_keys (fold_left stats_add_row rows s) = dict_keys s.
Proof.
  induction rows as [|r rows IH]; intros s Hin; cbn [fold_left]; [reflexivity|].
  rewrite IH.
  - apply stats_add_row_keys. apply Hin. now left.
  - intros r' Hr'. rewrite stats_add_row_keys by (apply Hin; now left).
    apply Hin. now right.
Qed.

Lemma StronglySorted_map {A B} (R : A -> A -> Prop) (R' : B -> B -> Prop)
      (f : A -> B) l :
  (forall a b, In a l -> In b l -> R a b -> R' (f a) (f b)) ->
  StronglySorted R l -> StronglySorted R' (map f l).
Proof.
  intros HR Hs. induction Hs as [|a l Hs IH Hall]; cbn [map]; constructor.
  - apply IH. intros x y Hx Hy. apply HR; now right.
  - apply Forall_forall. intros y Hy. apply in_map_iff in Hy as (x & <- & Hx).
    apply HR; [now left|now right|].
    now apply (proj1 (Forall_forall _ _) Hall).
Qed.

Lemma StronglySorted_ltb_NoDup l :
  StronglySorted (fun a b => String.ltb a b = true) l -> NoDup l.
Proof.
  induction 1 as [|a l Hs IH Hall]; constructor; [|assumption].
  intros Hin. pose proof (proj1 (Forall_forall _ _) Hall a Hin) as H.
  unfold String.ltb in H. rewrite string_compare_refl in H. discriminate.
Qed.

(* The months of the sequence from the month of a valid date to the
   month of a later valid date have their year within 1..9999. *)
Lemma month_seq_year_bounds y m ey em ym :
  1 <= y <= 9999 -> 1 <= m <= 12 -> 1 <= ey <= 9999 -> 1 <= em <= 12 ->
  In ym (month_seq (months_fuel (y, m) (ey, em)) y m) ->
  1 <= fst ym <= 9999 /\ 1 <= snd ym <= 12.
Proof.
  intros Hy Hm Hey Hem Hin. apply month_seq_in in Hin; [|assumption].
  unfold months_fuel, ym_index in Hin. cbn [fst snd] in Hin. lia.
Qed.

(** X25: the monthly collection table is in chronological order as long
    as no counted payment is dated before the month of the start date.
    With valid dates, when every payment dated up to the as-of date has
    a valid date in the start month or later, the keys of the table are
    exactly the keys of ym_list, one per month from the start month to
    the as-of month, in strictly increasing order. *)
Theorem monthly_collection_stats_chronological d asof :
  valid_date (project_start_date (settings d)) -> valid_date asof ->
  (forall p, In p (payments d) -> date_leb (pay_date p) asof = true ->
             valid_date (pay_date p)
             /\ ym_ltb (year (pay_date p), month (pay_date p))
                       (year (project_start_date (settings d)),
                        month (project_start_date (settings d))) = false) ->
  exists keys stats,
    ym_list (project_start_date (settings d)) asof = Ok keys
    /\ monthly_collection_stats d asof = Ok stats
    /\ dict_keys stats = keys
    /\ StronglySorted (fun a b => String.ltb a b = true) keys
    /\ Z.of_nat (List.length keys)
       = Z.max 0 (ym_index (year asof, month asof)
                  - ym_index (year (project_start_date (settings d)),
                              month (project_start_date (settings d))) + 1).
Proof.
  intros Hs Ha Hpay. set (start := project_start_date (settings d)) in *.
  pose proof (valid_date_bounds _ Hs) as (Bsy & Bsm & _).
  pose proof (valid_date_bounds _ Ha) as (Bay & Bam & _).
  set (months := month_seq (months_fuel (year start, month start)
                                        (year asof, month asof))
                           (year start) (month start)).
  set (keys := map (fun ym => ym_key (fst ym) (snd ym)) months).
  assert (Hsorted : StronglySorted (fun a b => String.ltb a b = true) keys).
  { unfold keys.
    apply (StronglySorted_map (fun a b => ym_ltb a b = true)).
    - intros [y1 m1] [y2 m2] H1 H2 Hlt. cbn [fst snd].
      apply month_seq_year_bounds in H1; try assumption.
      apply month_seq_year_bounds in H2; try assumption.
      cbn [fst snd] in H1, H2.
      rewrite ym_key_ltb by lia. exact Hlt.
    - now apply month_seq_sorted. }
  exists keys. eexists. split.
  { unfold ym_list. rewrite months_between_seq by assumption. reflexivity. }
  split.
  { unfold monthly_collection_stats, ym_list. fold start.
    rewrite months_between_seq by assumption. reflexivity. }
  fold months. fold keys.
  assert (Hk0 : dict_keys (fold_left (fun s k' => dict_set k' zero_stats s)
                                     keys []) = keys).
  { rewrite fold_months_keys; [reflexivity|].
    cbn [dict_keys map app]. now apply StronglySorted_ltb_NoDup. }
  split; [|split; [assumption|]].
  - rewrite fold_rows_keys; [exact Hk0|].
    intros r Hr. rewrite Hk0.
    assert (Hex : existsb (fun r' => String.eqb (r_ym r') (r_ym r))
                          (select_monthly_rows d asof) = true).
    { apply existsb_exists. exists r. split; [assumption|apply String.eqb_refl]. }
    apply select_monthly_rows_keys in Hex as (p & Hp & Hle & <-).
    destruct (Hpay p Hp Hle) as (Hv & Hnb).
    pose proof (valid_date_bounds _ Hv) as (Bpy & Bpm & _).
    unfold keys, pay_ym. apply in_map_iff.
    exists (year (pay_date p), month (pay_date p)). split; [reflexivity|].
    apply month_seq_complete; [assumption|cbn [snd]; assumption|].
    rewrite ym_ltb_index in Hnb by (cbn [snd]; assumption).
    apply Z.ltb_ge in Hnb.
    assert (Hnl : date_ltb asof (pay_date p) = false)
      by (unfold date_leb in Hle; now apply negb_true_iff in Hle).
    assert (Hidx : ym_index (year (pay_date p), month (pay_date p))
                   <= ym_index (year asof, month asof)).
    { destruct (date_ltb_trichotomy asof (pay_date p)) as [H|[H|H]].
      - congruence.
      - subst. lia.
      - apply date_ltb_spec in H. unfold ym_index. cbn [fst snd]. lia. }
    unfold months_fuel, ym_index in *. cbn [fst snd] in *. lia.
  - unfold keys. rewrite length_map. unfold months.
    rewrite month_seq_length. unfold months_fuel, ym_index. cbn [fst snd]. lia.
Qed.

Lemma ledger_db_payments_in_range :
  forall p, In p (payments ledger_db) ->
            date_leb (pay_date p) (mkdate 2025 12 5) = true ->
            valid_date (pay_date p)
            /\ ym_ltb (year (pay_date p), month (pay_date p))
                      (year (project_start_date (settings ledger_db)),
                       month (project_start_date (settings ledger_db))) = false.
Proof.
  intros p [<-|[]] _. split; reflexivity.
Qed.

Lemma monthly_collection_stats_chronological_witness :
  valid_date (project_start_date (settings ledger_db))
  /\ valid_date (mkdate 2025 12 5)
  /\ exists keys stats,
      monthly_collection_stats ledger_db (mkdate 2025 12 5) = Ok stats
      /\ dict_keys stats = keys
      /\ List.length keys = 3%nat.
Proof.
  split; [reflexivity|]. split; [reflexivity|].
  destruct (monthly_collection_stats_chronological
              ledger_db (mkdate 2025 12 5) eq_refl eq_refl
              ledger_db_payments_in_range)
    as (keys & stats & _ & H2 & H3 & _ & H5).
  exists keys, stats. split; [assumption|]. split; [assumption|].
  apply Nat2Z.inj. rewrite H5. reflexivity.
Defined.

(** ** The accounting page *)

Lemma insert_by_sum {A} (le : A -> A -> bool) (f : A -> Z) x l :
  sum_Z (map f (insert_by le x l)) = f x + sum_Z (map f l).
Proof.
  unfold sum_Z. induction l as [|y l IH]; cbn [insert_by map fold_right];
    [reflexivity|].
  destruct (le x y); cbn [map fold_right]; lia.
Qed.

Lemma order_by_sum {A} (le : A -> A -> bool) (f : A -> Z) l :
  sum_Z (map f (order_by le l)) = sum_Z (map f l).
Proof.
  induction l as [|x l IH]; cbn [order_by fold_right]; [reflexivity|].
  fold (order_by le l). rewrite insert_by_sum, IH. reflexivity.
Qed.

Lemma insert_by_sorted_total {A} (le : A -> A -> bool) x l :
  (forall a b, le a b = false -> le b a = true) ->
  (forall a b c, le a b = true -> le b c = true -> le a c = true) ->
  StronglySorted (fun a b => le a b = true) l ->
  StronglySorted (fun a b => le a b = true) (insert_by le x l).
Proof.
  intros Htot Htr. induction 1 as [|y l Hs IH Hall]; cbn [insert_by].
  - repeat constructor.
  - destruct (le x y) eqn:E.
    + constructor; [now constructor|]. constructor; [assumption|].
      apply Forall_forall. intros z Hz.
      apply (Htr x y z E). now apply (proj1 (Forall_forall _ _) Hall).
    + constructor; [assumption|].
      apply Forall_forall. intros z Hz. apply insert_by_In in Hz as [->|Hz].
      * now apply Htot.
      * now apply (proj1 (Forall_forall _ _) Hall).
Qed.

Lemma order_by_sorted_total {A} (le : A -> A -> bool) l :
  (forall a b, le a b = false -> le b a = true) ->
  (forall a b c, le a b = true -> le b c = true -> le a c = true) ->
  StronglySorted (fun a b => le a b = true) (order_by le l).
Proof.
  intros Htot Htr. induction l as [|x l IH]; cbn [order_by fold_right];
    [constructor|].
  now apply insert_by_sorted_total.
Qed.

Lemma date_eqb_eq a b : date_eqb a b = true <-> a = b.
Proof.
  unfold date_eqb. rewrite !andb_true_iff, !Z.eqb_eq.
  destruct a, b; cbn [year month day]. split.
  - intros [[-> ->] ->]. reflexivity.
  - intros [= -> -> ->]. auto.
Qed.

(* Newest first, then highest id first: a total order on the rows. *)
Lemma desc_total (da db : date) (ia ib : Z) :
  date_ltb db da || (date_eqb da db && (ib <=? ia)) = false ->
  date_ltb da db || (date_eqb db da && (ia <=? ib)) = true.
Proof.
  intros H. apply orb_false_iff in H as [H1 H2].
  destruct (date_ltb_trichotomy da db) as [T|[T|T]].
  - now rewrite T.
  - subst db. rewrite (proj2 (date_eqb_eq da da) eq_refl) in *.
    cbn [andb] in *. apply Z.leb_gt in H2.
    rewrite (proj2 (Z.leb_le ia ib)) by lia. apply orb_true_r.
  - congruence.
Qed.

Lemma desc_trans (da db dc : date) (ia ib ic : Z) :
  date_ltb db da || (date_eqb da db && (ib <=? ia)) = true ->
  date_ltb dc db || (date_eqb db dc && (ic <=? ib)) = true ->
  date_ltb dc da || (date_eqb da dc && (ic <=? ia)) = true.
Proof.
  intros H1 H2.
  apply orb_true_iff in H1 as [H1|H1], H2 as [H2|H2].
  - rewrite (date_ltb_trans _ _ _ H2 H1). reflexivity.
  - apply andb_true_iff in H2 as [E _]. apply date_eqb_eq in E. subst dc.
    now rewrite H1.
  - apply andb_true_iff in H1 as [E _]. apply date_eqb_eq in E. subst db.
    now rewrite H2.
  - apply andb_true_iff in H1 as [E1 L1]. apply andb_true_iff in H2 as [E2 L2].
    apply date_eqb_eq in E1, E2. subst db dc.
    rewrite (proj2 (date_eqb_eq da da) eq_refl). cbn [andb].
    apply Z.leb_le in L1, L2. rewrite (proj2 (Z.leb_le ic ia)) by lia.
    apply orb_true_r.
Qed.

Lemma filter_filter {A} (f g : A -> bool) l :
  filter f (filter g l) = filter (fun x => g x && f x) l.
Proof.
  induction l as [|x l IH]; cbn [filter]; [reflexivity|].
  destruct (g x); cbn [filter andb]; [destruct (f x)|]; now rewrite IH.
Qed.

(* With distinct member ids the JOIN pairs a payment with one member,
   or with none when its member id is unknown. *)
Lemma filter_id_unique (ms : list member) k :
  NoDup (map m_id ms) ->
  if existsb (fun m => m_id m =? k) ms
  then exists m, filter (fun m => m_id m =? k) ms = [m]
  else filter (fun m => m_id m =? k) ms = [].
Proof.
  induction ms as [|m ms IH]; intros Hnd; cbn [existsb filter map] in *;
    [reflexivity|].
  inversion Hnd as [|? ? Hnotin Hnd']; subst.
  specialize (IH Hnd').
  destruct (Z.eqb_spec (m_id m) k) as [E|E]; cbn [orb].
  - exists m. f_equal.
    destruct (existsb (fun m0 => m_id m0 =? k) ms) eqn:Ex; [|assumption].
    exfalso. apply existsb_exists in Ex as (m' & Hin & E').
    apply Z.eqb_eq in E'. apply Hnotin. rewrite E, <- E'. now apply in_map.
  - exact IH.
Qed.

Lemma join_sum (d : db) (ps : list payment) :
  NoDup (map m_id (members d)) ->
  sum_amounts ps
  = sum_Z (map j_amount
               (flat_map
                  (fun p => map (journal_row_of p)
                                (filter (fun m => m_id m =? member_id p)
                                        (members d)))
                  ps))
    + sum_amounts (filter (fun p => negb (member_exists d (member_id p))) ps).
Proof.
  intros Hnd. induction ps as [|p ps IH]; [reflexivity|].
  cbn [flat_map filter]. rewrite map_app.
  assert (Happ : forall l1 l2, sum_Z (l1 ++ l2) = sum_Z l1 + sum_Z l2).
  { unfold sum_Z. induction l1; intros; cbn [app fold_right];
      [reflexivity|]. rewrite IHl1. lia. }
  rewrite Happ. pose proof (filter_id_unique (members d) (member_id p) Hnd) as H.
  unfold member_exists.
  destruct (existsb (fun m => m_id m =? member_id p) (members d)); cbn [negb].
  - destruct H as (m & ->). unfold sum_amounts in *. cbn [map fold_right sum_Z].
    unfold journal_row_of at 1. cbn [j_amount]. rewrite IH.
    unfold member_exists. lia.
  - rewrite H. unfold sum_amounts in *. cbn [map fold_right sum_Z].
    rewrite IH. unfold member_exists. lia.
Qed.

Lemma sum_deposits_map l : sum_deposits l = sum_Z (map b_amount l).
Proof.
  unfold sum_deposits, sum_Z. induction l as [|b l IH]; cbn [map fold_right];
    [reflexivity|now rewrite IH].
Qed.

(* Within the calendar range a month key names one month. *)
Lemma ym_key_eqb y1 m1 y2 m2 :
  0 <= y1 <= 9999 -> 0 <= y2 <= 9999 -> 0 <= m1 <= 99 -> 0 <= m2 <= 99 ->
  String.eqb (ym_key y1 m1) (ym_key y2 m2) = (y1 =? y2) && (m1 =? m2).
Proof.
  intros Hy1 Hy2 Hm1 Hm2.
  pose proof (ym_key_compare y1 m1 y2 m2 Hy1 Hy2 Hm1 Hm2) as Hc.
  destruct (String.eqb_spec (ym_key y1 m1) (ym_key y2 m2)) as [E|E].
  - rewrite E, string_compare_refl in Hc.
    destruct (Z.compare_spec y1 y2) as [->|Hlt|Hgt]; try discriminate.
    symmetry in Hc. apply Z.compare_eq_iff in Hc. subst.
    now rewrite !Z.eqb_refl.
  - destruct (Z.eqb_spec y1 y2) as [->|Hy]; [|reflexivity].
    destruct (Z.eqb_spec m1 m2) as [->|Hm]; [|reflexivity].
    now contradiction E.
Qed.

Lemma filter_month_payments (ps : list payment) an mo :
  Forall (fun p => valid_date (pay_date p)) ps ->
  0 <= an <= 9999 -> 0 <= mo <= 99 ->
  filter (fun p => String.eqb (pay_ym p) (ym_key an mo)) ps
  = filter (fun p => (year (pay_date p) =? an) && (month (pay_date p) =? mo))
           ps.
Proof.
  intros Hv Han Hmo. apply filter_ext_in. intros p Hp.
  pose proof (proj1 (Forall_forall _ _) Hv p Hp) as Hd.
  apply valid_date_bounds in Hd as (Hy & Hm & _).
  unfold pay_ym. apply ym_key_eqb; lia.
Qed.

Lemma filter_month_deposits (bs : list bank_deposit) an mo :
  Forall (fun b => valid_date (dep_date b)) bs ->
  0 <= an <= 9999 -> 0 <= mo <= 99 ->
  filter (fun b => String.eqb (dep_ym b) (ym_key an mo)) bs
  = filter (fun b => (year (dep_date b) =? an) && (month (dep_date b) =? mo))
           bs.
Proof.
  intros Hv Han Hmo. apply filter_ext_in. intros b Hb.
  pose proof (proj1 (Forall_forall _ _) Hv b Hb) as Hd.
  apply valid_date_bounds in Hd as (Hy & Hm & _).
  unfold dep_ym. apply ym_key_eqb; lia.
Qed.

(** X26: the month, the journal and the totals of the accounting page.
    The page is the one of the requested month and year, or of the month
    and the year of the as-of date where 0 is requested.  With valid
    dates and distinct member ids, the journal lists, newest first, the
    payments dated in that month whose member exists, one row per
    payment, and the bank rows are the deposits dated in that month,
    newest first; the totals count every payment of the month, so the
    month's total is the sum of the journal plus the payments of the
    month recorded for an unknown member, which the journal does not
    show; the bank total is the sum of the bank rows, the members offered
    are the active ones, and the three figures of the ledger are those
    of the as-of date. *)
Theorem admin_comptabilite_journal_and_totals d today mois annee :
  NoDup (map m_id (members d)) ->
  valid_date today ->
  (forall e, project_end_date (settings d) = Some e -> valid_date e) ->
  0 <= mois <= 99 -> 0 <= annee <= 9999 ->
  Forall (fun p => valid_date (pay_date p)) (payments d) ->
  Forall (fun b => valid_date (dep_date b)) (bank_deposits d) ->
  let asof := as_of_date (settings d) today in
  let mo := if mois =? 0 then month asof else mois in
  let an := if annee =? 0 then year asof else annee in
  let in_month (dt : date) := (year dt =? an) && (month dt =? mo) in
  exists pg,
    admin_comptabilite true d today mois annee = inr pg
    /\ c_mois pg = mo /\ c_annee pg = an /\ c_ym pg = ym_key an mo
    /\ (forall j,
           In j (c_journal pg)
           <-> exists p m,
                 In p (payments d) /\ In m (members d)
                 /\ m_id m = member_id p
                 /\ year (pay_date p) = an /\ month (pay_date p) = mo
                 /\ j = journal_row_of p m)
    /\ StronglySorted (fun a b => journal_desc a b = true) (c_journal pg)
    /\ t_total (c_totals pg)
       = sum_amounts (filter (fun p => in_month (pay_date p)) (payments d))
    /\ t_total (c_totals pg)
       = sum_Z (map j_amount (c_journal pg))
         + sum_amounts
             (filter (fun p => in_month (pay_date p)
                               && negb (member_exists d (member_id p)))
                     (payments d))
    /\ (forall b,
           In b (c_bank_rows pg)
           <-> In b (bank_deposits d)
               /\ year (dep_date b) = an /\ month (dep_date b) = mo)
    /\ StronglySorted (fun a b => deposit_desc a b = true) (c_bank_rows pg)
    /\ c_bank_total pg = sum_Z (map b_amount (c_bank_rows pg))
    /\ (forall x,
           In x (c_members pg)
           <-> exists m, In m (members d) /\ is_active m = 1
                         /\ x = (m_id m, full_name m, phone m))
    /\ c_collected_all pg = total_collected_as_of d asof
    /\ c_deposited_all pg = total_deposited_as_of d asof
    /\ c_available_bank pg
       = Z.max 0 (total_collected_as_of d asof - total_deposited_as_of d asof)
    /\ (Forall payment_wf (payments d) ->
        t_total (c_totals pg)
        = t_wave_total (c_totals pg) + t_om_total (c_totals pg)
          + t_cash_total (c_totals pg)).
Proof.
  intros Hnd Ht He Hmois Hannee Hvp Hvb asof mo an in_month.
  pose proof (as_of_date_valid (settings d) today Ht He) as Ha.
  apply valid_date_bounds in Ha as (Hay & Ham & _). fold asof in Hay, Ham.
  assert (Hmo : 0 <= mo <= 99) by (unfold mo; destruct (mois =? 0); lia).
  assert (Han : 0 <= an <= 9999) by (unfold an; destruct (annee =? 0); lia).
  unfold admin_comptabilite. cbn [negb]. cbv zeta.
  fold asof. fold mo. fold an.
  eexists. split; [reflexivity|].
  cbn [c_mois c_annee c_ym c_journal c_totals c_bank_total c_bank_rows
       c_members c_collected_all c_deposited_all c_available_bank].
  unfold join_journal.
  rewrite (filter_month_payments (payments d) an mo Hvp Han Hmo).
  rewrite (filter_month_deposits (bank_deposits d) an mo Hvb Han Hmo).
  fold in_month.
  split; [reflexivity|]. split; [reflexivity|]. split; [reflexivity|].
  split.
  { intros j. rewrite order_by_In, in_flat_map. split.
    - intros (p & Hp & Hj). apply filter_In in Hp as [Hp Hk].
      apply andb_true_iff in Hk as [Hy Hm]. apply Z.eqb_eq in Hy, Hm.
      apply in_map_iff in Hj as (m & <- & Hm').
      apply filter_In in Hm' as [Hm' E]. apply Z.eqb_eq in E.
      exists p, m. auto 10.
    - intros (p & m & Hp & Hm & E & Hy & Hmm & ->). exists p. split.
      + apply filter_In. split; [assumption|]. unfold in_month.
        apply andb_true_iff. split; now apply Z.eqb_eq.
      + apply in_map. apply filter_In. split; [assumption|].
        now apply Z.eqb_eq. }
  split.
  { apply order_by_sorted_total.
    - intros a b. apply desc_total.
    - intros a b c. apply desc_trans. }
  split; [reflexivity|].
  split.
  { rewrite order_by_sum. unfold select_mode_totals. cbn [t_total].
    rewrite (join_sum d _ Hnd). now rewrite filter_filter. }
  split.
  { intros b. rewrite order_by_In, filter_In. unfold in_month.
    rewrite andb_true_iff, !Z.eqb_eq. tauto. }
  split.
  { apply order_by_sorted_total.
    - intros a b. apply desc_total.
    - intros a b c. apply desc_trans. }
  split; [rewrite order_by_sum; apply sum_deposits_map|].
  split.
  { intros x. rewrite in_map_iff. split.
    - intros (m & <- & Hm). apply order_by_In, filter_In in Hm as [Hm E].
      apply Z.eqb_eq in E. eauto.
    - intros (m & Hm & E & ->). exists m. split; [reflexivity|].
      apply order_by_In, filter_In. split; [assumption|now apply Z.eqb_eq]. }
  split; [reflexivity|]. split; [reflexivity|]. split; [reflexivity|].
  intros Hwf. unfold select_mode_totals.
  cbn [t_total t_wave_total t_om_total t_cash_total].
  apply sum_amounts_by_mode.
  apply Forall_forall. intros p Hp. apply filter_In in Hp as [Hp _].
  now apply (proj1 (Forall_forall _ _) Hwf).
Qed.

Lemma orphan_db_ready :
  NoDup (map m_id (members orphan_db))
  /\ (forall e, project_end_date (settings orphan_db) = Some e -> valid_date e)
  /\ Forall (fun p => valid_date (pay_date p)) (payments orphan_db)
  /\ Forall (fun b => valid_date (dep_date b)) (bank_deposits orphan_db).
Proof.
  split; [repeat constructor; intros []|].
  split; [intros e H; discriminate H|].
  split; repeat constructor.
Qed.

Lemma admin_comptabilite_journal_and_totals_witness :
  NoDup (map m_id (members orphan_db))
  /\ valid_date (mkdate 2025 11 5)
  /\ 0 <= 10 <= 99 /\ 0 <= 2025 <= 9999
  /\ exists pg,
      admin_comptabilite true orphan_db (mkdate 2025 11 5) 10 2025 = inr pg
      /\ c_ym pg = "2025-10"%string
      /\ t_total (c_totals pg) = 105000
      /\ sum_Z (map j_amount (c_journal pg)) = 100000.
Proof.
  destruct orphan_db_ready as (Hnd & He & Hvp & Hvb).
  split; [exact Hnd|]. split; [reflexivity|].
  split; [lia|]. split; [lia|].
  destruct (admin_comptabilite_journal_and_totals
              orphan_db (mkdate 2025 11 5) 10 2025 Hnd eq_refl He
              ltac:(lia) ltac:(lia) Hvp Hvb)
    as (pg & H1 & _ & _ & H4 & _ & _ & H7 & H8 & _).
  exists pg. split; [exact H1|]. split; [exact (eq_trans H4 eq_refl)|].
  split; [exact (eq_trans H7 eq_refl)|].
  pose proof (eq_trans (eq_sym H8) H7) as E.
  change (sum_Z (map j_amount (c_journal pg)) + 5000 = 105000) in E.
  lia.
Defined.

(** ** The project summary *)

(* The entry the table holds for a month key: the sums of the payments
   of that month among those counted. *)
Lemma stats_table_entries d asof (months : list string) k st :
  In (k, st)
     (fold_left stats_add_row (select_monthly_rows d asof)
                (fold_left (fun s k' => dict_set k' zero_stats s) months [])) ->
  let g := filter (fun p => String.eqb (pay_ym p) k)
                  (filter (fun p => date_leb (pay_date p) asof) (payments d)) in
  st = mkstats (sum_amounts g) (sum_mode "wave" g) (sum_mode "om" g)
               (sum_mode "cash" g).
Proof.
  intros Hin g. apply fold_rows_In in Hin.
  2:{ apply fold_nodup; [intros; now apply dict_keys_set_nodup|constructor]. }
  destruct Hin as [(r & Hr & Hk & ->)|[Hin Hno]].
  - unfold select_monthly_rows in Hr.
    apply in_map_iff in Hr as (k0 & <- & _). cbn [r_ym] in Hk. subst k0.
    reflexivity.
  - apply fold_months_zero in Hin; [|constructor|intros ? ? []]. subst st.
    assert (Hg : g = []).
    { unfold g. destruct (filter _ _) as [|p l] eqn:E; [reflexivity|].
      exfalso.
      assert (Hp : In p (filter (fun p => String.eqb (pay_ym p) k)
                           (filter (fun p => date_leb (pay_date p) asof)
                                   (payments d))))
        by (rewrite E; now left).
      apply filter_In in Hp as [Hp Hk]. apply filter_In in Hp as [Hp Hle].
      apply String.eqb_eq in Hk.
      assert (Hex : existsb (fun r => String.eqb (r_ym r) k)
                            (select_monthly_rows d asof) = true)
        by (apply select_monthly_rows_keys; eauto).
      apply existsb_exists in Hex as (r & Hr & Hrk).
      apply String.eqb_eq in Hrk. exact (Hno r Hr Hrk). }
    rewrite Hg. reflexivity.
Qed.

Lemma stats_table_covers d asof (months : list string) p :
  In p (payments d) -> date_leb (pay_date p) asof = true ->
  In (pay_ym p)
     (dict_keys
        (fold_left stats_add_row (select_monthly_rows d asof)
                   (fold_left (fun s k' => dict_set k' zero_stats s)
                              months []))).
Proof.
  intros Hp Hle. apply dict_mem_keys. rewrite fold_rows_mem.
  apply orb_true_iff. left. apply select_monthly_rows_keys. eauto.
Qed.

Lemma dict_get_In {V} k (v : V) s :
  NoDup (dict_keys s) -> In (k, v) s -> dict_get k s = Some v.
Proof.
  induction s as [|[k0 v0] s IH]; intros Hnd Hin; [destruct Hin|].
  cbn [dict_keys map fst] in Hnd. inversion Hnd as [|? ? Hnotin Hnd']; subst.
  cbn [dict_get]. destruct Hin as [[= -> ->]|Hin].
  - now rewrite String.eqb_refl.
  - destruct (String.eqb_spec k0 k) as [->|Hne]; [|now apply IH].
    exfalso. apply Hnotin. apply in_map_iff. now exists (k, v).
Qed.

(* Reading the table back label by label never meets a missing key. *)
Lemma series_of_keys (field : month_stats -> Z) (s : dict month_stats) :
  NoDup (dict_keys s) ->
  forall l, (forall kv, In kv l -> In kv s) ->
            series field s (map fst l)
            = Some (map (fun kv => field (snd kv)) l).
Proof.
  intros Hnd. induction l as [|[k v] l IH]; intros Hin; [reflexivity|].
  cbn [map fst series snd].
  rewrite (dict_get_In k v s Hnd) by (apply Hin; now left).
  rewrite IH by (intros; apply Hin; now right). reflexivity.
Qed.

Lemma sum_indicator_out (k0 : string) (a : Z) (g : string -> Z) ks :
  ~ In k0 ks ->
  sum_Z (map (fun k => (if String.eqb k0 k then a else 0) + g k) ks)
  = sum_Z (map g ks).
Proof.
  unfold sum_Z. induction ks as [|k ks IH]; intros Hn; cbn [map fold_right];
    [reflexivity|].
  destruct (String.eqb_spec k0 k) as [->|Hne]; [exfalso; apply Hn; now left|].
  rewrite IH by (intros H; apply Hn; now right). lia.
Qed.

Lemma sum_indicator_in (k0 : string) (a : Z) (g : string -> Z) ks :
  NoDup ks -> In k0 ks ->
  sum_Z (map (fun k => (if String.eqb k0 k then a else 0) + g k) ks)
  = a + sum_Z (map g ks).
Proof.
  induction 1 as [|k ks Hnotin Hnd IH]; intros Hin; [destruct Hin|].
  cbn [map]. unfold sum_Z in *. cbn [fold_right].
  destruct Hin as [->|Hin].
  - rewrite String.eqb_refl.
    pose proof (sum_indicator_out k0 a g ks Hnotin) as E. unfold sum_Z in E.
    rewrite E. lia.
  - destruct (String.eqb_spec k0 k) as [->|Hne]; [contradiction|].
    rewrite IH by assumption. lia.
Qed.

(* The groups by month key split a list of payments. *)
Lemma sum_amounts_partition ks l :
  NoDup ks -> (forall p, In p l -> In (pay_ym p) ks) ->
  sum_Z (map (fun k => sum_amounts
                         (filter (fun p => String.eqb (pay_ym p) k) l)) ks)
  = sum_amounts l.
Proof.
  intros Hnd. induction l as [|p l IH]; intros Hin.
  - cbn [filter]. unfold sum_amounts, sum_Z. cbn [fold_right].
    induction ks as [|k ks IHk]; cbn [map fold_right]; [reflexivity|].
    inversion Hnd; subst. now rewrite IHk.
  - rewrite (map_ext _ (fun k => (if String.eqb (pay_ym p) k then amount p
                                  else 0)
                                 + sum_amounts
                                     (filter (fun p => String.eqb (pay_ym p) k)
                                             l))).
    2:{ intros k. cbn [filter]. destruct (String.eqb (pay_ym p) k);
          unfold sum_amounts; cbn [fold_right]; lia. }
    rewrite sum_indicator_in; [|assumption|apply Hin; now left].
    rewrite IH by (intros; apply Hin; now right).
    unfold sum_amounts. cbn [fold_right]. reflexivity.
Qed.

Lemma sum_mode_group md k l :
  sum_mode md (filter (fun p => String.eqb (pay_ym p) k) l)
  = sum_amounts (filter (fun p => String.eqb (pay_ym p) k)
                        (filter (fun p => String.eqb (mode p) md) l)).
Proof.
  unfold sum_mode. rewrite !filter_filter. f_equal.
  apply filter_ext. intros p. apply andb_comm.
Qed.

(** X27: the chart data of the summary page add up to its figures.
    With valid dates admin_resume returns its page, no label misses its
    entry, each series has one value per label, and the monthly totals
    add up to the total collected shown on the page, as the wave, om and
    cash series add up to the totals by mode; payments dated before the
    start date are counted in both. *)
Theorem admin_resume_series_add_up d today :
  valid_date (project_start_date (settings d)) -> valid_date today ->
  (forall e, project_end_date (settings d) = Some e -> valid_date e) ->
  exists pg,
    admin_resume true d today = inr (inr pg)
    /\ NoDup (r_labels pg)
    /\ List.length (r_totals pg) = List.length (r_labels pg)
    /\ List.length (r_wave pg) = List.length (r_labels pg)
    /\ List.length (r_om pg) = List.length (r_labels pg)
    /\ List.length (r_cash pg) = List.length (r_labels pg)
    /\ sum_Z (r_totals pg) = r_collected pg
    /\ t_total (r_modes pg) = r_collected pg
    /\ sum_Z (r_wave pg) = t_wave_total (r_modes pg)
    /\ sum_Z (r_om pg) = t_om_total (r_modes pg)
    /\ sum_Z (r_cash pg) = t_cash_total (r_modes pg).
Proof.
  intros Hs Ht He.
  pose proof (as_of_date_valid (settings d) today Ht He) as Ha.
  unfold admin_resume. cbn [negb]. cbv zeta.
  set (asof := as_of_date (settings d) today) in *.
  unfold monthly_collection_stats, ym_list.
  rewrite months_between_seq by assumption. cbn [bind].
  set (months := map (fun ym => ym_key (fst ym) (snd ym)) _).
  set (stats := fold_left stats_add_row (select_monthly_rows d asof)
                          (fold_left (fun s k => dict_set k zero_stats s)
                                     months [])).
  set (ps := filter (fun p => date_leb (pay_date p) asof) (payments d)).
  assert (Hnd : NoDup (dict_keys stats)).
  { apply fold_nodup; [apply stats_add_row_nodup|].
    apply fold_nodup; [intros; now apply dict_keys_set_nodup|]. constructor. }
  assert (Hcov : forall p, In p ps -> In (pay_ym p) (dict_keys stats)).
  { intros p Hp. apply filter_In in Hp as [Hp Hle].
    now apply stats_table_covers. }
  assert (Hser : forall field,
             series field stats (dict_keys stats)
             = Some (map (fun kv => field (snd kv)) stats)).
  { intros field. apply (series_of_keys field stats Hnd stats). auto. }
  rewrite !Hser. eexists. split; [reflexivity|].
  cbn [r_labels r_totals r_wave r_om r_cash r_collected r_modes].
  unfold dict_keys. rewrite !length_map.
  assert (Hval : forall field (h : list payment -> Z),
             (forall k st, In (k, st) stats ->
                           field st
                           = h (filter (fun p => String.eqb (pay_ym p) k) ps)) ->
             sum_Z (map (fun kv => field (snd kv)) stats)
             = sum_Z (map (fun k =>
                             h (filter (fun p => String.eqb (pay_ym p) k) ps))
                          (map fst stats))).
  { intros field h Hf. rewrite map_map. f_equal. apply map_ext_in.
    intros [k st] Hin. cbn [fst snd]. now apply Hf. }
  assert (Hmode : forall md field,
             (forall k st, In (k, st) stats ->
                           field st
                           = sum_mode md
                               (filter (fun p => String.eqb (pay_ym p) k) ps)) ->
             sum_Z (map (fun kv => field (snd kv)) stats) = sum_mode md ps).
  { intros md field Hf. rewrite (Hval field (sum_mode md) Hf).
    rewrite (map_ext _ _ (fun k => sum_mode_group md k ps)).
    unfold sum_mode at 1. apply (sum_amounts_partition (map fst stats)).
    - exact Hnd.
    - intros p Hp. apply filter_In in Hp as [Hp _]. now apply Hcov. }
  split; [exact Hnd|]. do 4 (split; [reflexivity|]).
  split.
  { rewrite (Hval total sum_amounts).
    - unfold total_collected_as_of. fold ps.
      now apply (sum_amounts_partition (map fst stats)).
    - intros k st Hin. apply stats_table_entries in Hin. now rewrite Hin. }
  split; [reflexivity|].
  unfold select_mode_totals. cbn [t_wave_total t_om_total t_cash_total].
  fold ps.
  split; [|split]; apply Hmode; intros k st Hin;
    apply stats_table_entries in Hin; now rewrite Hin.
Qed.

Lemma admin_resume_series_add_up_witness :
  valid_date (project_start_date (settings early_payment_db))
  /\ valid_date (mkdate 2025 12 5)
  /\ exists pg,
      admin_resume true early_payment_db (mkdate 2025 12 5) = inr (inr pg)
      /\ sum_Z (r_totals pg) = 7000.
Proof.
  split; [reflexivity|]. split; [reflexivity|].
  destruct (admin_resume_series_add_up early_payment_db (mkdate 2025 12 5)
              eq_refl eq_refl ltac:(intros e; discriminate))
    as (pg & H1 & _ & _ & _ & _ & _ & H7 & _).
  exists pg. split; [exact H1|]. rewrite H7.
  injection H1 as <-. reflexivity.
Defined.

(** ** The CSV export of the journal *)

Lemma count_char_app c s1 s2 :
  count_char c (s1 ++ s2) = (count_char c s1 + count_char c s2)%nat.
Proof.
  induction s1 as [|c1 s1 IH]; cbn [append count_char]; [reflexivity|].
  rewrite IH. lia.
Qed.

Lemma count_replace_semicolons s :
  count_char ";" (replace_semicolons s) = 0%nat.
Proof.
  induction s as [|c s IH]; cbn [replace_semicolons count_char];
    [reflexivity|].
  rewrite IH. destruct (Ascii.eqb_spec c ";") as [->|Hne]; [reflexivity|].
  destruct (Ascii.eqb_spec c ";"); [contradiction|reflexivity].
Qed.

(* Replacing the semicolons leaves the other characters where they are. *)
Lemma count_replace_other c s :
  c <> ";"%char -> c <> ","%char ->
  count_char c (replace_semicolons s) = count_char c s.
Proof.
  intros H1 H2. induction s as [|c0 s IH]; cbn [replace_semicolons count_char];
    [reflexivity|].
  rewrite IH. destruct (Ascii.eqb_spec c0 ";") as [->|Hne]; [|reflexivity].
  destruct (Ascii.eqb_spec "," c) as [E|_]; [now contradiction H2|].
  destruct (Ascii.eqb_spec ";" c) as [E|_]; [now contradiction H1|].
  reflexivity.
Qed.

Lemma count_all_digits c s :
  is_digit c = false -> all_digits s = true -> count_char c s = 0%nat.
Proof.
  intros Hc. induction s as [|c0 s IH]; cbn [all_digits count_char];
    [reflexivity|].
  intros H. apply andb_true_iff in H as [H0 Hs]. rewrite (IH Hs).
  destruct (Ascii.eqb_spec c0 c) as [->|Hne]; [congruence|reflexivity].
Qed.

Lemma count_isdigit c s :
  is_digit c = false -> isdigit s = true -> count_char c s = 0%nat.
Proof.
  intros Hc. destruct s as [|c0 s]; [reflexivity|]. now apply count_all_digits.
Qed.

Lemma count_format_0d c width n :
  is_digit c = false -> 0 <= n -> count_char c (format_0d width n) = 0%nat.
Proof.
  intros Hc Hn. apply count_isdigit; [assumption|].
  now apply format_0d_reads_back.
Qed.

Lemma count_isoformat c dt :
  is_digit c = false -> c <> "-"%char ->
  valid_date dt -> count_char c (isoformat dt) = 0%nat.
Proof.
  intros Hc Hd Hv. apply valid_date_bounds in Hv as (Hy & Hm & Hday).
  unfold isoformat. rewrite !count_char_app.
  rewrite !count_format_0d by (assumption || lia).
  cbn [count_char]. destruct (Ascii.eqb_spec "-" c) as [E|_];
    [now contradiction Hd|reflexivity].
Qed.

(* A line of the export: six semicolons, and a line break only where a
   name, a reference or a note has one. *)
Lemma csv_line_fields j :
  valid_date (j_pay_date j) -> is_valid_sn_phone (j_phone j) = true ->
  0 < j_amount j -> valid_mode (j_mode j) = true ->
  count_char ";" (csv_line j) = 6%nat
  /\ forall c, c = LF \/ c = CR ->
               count_char c (csv_line j)
               = (count_char c (j_full_name j) + count_char c (j_reference j)
                  + count_char c (j_note j))%nat.
Proof.
  intros Hd Hp Ha Hm.
  unfold is_valid_sn_phone in Hp. apply andb_true_iff in Hp as [Hp _].
  split.
  - unfold csv_line. rewrite !count_char_app.
    rewrite count_isoformat by (reflexivity || discriminate || assumption).
    rewrite !count_replace_semicolons.
    rewrite (count_isdigit ";" _ eq_refl Hp).
    unfold str_of_int. rewrite count_format_0d by (reflexivity || lia).
    apply valid_mode_cases in Hm as [E|[E|E]]; rewrite E; reflexivity.
  - intros c Hc.
    assert (Hdig : is_digit c = false) by (destruct Hc; subst; reflexivity).
    assert (H1 : c <> ";"%char) by (destruct Hc; subst; discriminate).
    assert (H2 : c <> ","%char) by (destruct Hc; subst; discriminate).
    assert (H3 : c <> "-"%char) by (destruct Hc; subst; discriminate).
    unfold csv_line. rewrite !count_char_app.
    rewrite count_isoformat by assumption.
    rewrite !count_replace_other by assumption.
    rewrite (count_isdigit _ _ Hdig Hp).
    unfold str_of_int. rewrite count_format_0d by (assumption || lia).
    assert (Hsep : count_char c ";" = 0%nat)
      by (destruct Hc; subst; reflexivity).
    rewrite Hsep.
    assert (Hmd : count_char c (j_mode j) = 0%nat).
    { apply valid_mode_cases in Hm as [E|[E|E]]; rewrite E;
        destruct Hc; subst; reflexivity. }
    rewrite Hmd. lia.
Qed.

(* Joining texts that hold no separator and splitting again gives the
   texts back. *)
Lemma split_on_no_sep sep s :
  count_char sep s = 0%nat -> split_on sep s = [s].
Proof.
  induction s as [|c s IH]; cbn [count_char split_on]; [reflexivity|].
  destruct (Ascii.eqb c sep); [discriminate|]. cbn [Nat.add].
  intros H. now rewrite (IH H).
Qed.

Lemma split_on_app sep s rest :
  count_char sep s = 0%nat ->
  split_on sep (s ++ String sep rest) = s :: split_on sep rest.
Proof.
  induction s as [|c s IH]; cbn [count_char append split_on].
  - intros _. now rewrite Ascii.eqb_refl.
  - destruct (Ascii.eqb c sep); [discriminate|]. cbn [Nat.add].
    intros H. now rewrite (IH H).
Qed.

Lemma split_on_concat sep l ls :
  Forall (fun s => count_char sep s = 0%nat) (l :: ls) ->
  split_on sep (String.concat (String sep EmptyString) (l :: ls)) = l :: ls.
Proof.
  revert l. induction ls as [|l' ls IH]; intros l H.
  - cbn [String.concat]. apply split_on_no_sep. now inversion H.
  - inversion H as [|? ? Hl Hrest]; subst.
    change (String.concat (String sep EmptyString) (l :: l' :: ls))
      with (l ++ String sep (String.concat (String sep EmptyString) (l' :: ls)))%string.
    rewrite split_on_app by assumption. f_equal. now apply IH.
Qed.

(** X28: the CSV export has seven fields on every line.  When every
    stored payment has a valid date, a positive amount and one of the
    three modes, every member's phone is nine digits, and no name,
    reference or note holds a line break (the handlers strip these texts
    but do not remove an inner line break, and the export replaces only
    the semicolons), the text answered by admin_comptabilite_export_csv,
    split at its line feeds, is the header followed by one line per row
    of the month's journal, oldest first, and each of these lines holds
    exactly six semicolons and no carriage return. *)
Theorem csv_export_lines_have_seven_fields d mois annee :
  Forall payment_wf (payments d) ->
  Forall (fun p => valid_date (pay_date p)) (payments d) ->
  Forall (fun m => is_valid_sn_phone (phone m) = true) (members d) ->
  Forall (fun p => one_line (reference p) /\ one_line (note p)) (payments d) ->
  Forall (fun m => one_line (full_name m)) (members d) ->
  exists content,
    admin_comptabilite_export_csv true d mois annee
    = PlainTextResponse content 200 "text/csv; charset=utf-8"
    /\ split_on LF content
       = csv_header
         :: map csv_line
                (order_by journal_asc (join_journal d (ym_key annee mois)))
    /\ List.length (split_on LF content)
       = S (List.length (join_journal d (ym_key annee mois)))
    /\ Forall (fun l => count_char ";" l = 6%nat /\ count_char CR l = 0%nat)
              (split_on LF content).
Proof.
  intros Hwf Hdates Hphones Htexts Hnames.
  set (journal := order_by journal_asc (join_journal d (ym_key annee mois))).
  assert (Hrow : forall j, In j journal ->
             count_char ";" (csv_line j) = 6%nat
             /\ count_char LF (csv_line j) = 0%nat
             /\ count_char CR (csv_line j) = 0%nat).
  { intros j Hj. apply order_by_In in Hj. unfold join_journal in Hj.
    apply in_flat_map in Hj as (p & Hp & Hj).
    apply filter_In in Hp as [Hp _].
    apply in_map_iff in Hj as (m & <- & Hm).
    apply filter_In in Hm as [Hm _].
    pose proof (proj1 (Forall_forall _ _) Hwf p Hp) as [Ha Hmd].
    pose proof (proj1 (Forall_forall _ _) Htexts p Hp) as [[R1 R2] [N1 N2]].
    pose proof (proj1 (Forall_forall _ _) Hnames m Hm) as [F1 F2].
    destruct (csv_line_fields (journal_row_of p m)) as [H6 Hbr];
      cbn [journal_row_of j_pay_date j_phone j_amount j_mode];
      [exact (proj1 (Forall_forall _ _) Hdates p Hp)
      |exact (proj1 (Forall_forall _ _) Hphones m Hm)
      |exact Ha|exact Hmd|].
    split; [exact H6|].
    cbn [journal_row_of j_full_name j_reference j_note] in Hbr.
    split; [rewrite (Hbr LF) by now left|rewrite (Hbr CR) by now right]; lia. }
  assert (Hsplit : split_on LF (String.concat (String LF EmptyString)
                                              (export_csv_lines d mois annee))
                   = csv_header :: map csv_line journal).
  { unfold export_csv_lines. cbv zeta. fold journal.
    apply split_on_concat. constructor; [reflexivity|].
    apply Forall_forall. intros l Hl.
    apply in_map_iff in Hl as (j & <- & Hj). now apply Hrow. }
  eexists. split; [reflexivity|].
  change (String "010" EmptyString) with (String LF EmptyString).
  rewrite Hsplit. split; [reflexivity|]. split.
  - cbn [List.length]. f_equal. rewrite length_map. unfold journal.
    pose proof (order_by_length_filter journal_asc (fun _ => true)
                  (join_journal d (ym_key annee mois))) as E.
    rewrite !filter_all in E by reflexivity. exact E.
  - constructor; [split; reflexivity|].
    apply Forall_forall. intros l Hl.
    apply in_map_iff in Hl as (j & <- & Hj).
    destruct (Hrow j Hj) as (H1 & _ & H3). split; assumption.
Qed.

Lemma ledger_db_csv_ready :
  Forall payment_wf (payments ledger_db)
  /\ Forall (fun p => valid_date (pay_date p)) (payments ledger_db)
  /\ Forall (fun m => is_valid_sn_phone (phone m) = true) (members ledger_db)
  /\ Forall (fun p => one_line (reference p) /\ one_line (note p))
            (payments ledger_db)
  /\ Forall (fun m => one_line (full_name m)) (members ledger_db).
Proof.
  repeat split; repeat constructor.
Qed.

Lemma csv_export_lines_have_seven_fields_witness :
  Forall payment_wf (payments ledger_db)
  /\ Forall (fun p => valid_date (pay_date p)) (payments ledger_db)
  /\ Forall (fun m => is_valid_sn_phone (phone m) = true) (members ledger_db)
  /\ exists content,
      admin_comptabilite_export_csv true ledger_db 10 2025
      = PlainTextResponse content 200 "text/csv; charset=utf-8"
      /\ split_on LF content
         = [csv_header; "2025-10-20;Awa;770000001;100000;wave;;"%string].
Proof.
  destruct ledger_db_csv_ready as (H1 & H2 & H3 & H4 & H5).
  split; [exact H1|]. split; [exact H2|]. split; [exact H3|].
  destruct (csv_export_lines_have_seven_fields ledger_db 10 2025
              H1 H2 H3 H4 H5) as (content & Hc & Hs & _).
  exists content. split; [exact Hc|]. rewrite Hs. reflexivity.
Defined.
